(** * wsbuilder: the workspace build orchestrator

    A shallow embedding of package [wsbuilder] (the [Builder] object, its
    option setters, [Build], [buildTx], the lazy cache accessors and the
    pre-checks) together with the properties of the build contract.

    The database ([database.Store]) is a Go interface: it is embedded as a
    type class, so every statement holds for every implementation.  The
    other packages the builder calls ([conversion], [provisionerdserver],
    [uuid], [json], [tracing], the parameter resolver) are embedded as a
    second class of collaborators. *)

From Stdlib Require Import ZArith List String Ascii Bool Lia.
Import ListNotations.
Local Open Scope string_scope.
Local Open Scope Z_scope.

(** ** Basic data *)

(** [uuid.UUID] is a 128-bit value; [uuid.Nil] is the all-zero one. *)
Definition UUID := N.
Definition uuid_Nil : UUID := 0%N.

Definition Time := Z.

(** [[]byte]; the nil slice and the empty slice are both [[]]. *)
Definition bytes := list Byte.byte.

(** [uuid.NullUUID] and [sql.NullString]. *)
Record NullUUID := { NullUUID_UUID : UUID; NullUUID_Valid : bool }.
Record NullString := { NullString_String : string; NullString_Valid : bool }.

(** Go's [int32] addition wraps around. *)
Definition int32_wrap (z : Z) : Z := (z + 2^31) mod 2^32 - 2^31.
Definition int32_add (a b : Z) : Z := int32_wrap (a + b).

(** ** Errors

    Go errors form a chain through [Unwrap].  The constructors are the
    error values the builder creates or inspects. *)
#[warnings="-register-all"] Inductive error : Type :=
| ErrNoRows                                   (* sql.ErrNoRows *)
| PqError (Code : string)                     (* *pq.Error *)
| ErrNew (msg : string)                       (* xerrors.New(msg), or any opaque error *)
| Errorf (msg : string) (wrapped : option error)
                                              (* xerrors.Errorf(msg ++ "%w", err) *)
| BuildError (Status : Z) (Message : string) (Wrapped : error).

(** [(T, error)] results. *)
Inductive result (A : Type) : Type :=
| Ok (a : A)
| Err (e : error).
Arguments Ok {A} a.
Arguments Err {A} e.

(** [xerrors.As(err, &pqe)]: the first [*pq.Error] of the chain, if any. *)
Fixpoint asPqError (e : error) : option string :=
  match e with
  | PqError c => Some c
  | Errorf _ (Some e') => asPqError e'
  | BuildError _ _ w => asPqError w
  | _ => None
  end.

(** [xerrors.Is(err, sql.ErrNoRows)]. *)
Fixpoint isErrNoRows (e : error) : bool :=
  match e with
  | ErrNoRows => true
  | Errorf _ (Some e') => isErrNoRows e'
  | BuildError _ _ w => isErrNoRows w
  | _ => false
  end.

(** [xerrors.As(err, &buildErr)]: the first [BuildError] of the chain. *)
Fixpoint asBuildError (e : error) : option (Z * string) :=
  match e with
  | BuildError st m _ => Some (st, m)
  | Errorf _ (Some e') => asBuildError e'
  | _ => None
  end.

(** The retry test of [Build]:
    [xerrors.As(err, &pqe) && pqe.Code == "40001"]. *)
Definition isSerializationFailure (err : option error) : bool :=
  match err with
  | None => false
  | Some e =>
      match asPqError e with
      | Some code => String.eqb code "40001"
      | None => false
      end
  end.

(** [net/http] status codes used by the builder. *)
Definition StatusBadRequest : Z := 400.
Definition StatusForbidden : Z := 403.
Definition StatusNotFound : Z := 404.
Definition StatusNotAcceptable : Z := 406.
Definition StatusConflict : Z := 409.
Definition StatusInternalServerError : Z := 500.

(** ** Database rows (the fields the builder reads or writes) *)

Definition Tags := list (string * string).

Record Workspace := {
  Workspace_ID : UUID;
  Workspace_OwnerID : UUID;
  Workspace_TemplateID : UUID }.

Record Template := {
  Template_ID : UUID;
  Template_OrganizationID : UUID;
  Template_Provisioner : string;
  Template_ActiveVersionID : UUID }.

Record TemplateVersion := {
  TemplateVersion_ID : UUID;
  TemplateVersion_TemplateID : NullUUID;
  TemplateVersion_Name : string;
  TemplateVersion_JobID : UUID }.

Record ProvisionerJob := {
  ProvisionerJob_ID : UUID;
  ProvisionerJob_UpdatedAt : Time;
  ProvisionerJob_StartedAt : option Time;
  ProvisionerJob_CanceledAt : option Time;
  ProvisionerJob_CompletedAt : option Time;
  ProvisionerJob_Error : NullString;
  ProvisionerJob_StorageMethod : string;
  ProvisionerJob_FileID : UUID;
  ProvisionerJob_Tags : Tags }.

(** [database.WorkspaceTransition] and [database.BuildReason] are string
    types; any string is a value of them. *)
Definition WorkspaceTransition := string.
Definition WorkspaceTransitionStart : WorkspaceTransition := "start".
Definition WorkspaceTransitionStop : WorkspaceTransition := "stop".
Definition WorkspaceTransitionDelete : WorkspaceTransition := "delete".

Definition BuildReason := string.
Definition BuildReasonInitiator : BuildReason := "initiator".

Record WorkspaceBuild := {
  WorkspaceBuild_ID : UUID;
  WorkspaceBuild_WorkspaceID : UUID;
  WorkspaceBuild_TemplateVersionID : UUID;
  WorkspaceBuild_BuildNumber : Z;             (* int32 *)
  WorkspaceBuild_ProvisionerState : bytes;
  WorkspaceBuild_InitiatorID : UUID;
  WorkspaceBuild_Transition : WorkspaceTransition;
  WorkspaceBuild_JobID : UUID;
  WorkspaceBuild_Reason : BuildReason }.

Record ParameterValue := {
  ParameterValue_ID : UUID;
  ParameterValue_Name : string;
  ParameterValue_SourceValue : string }.

(** [database.WorkspaceBuildParameter]. *)
Record DBWorkspaceBuildParameter := {
  DBWorkspaceBuildParameter_WorkspaceBuildID : UUID;
  DBWorkspaceBuildParameter_Name : string;
  DBWorkspaceBuildParameter_Value : string }.

(** [database.TemplateVersionParameter]: the name and the rest of the
    schema entry, which only the parameter resolver looks into. *)
Record TemplateVersionParameter := {
  TemplateVersionParameter_Name : string;
  TemplateVersionParameter_Schema : string }.

(** [codersdk.CreateParameterRequest] and [codersdk.WorkspaceBuildParameter]. *)
Record CreateParameterRequest := {
  CreateParameterRequest_Name : string;
  CreateParameterRequest_SourceValue : string;
  CreateParameterRequest_SourceScheme : string;
  CreateParameterRequest_DestinationScheme : string }.

Record WorkspaceBuildParameter := {
  WorkspaceBuildParameter_Name : string;
  WorkspaceBuildParameter_Value : string }.

(** ** Parameters of the store's write operations *)

Record InsertParameterValueParams := {
  IPV_ID : UUID;
  IPV_Name : string;
  IPV_CreatedAt : Time;
  IPV_UpdatedAt : Time;
  IPV_Scope : string;
  IPV_ScopeID : UUID;
  IPV_SourceScheme : string;
  IPV_SourceValue : string;
  IPV_DestinationScheme : string }.

(** [pqtype.NullRawMessage]. *)
Record NullRawMessage := {
  NullRawMessage_RawMessage : bytes;
  NullRawMessage_Valid : bool }.

Record InsertProvisionerJobParams := {
  IPJ_ID : UUID;
  IPJ_CreatedAt : Time;
  IPJ_UpdatedAt : Time;
  IPJ_InitiatorID : UUID;
  IPJ_OrganizationID : UUID;
  IPJ_Provisioner : string;
  IPJ_Type : string;
  IPJ_StorageMethod : string;
  IPJ_FileID : UUID;
  IPJ_Input : bytes;
  IPJ_Tags : Tags;
  IPJ_TraceMetadata : NullRawMessage }.

(** [database.ProvisionerJobTypeWorkspaceBuild]. *)
Definition ProvisionerJobTypeWorkspaceBuild : string := "workspace_build".

Record InsertWorkspaceBuildParams := {
  IWB_ID : UUID;
  IWB_CreatedAt : Time;
  IWB_UpdatedAt : Time;
  IWB_WorkspaceID : UUID;
  IWB_TemplateVersionID : UUID;
  IWB_BuildNumber : Z;
  IWB_ProvisionerState : bytes;
  IWB_InitiatorID : UUID;
  IWB_Transition : WorkspaceTransition;
  IWB_JobID : UUID;
  IWB_Reason : BuildReason }.

Record InsertWorkspaceBuildParametersParams := {
  IWBP_WorkspaceBuildID : UUID;
  IWBP_Name : list string;
  IWBP_Value : list string }.

(** The write calls a transaction issues, in order. *)
Inductive Write : Type :=
| WDeleteParameterValueByID (id : UUID)
| WInsertParameterValue (p : InsertParameterValueParams)
| WInsertProvisionerJob (p : InsertProvisionerJobParams)
| WInsertWorkspaceBuild (p : InsertWorkspaceBuildParams)
| WInsertWorkspaceBuildParameters (p : InsertWorkspaceBuildParametersParams).

(** ** Authorization *)

(** [rbac.Action]. *)
Inductive Action := ActionCreate | ActionRead | ActionUpdate | ActionDelete.

(** The [rbac.Objecter] values the builder hands to [authFunc]: the
    workspace, the template, and the template's [RBACObject()]. *)
Inductive Objecter : Type :=
| ObjWorkspace (w : Workspace)
| ObjTemplate (t : Template)
| ObjTemplateRBACObject (t : Template).

(** A Go function value that may be nil. *)
Definition AuthFunc := option (Action -> Objecter -> bool).

(** ** Provisioner job status *)

(** Modelled from the spec: the five statuses a job's timestamps and error
    field collapse to (the [codersdk.ProvisionerJobStatus] declaration is not
    part of the sources). *)
Inductive ProvisionerJobStatus :=
| ProvisionerJobPending
| ProvisionerJobRunning
| ProvisionerJobSucceeded
| ProvisionerJobFailed
| ProvisionerJobCanceled.

(** Modelled from the spec: "Active" = pending or running
    ([ProvisionerJobStatus.Active] is not part of the sources). *)
Definition Active (p : ProvisionerJobStatus) : bool :=
  match p with
  | ProvisionerJobPending | ProvisionerJobRunning => true
  | _ => false
  end.

(** The string a status prints as under [%s]. *)
Definition statusString (p : ProvisionerJobStatus) : string :=
  match p with
  | ProvisionerJobPending => "pending"
  | ProvisionerJobRunning => "running"
  | ProvisionerJobSucceeded => "succeeded"
  | ProvisionerJobFailed => "failed"
  | ProvisionerJobCanceled => "canceled"
  end.

(** ** Collaborators

    The store and the packages called by the builder.  Their sources are not
    part of package [wsbuilder]; the builder is verified against their
    interfaces. *)

(** [codersdk.TemplateVersionParameter] and [codersdk.Parameter], the
    converted forms handed to the resolver. *)
Record SDKTemplateVersionParameter := {
  SDKTemplateVersionParameter_Name : string;
  SDKTemplateVersionParameter_Schema : string }.

Record SDKParameter := {
  SDKParameter_Name : string;
  SDKParameter_SourceValue : string }.

(** [codersdk.ParameterResolver]. *)
Record ParameterResolver := {
  Rich : list WorkspaceBuildParameter;
  Legacy : list SDKParameter }.

(** [database.ParameterScope]. *)
Definition ParameterScope := string.
Definition ParameterScopeWorkspace : ParameterScope := "workspace".

(** [database.ParameterValuesParams]. *)
Record ParameterValuesParams := {
  Scopes : list ParameterScope;
  ScopeIds : list UUID }.

(** [database.Store], restricted to the methods the builder calls.  A read
    is a function of the handle; a write also yields the handle's next
    state.  The three [tx] operations are what [InTx] is made of: the handle
    a transaction starts from, and the store left behind by a commit or a
    rollback. *)
Class Store (S : Type) := {
  GetTemplateByID : S -> UUID -> result Template;
  GetTemplateVersionByID : S -> UUID -> result TemplateVersion;
  GetProvisionerJobByID : S -> UUID -> result ProvisionerJob;
  GetLatestWorkspaceBuildByWorkspaceID : S -> UUID -> result WorkspaceBuild;
  GetWorkspaceBuildParameters :
    S -> UUID -> list DBWorkspaceBuildParameter * option error;
  GetTemplateVersionParameters :
    S -> UUID -> list TemplateVersionParameter * option error;
  ParameterValues :
    S -> ParameterValuesParams -> list ParameterValue * option error;
  DeleteParameterValueByID : S -> UUID -> option error * S;
  InsertParameterValue :
    S -> InsertParameterValueParams -> result ParameterValue * S;
  InsertProvisionerJob :
    S -> InsertProvisionerJobParams -> result ProvisionerJob * S;
  InsertWorkspaceBuild :
    S -> InsertWorkspaceBuildParams -> result WorkspaceBuild * S;
  InsertWorkspaceBuildParameters :
    S -> InsertWorkspaceBuildParametersParams -> option error * S;
  txBegin : S -> S;
  txCommit : S -> S -> S;
  txRollback : S -> S -> S }.

(** The other packages.  [uuid_New n] and [database_Now n] are the values
    [uuid.New()] and [database.Now()] return at the [n]-th draw of the
    process; [escaped] is the escaping the [%q] verb applies between the
    quotes, and [fmt_UUID], [fmt_NullUUID] are the [%s] verb on identifiers. *)
Class Collaborators := {
  ConvertProvisionerJobStatus : ProvisionerJob -> ProvisionerJobStatus;
  MutateTags : UUID -> Tags -> Tags;
  uuid_New : nat -> UUID;
  database_Now : nat -> Time;
  marshalWorkspaceProvisionJob : UUID -> string -> result bytes;
  marshalTraceMetadata : result bytes;
  conversion_WorkspaceBuildParameters :
    list DBWorkspaceBuildParameter -> list WorkspaceBuildParameter;
  conversion_Parameters : list ParameterValue -> list SDKParameter;
  conversion_TemplateVersionParameter :
    TemplateVersionParameter -> result SDKTemplateVersionParameter;
  ValidateResolve :
    ParameterResolver -> SDKTemplateVersionParameter ->
    option WorkspaceBuildParameter -> result string;
  errorString : error -> string;
  ResourceNotFoundMessage : string;
  escaped : string -> string;
  fmt_UUID : UUID -> string;
  fmt_NullUUID : NullUUID -> string }.

(** The [%q] verb: the escaped string between double quotes. *)
Definition quoted (s : string) : string :=
  String (ascii_of_nat 34) (s ++ String (ascii_of_nat 34) EmptyString).

Definition fmt_q `{Collaborators} (s : string) : string := quoted (escaped s).

(** ** The Builder *)

Record versionTarget := {
  active : bool;
  specific : option UUID }.

Record stateTarget := {
  orphan : bool;
  explicit : option bytes }.

(** The struct of the source without [ctx] (cancellation is not modelled)
    and [store], which is the handle component of the run state below. *)
Record Builder := {
  workspace : Workspace;
  trans : WorkspaceTransition;
  version : versionTarget;
  state : stateTarget;
  logLevel : string;
  legacyParameterValues : list CreateParameterRequest;
  richParameterValues : list WorkspaceBuildParameter;
  initiator : UUID;
  reason : BuildReason;
  template : option Template;
  templateVersion : option TemplateVersion;
  templateVersionJob : option ProvisionerJob;
  templateVersionParameters : option (list TemplateVersionParameter);
  lastBuild : option WorkspaceBuild;
  lastBuildParameters : option (list DBWorkspaceBuildParameter);
  lastParameterValues : option (list ParameterValue);
  lastBuildJob : option ProvisionerJob }.

(** Field assignment [b.f = v]. *)
Definition set_version (v : versionTarget) (b : Builder) : Builder :=
  {| workspace := workspace b;
     trans := trans b;
     version := v;
     state := state b;
     logLevel := logLevel b;
     legacyParameterValues := legacyParameterValues b;
     richParameterValues := richParameterValues b;
     initiator := initiator b;
     reason := reason b;
     template := template b;
     templateVersion := templateVersion b;
     templateVersionJob := templateVersionJob b;
     templateVersionParameters := templateVersionParameters b;
     lastBuild := lastBuild b;
     lastBuildParameters := lastBuildParameters b;
     lastParameterValues := lastParameterValues b;
     lastBuildJob := lastBuildJob b |}.

Definition set_state (v : stateTarget) (b : Builder) : Builder :=
  {| workspace := workspace b;
     trans := trans b;
     version := version b;
     state := v;
     logLevel := logLevel b;
     legacyParameterValues := legacyParameterValues b;
     richParameterValues := richParameterValues b;
     initiator := initiator b;
     reason := reason b;
     template := template b;
     templateVersion := templateVersion b;
     templateVersionJob := templateVersionJob b;
     templateVersionParameters := templateVersionParameters b;
     lastBuild := lastBuild b;
     lastBuildParameters := lastBuildParameters b;
     lastParameterValues := lastParameterValues b;
     lastBuildJob := lastBuildJob b |}.

Definition set_logLevel (v : string) (b : Builder) : Builder :=
  {| workspace := workspace b;
     trans := trans b;
     version := version b;
     state := state b;
     logLevel := v;
     legacyParameterValues := legacyParameterValues b;
     richParameterValues := richParameterValues b;
     initiator := initiator b;
     reason := reason b;
     template := template b;
     templateVersion := templateVersion b;
     templateVersionJob := templateVersionJob b;
     templateVersionParameters := templateVersionParameters b;
     lastBuild := lastBuild b;
     lastBuildParameters := lastBuildParameters b;
     lastParameterValues := lastParameterValues b;
     lastBuildJob := lastBuildJob b |}.

Definition set_legacyParameterValues (v : list CreateParameterRequest) (b : Builder) : Builder :=
  {| workspace := workspace b;
     trans := trans b;
     version := version b;
     state := state b;
     logLevel := logLevel b;
     legacyParameterValues := v;
     richParameterValues := richParameterValues b;
     initiator := initiator b;
     reason := reason b;
     template := template b;
     templateVersion := templateVersion b;
     templateVersionJob := templateVersionJob b;
     templateVersionParameters := templateVersionParameters b;
     lastBuild := lastBuild b;
     lastBuildParameters := lastBuildParameters b;
     lastParameterValues := lastParameterValues b;
     lastBuildJob := lastBuildJob b |}.

Definition set_richParameterValues (v : list WorkspaceBuildParameter) (b : Builder) : Builder :=
  {| workspace := workspace b;
     trans := trans b;
     version := version b;
     state := state b;
     logLevel := logLevel b;
     legacyParameterValues := legacyParameterValues b;
     richParameterValues := v;
     initiator := initiator b;
     reason := reason b;
     template := template b;
     templateVersion := templateVersion b;
     templateVersionJob := templateVersionJob b;
     templateVersionParameters := templateVersionParameters b;
     lastBuild := lastBuild b;
     lastBuildParameters := lastBuildParameters b;
     lastParameterValues := lastParameterValues b;
     lastBuildJob := lastBuildJob b |}.

Definition set_initiator (v : UUID) (b : Builder) : Builder :=
  {| workspace := workspace b;
     trans := trans b;
     version := version b;
     state := state b;
     logLevel := logLevel b;
     legacyParameterValues := legacyParameterValues b;
     richParameterValues := richParameterValues b;
     initiator := v;
     reason := reason b;
     template := template b;
     templateVersion := templateVersion b;
     templateVersionJob := templateVersionJob b;
     templateVersionParameters := templateVersionParameters b;
     lastBuild := lastBuild b;
     lastBuildParameters := lastBuildParameters b;
     lastParameterValues := lastParameterValues b;
     lastBuildJob := lastBuildJob b |}.

Definition set_reason (v : BuildReason) (b : Builder) : Builder :=
  {| workspace := workspace b;
     trans := trans b;
     version := version b;
     state := state b;
     logLevel := logLevel b;
     legacyParameterValues := legacyParameterValues b;
     richParameterValues := richParameterValues b;
     initiator := initiator b;
     reason := v;
     template := template b;
     templateVersion := templateVersion b;
     templateVersionJob := templateVersionJob b;
     templateVersionParameters := templateVersionParameters b;
     lastBuild := lastBuild b;
     lastBuildParameters := lastBuildParameters b;
     lastParameterValues := lastParameterValues b;
     lastBuildJob := lastBuildJob b |}.

Definition set_template (v : option Template) (b : Builder) : Builder :=
  {| workspace := workspace b;
     trans := trans b;
     version := version b;
     state := state b;
     logLevel := logLevel b;
     legacyParameterValues := legacyParameterValues b;
     richParameterValues := richParameterValues b;
     initiator := initiator b;
     reason := reason b;
     template := v;
     templateVersion := templateVersion b;
     templateVersionJob := templateVersionJob b;
     templateVersionParameters := templateVersionParameters b;
     lastBuild := lastBuild b;
     lastBuildParameters := lastBuildParameters b;
     lastParameterValues := lastParameterValues b;
     lastBuildJob := lastBuildJob b |}.

Definition set_templateVersion (v : option TemplateVersion) (b : Builder) : Builder :=
  {| workspace := workspace b;
     trans := trans b;
     version := version b;
     state := state b;
     logLevel := logLevel b;
     legacyParameterValues := legacyParameterValues b;
     richParameterValues := richParameterValues b;
     initiator := initiator b;
     reason := reason b;
     template := template b;
     templateVersion := v;
     templateVersionJob := templateVersionJob b;
     templateVersionParameters := templateVersionParameters b;
     lastBuild := lastBuild b;
     lastBuildParameters := lastBuildParameters b;
     lastParameterValues := lastParameterValues b;
     lastBuildJob := lastBuildJob b |}.

Definition set_templateVersionJob (v : option ProvisionerJob) (b : Builder) : Builder :=
  {| workspace := workspace b;
     trans := trans b;
     version := version b;
     state := state b;
     logLevel := logLevel b;
     legacyParameterValues := legacyParameterValues b;
     richParameterValues := richParameterValues b;
     initiator := initiator b;
     reason := reason b;
     template := template b;
     templateVersion := templateVersion b;
     templateVersionJob := v;
     templateVersionParameters := templateVersionParameters b;
     lastBuild := lastBuild b;
     lastBuildParameters := lastBuildParameters b;
     lastParameterValues := lastParameterValues b;
     lastBuildJob := lastBuildJob b |}.

Definition set_templateVersionParameters (v : option (list TemplateVersionParameter)) (b : Builder) : Builder :=
  {| workspace := workspace b;
     trans := trans b;
     version := version b;
     state := state b;
     logLevel := logLevel b;
     legacyParameterValues := legacyParameterValues b;
     richParameterValues := richParameterValues b;
     initiator := initiator b;
     reason := reason b;
     template := template b;
     templateVersion := templateVersion b;
     templateVersionJob := templateVersionJob b;
     templateVersionParameters := v;
     lastBuild := lastBuild b;
     lastBuildParameters := lastBuildParameters b;
     lastParameterValues := lastParameterValues b;
     lastBuildJob := lastBuildJob b |}.

Definition set_lastBuild (v : option WorkspaceBuild) (b : Builder) : Builder :=
  {| workspace := workspace b;
     trans := trans b;
     version := version b;
     state := state b;
     logLevel := logLevel b;
     legacyParameterValues := legacyParameterValues b;
     richParameterValues := richParameterValues b;
     initiator := initiator b;
     reason := reason b;
     template := template b;
     templateVersion := templateVersion b;
     templateVersionJob := templateVersionJob b;
     templateVersionParameters := templateVersionParameters b;
     lastBuild := v;
     lastBuildParameters := lastBuildParameters b;
     lastParameterValues := lastParameterValues b;
     lastBuildJob := lastBuildJob b |}.

Definition set_lastParameterValues (v : option (list ParameterValue)) (b : Builder) : Builder :=
  {| workspace := workspace b;
     trans := trans b;
     version := version b;
     state := state b;
     logLevel := logLevel b;
     legacyParameterValues := legacyParameterValues b;
     richParameterValues := richParameterValues b;
     initiator := initiator b;
     reason := reason b;
     template := template b;
     templateVersion := templateVersion b;
     templateVersionJob := templateVersionJob b;
     templateVersionParameters := templateVersionParameters b;
     lastBuild := lastBuild b;
     lastBuildParameters := lastBuildParameters b;
     lastParameterValues := v;
     lastBuildJob := lastBuildJob b |}.

Definition set_lastBuildJob (v : option ProvisionerJob) (b : Builder) : Builder :=
  {| workspace := workspace b;
     trans := trans b;
     version := version b;
     state := state b;
     logLevel := logLevel b;
     legacyParameterValues := legacyParameterValues b;
     richParameterValues := richParameterValues b;
     initiator := initiator b;
     reason := reason b;
     template := template b;
     templateVersion := templateVersion b;
     templateVersionJob := templateVersionJob b;
     templateVersionParameters := templateVersionParameters b;
     lastBuild := lastBuild b;
     lastBuildParameters := lastBuildParameters b;
     lastParameterValues := lastParameterValues b;
     lastBuildJob := v |}.

(** The option setters: value receiver, so each returns a configured copy. *)
Definition New (w : Workspace) (t : WorkspaceTransition) : Builder :=
  {| workspace := w; trans := t;
     version := {| active := false; specific := None |};
     state := {| orphan := false; explicit := None |};
     logLevel := ""; legacyParameterValues := []; richParameterValues := [];
     initiator := uuid_Nil; reason := "";
     template := None; templateVersion := None; templateVersionJob := None;
     templateVersionParameters := None; lastBuild := None;
     lastBuildParameters := None; lastParameterValues := None;
     lastBuildJob := None |}.

Definition VersionID (v : UUID) (b : Builder) : Builder :=
  set_version {| active := false; specific := Some v |} b.

Definition ActiveVersion (b : Builder) : Builder :=
  set_version {| active := true; specific := None |} b.

Definition State (st : bytes) (b : Builder) : Builder :=
  set_state {| orphan := false; explicit := Some st |} b.

Definition Orphan (b : Builder) : Builder :=
  set_state {| orphan := true; explicit := None |} b.

Definition LogLevel (l : string) (b : Builder) : Builder := set_logLevel l b.

Definition Initiator (u : UUID) (b : Builder) : Builder := set_initiator u b.

Definition Reason (r : BuildReason) (b : Builder) : Builder := set_reason r b.

Definition LegacyParameterValues (p : list CreateParameterRequest)
    (b : Builder) : Builder :=
  set_legacyParameterValues p b.

Definition RichParameterValues (p : list WorkspaceBuildParameter)
    (b : Builder) : Builder :=
  set_richParameterValues p b.

Definition SetLastWorkspaceBuildInTx (build : option WorkspaceBuild)
    (b : Builder) : Builder :=
  set_lastBuild build b.

Definition SetLastWorkspaceBuildJobInTx (job : option ProvisionerJob)
    (b : Builder) : Builder :=
  set_lastBuildJob job b.

(** ** Running the builder *)

Section Run.
Context {S : Type} `{Store S} `{Collaborators}.

(** What a method of [*Builder] can read and change: the builder itself,
    the transaction handle [b.store] with the write calls issued on it so
    far, and the number of [uuid.New()] / [database.Now()] draws made. *)
Record St := {
  bld : Builder;
  tx : S;
  writes : list Write;
  tick : nat }.

(** State and error: the state survives a failure, as a Go method that
    returns an error leaves its receiver modified. *)
Definition M (A : Type) : Type := St -> result A * St.

Definition ret {A} (a : A) : M A := fun st => (Ok a, st).

Definition fail {A} (e : error) : M A := fun st => (Err e, st).

Definition bind {A B} (m : M A) (f : A -> M B) : M B :=
  fun st =>
    match m st with
    | (Ok a, st') => f a st'
    | (Err e, st') => (Err e, st')
    end.

(** [x, err := m; if err != nil { return w(err) }]. *)
Definition wrapErr {A} (w : error -> error) (m : M A) : M A :=
  fun st =>
    match m st with
    | (Ok a, st') => (Ok a, st')
    | (Err e, st') => (Err (w e), st')
    end.

Definition getB : M Builder := fun st => (Ok (bld st), st).

Definition modB (f : Builder -> Builder) : M unit :=
  fun st =>
    (Ok tt, {| bld := f (bld st); tx := tx st; writes := writes st;
               tick := tick st |}).

(** A read through [b.store]. *)
Definition readStore {A} (f : S -> A) : M A := fun st => (Ok (f (tx st)), st).

(** A read whose Go signature is [(T, error)]. *)
Definition queryStore {A} (f : S -> result A) : M A := fun st => (f (tx st), st).

(** A write through [b.store]: the call is recorded, the handle advances. *)
Definition writeStore {A} (w : Write) (f : S -> A * S) : M A :=
  fun st =>
    let (a, tx') := f (tx st) in
    (Ok a, {| bld := bld st; tx := tx'; writes := writes st ++ [w];
              tick := tick st |}).

Definition draw {A} (f : nat -> A) : M A :=
  fun st =>
    (Ok (f (tick st)),
     {| bld := bld st; tx := tx st; writes := writes st;
        tick := Datatypes.S (tick st) |}).

(** A pure [(T, error)] call. *)
Definition liftResult {A} (r : result A) : M A := fun st => (r, st).

End Run.

Arguments St S : clear implicits.
Arguments M S A : clear implicits.

Declare Scope builder_scope.
Delimit Scope builder_scope with builder.
Notation "x <- m ;; k" := (bind m (fun x => k))
  (at level 61, m at next level, right associativity) : builder_scope.
Notation "m ;;; k" := (bind m (fun _ => k))
  (at level 61, right associativity) : builder_scope.
Local Open Scope builder_scope.

Section Methods.
Context {S : Type} `{Store S} `{Collaborators}.

Definition getTemplate : M S Template :=
  b <- getB ;;
  match template b with
  | Some t => ret t
  | None =>
      t <- queryStore
             (fun s => GetTemplateByID s (Workspace_TemplateID (workspace b))) ;;
      modB (set_template (Some t)) ;;;
      ret t
  end.

Definition getLastBuild : M S WorkspaceBuild :=
  b <- getB ;;
  match lastBuild b with
  | Some bl => ret bl
  | None =>
      bl <- queryStore
              (fun s => GetLatestWorkspaceBuildByWorkspaceID s
                          (Workspace_ID (workspace b))) ;;
      modB (set_lastBuild (Some bl)) ;;;
      ret bl
  end.

Definition getTemplateVersionID : M S UUID :=
  b <- getB ;;
  match specific (version b) with
  | Some v => ret v
  | None =>
      if active (version b) then
        t <- getTemplate ;;
        ret (Template_ActiveVersionID t)
      else
        (* default is prior version *)
        bl <- getLastBuild ;;
        ret (WorkspaceBuild_TemplateVersionID bl)
  end.

Definition getTemplateVersion : M S TemplateVersion :=
  b <- getB ;;
  match templateVersion b with
  | Some v => ret v
  | None =>
      id <- getTemplateVersionID ;;
      v <- queryStore (fun s => GetTemplateVersionByID s id) ;;
      modB (set_templateVersion (Some v)) ;;;
      ret v
  end.

Definition getTemplateVersionJob : M S ProvisionerJob :=
  b <- getB ;;
  match templateVersionJob b with
  | Some j => ret j
  | None =>
      v <- getTemplateVersion ;;
      j <- queryStore (fun s => GetProvisionerJobByID s (TemplateVersion_JobID v)) ;;
      modB (set_templateVersionJob (Some j)) ;;;
      ret j
  end.

Definition getBuildNumber : M S Z :=
  bl <- getLastBuild ;;
  ret (int32_add (WorkspaceBuild_BuildNumber bl) 1).

Definition getState : M S bytes :=
  b <- getB ;;
  if orphan (state b) then
    (* Orphan means empty state. *)
    ret []
  else
    match explicit (state b) with
    | Some st => ret st
    | None =>
        (* Default is to use state from prior build *)
        bl <- getLastBuild ;;
        ret (WorkspaceBuild_ProvisionerState bl)
    end.

(** [if err != nil && !xerrors.Is(err, sql.ErrNoRows) { return nil, err }]
    followed by the use of the returned slice. *)
Definition tolerateNoRows {A} (r : list A * option error) : result (list A) :=
  match snd r with
  | Some e => if isErrNoRows e then Ok (fst r) else Err e
  | None => Ok (fst r)
  end.

Definition getLastBuildParameters : M S (list DBWorkspaceBuildParameter) :=
  b <- getB ;;
  match lastBuildParameters b with
  | Some ps => ret ps
  | None =>
      bl <- getLastBuild ;;
      queryStore (fun s => tolerateNoRows
                             (GetWorkspaceBuildParameters s (WorkspaceBuild_ID bl)))
  end.

Definition getTemplateVersionParameters : M S (list TemplateVersionParameter) :=
  b <- getB ;;
  match templateVersionParameters b with
  | Some ps => ret ps
  | None =>
      tvID <- getTemplateVersionID ;;
      tvp <- queryStore (fun s => tolerateNoRows (GetTemplateVersionParameters s tvID)) ;;
      modB (set_templateVersionParameters (Some tvp)) ;;;
      ret tvp
  end.

Definition getLastParameterValues : M S (list ParameterValue) :=
  b <- getB ;;
  match lastParameterValues b with
  | Some pv => ret pv
  | None =>
      pv <- queryStore
              (fun s => tolerateNoRows
                 (ParameterValues s
                    {| Scopes := [ParameterScopeWorkspace];
                       ScopeIds := [Workspace_ID (workspace b)] |})) ;;
      modB (set_lastParameterValues (Some pv)) ;;;
      ret pv
  end.

Definition getLastBuildJob : M S ProvisionerJob :=
  b <- getB ;;
  match lastBuildJob b with
  | Some j => ret j
  | None =>
      bl <- getLastBuild ;;
      job <- queryStore (fun s => GetProvisionerJobByID s (WorkspaceBuild_JobID bl)) ;;
      modB (set_lastBuildJob (Some job)) ;;;
      ret job
  end.

Fixpoint findNewBuildParameterValue (rich : list WorkspaceBuildParameter)
    (name : string) : option WorkspaceBuildParameter :=
  match rich with
  | [] => None
  | v :: rest =>
      if String.eqb (WorkspaceBuildParameter_Name v) name then Some v
      else findNewBuildParameterValue rest name
  end.

(** The loop of [getParameters] over the schema entries; [names] and
    [values] are the slices appended to so far. *)
Fixpoint resolveParameters (resolver : ParameterResolver)
    (rich : list WorkspaceBuildParameter)
    (tvps : list TemplateVersionParameter) (names values : list string)
    : result (list string * list string) :=
  match tvps with
  | [] => Ok (names, values)
  | templateVersionParameter :: rest =>
      match conversion_TemplateVersionParameter templateVersionParameter with
      | Err err =>
          Err (BuildError StatusInternalServerError
                 "failed to convert template version parameter" err)
      | Ok tvp =>
          match ValidateResolve resolver tvp
                  (findNewBuildParameterValue rich
                     (TemplateVersionParameter_Name templateVersionParameter)) with
          | Err err => Err (BuildError StatusBadRequest (errorString err) err)
          | Ok value =>
              resolveParameters resolver rich rest
                (names ++ [TemplateVersionParameter_Name templateVersionParameter])
                (values ++ [value])
          end
      end
  end.

Definition getParameters : M S (list string * list string) :=
  templateVersionParameters <-
    wrapErr (BuildError StatusInternalServerError
               "failed to fetch template version parameters")
            getTemplateVersionParameters ;;
  lastBuildParameters <-
    wrapErr (BuildError StatusInternalServerError
               "failed to fetch last build parameters")
            getLastBuildParameters ;;
  lastParameterValues <-
    wrapErr (BuildError StatusInternalServerError
               "failed to fetch last parameter values")
            getLastParameterValues ;;
  b <- getB ;;
  liftResult
    (resolveParameters
       {| Rich := conversion_WorkspaceBuildParameters lastBuildParameters;
          Legacy := conversion_Parameters lastParameterValues |}
       (richParameterValues b) templateVersionParameters [] []).

End Methods.

Section Checks.
Context {S : Type} `{Store S} `{Collaborators}.

Definition emptyErr : error := ErrNew "".

(** [authorize] performs build authorization pre-checks using the provided
    [authFunc]. *)
Definition authorize (authFunc : Action -> Objecter -> bool) : M S unit :=
  b <- getB ;;
  action <-
    (if String.eqb (trans b) WorkspaceTransitionDelete then ret ActionDelete
     else if String.eqb (trans b) WorkspaceTransitionStart
             || String.eqb (trans b) WorkspaceTransitionStop
     then ret ActionUpdate
     else fail (BuildError StatusBadRequest
                  ("Transition " ++ fmt_q (trans b) ++ " not supported.")
                  emptyErr)) ;;
  if negb (authFunc action (ObjWorkspace (workspace b))) then
    fail (BuildError StatusNotFound ResourceNotFoundMessage emptyErr)
  else
    template <- wrapErr (BuildError StatusInternalServerError
                           "failed to fetch template") getTemplate ;;
    (match explicit (state b), orphan (state b) with
     | None, false => ret tt
     | _, _ =>
         if negb (authFunc ActionUpdate (ObjTemplateRBACObject template)) then
           fail (BuildError StatusForbidden
                   "Only template managers may provide custom state" emptyErr)
         else ret tt
     end) ;;;
    if negb (String.eqb (logLevel b) "")
       && negb (authFunc ActionUpdate (ObjTemplate template))
    then
      fail (BuildError StatusBadRequest
              "Workspace builds with a custom log level are restricted to template authors only."
              emptyErr)
    else ret tt.

Definition checkTemplateVersionMatchesTemplate : M S unit :=
  template <- wrapErr (BuildError StatusInternalServerError
                         "failed to fetch template") getTemplate ;;
  templateVersion <- wrapErr (BuildError StatusInternalServerError
                                "failed to fetch template version")
                             getTemplateVersion ;;
  if negb (NullUUID_Valid (TemplateVersion_TemplateID templateVersion))
     || negb (N.eqb (NullUUID_UUID (TemplateVersion_TemplateID templateVersion))
                    (Template_ID template))
  then
    fail (BuildError StatusBadRequest
            "template version doesn't match template"
            (ErrNew ("templateVersion.TemplateID = "
                     ++ fmt_NullUUID (TemplateVersion_TemplateID templateVersion)
                     ++ ", template.ID = " ++ fmt_UUID (Template_ID template))))
  else ret tt.

Definition checkTemplateJobStatus : M S unit :=
  templateVersion <- wrapErr (BuildError StatusInternalServerError
                                "failed to fetch template version")
                             getTemplateVersion ;;
  templateVersionJob <- wrapErr (BuildError StatusInternalServerError
                                   "failed to fetch template version job")
                                getTemplateVersionJob ;;
  let templateVersionJobStatus := ConvertProvisionerJobStatus templateVersionJob in
  match templateVersionJobStatus with
  | ProvisionerJobPending | ProvisionerJobRunning =>
      fail (BuildError StatusNotAcceptable
              ("The provided template version is "
               ++ statusString templateVersionJobStatus
               ++ ". Wait for it to complete importing!")
              emptyErr)
  | ProvisionerJobFailed =>
      fail (BuildError StatusBadRequest
              ("The provided template version "
               ++ fmt_q (TemplateVersion_Name templateVersion)
               ++ " has failed to import: "
               ++ fmt_q (NullString_String (ProvisionerJob_Error templateVersionJob))
               ++ ". You cannot build workspaces with it!")
              emptyErr)
  | ProvisionerJobCanceled =>
      fail (BuildError StatusBadRequest
              "The provided template version was canceled during import. You cannot build workspaces with it!"
              emptyErr)
  | _ => ret tt   (* the switch has no default case *)
  end.

Definition checkRunningBuild : M S unit :=
  job <- wrapErr (BuildError StatusInternalServerError
                    "failed to fetch prior build") getLastBuildJob ;;
  if Active (ConvertProvisionerJobStatus job) then
    fail (BuildError StatusConflict "A workspace build is already active." emptyErr)
  else ret tt.

(** The inner loop of the legacy parameter update: delete every existing
    value of the same name. *)
Fixpoint deleteExisting (name : string) (legacyParameters : list ParameterValue)
    : M S unit :=
  match legacyParameters with
  | [] => ret tt
  | exists_ :: rest =>
      (if String.eqb (ParameterValue_Name exists_) name then
         err <- writeStore (WDeleteParameterValueByID (ParameterValue_ID exists_))
                  (fun s => DeleteParameterValueByID s (ParameterValue_ID exists_)) ;;
         match err with
         | Some e =>
             if isErrNoRows e then ret tt
             else fail (BuildError StatusInternalServerError
                          ("Failed to delete old param "
                           ++ fmt_q (ParameterValue_Name exists_)) e)
         | None => ret tt
         end
       else ret tt) ;;;
      deleteExisting name rest
  end.

(** The outer loop: write or update the new legacy parameters. *)
Fixpoint writeLegacyParameters (now : Time) (scopeID : UUID)
    (params : list CreateParameterRequest)
    (legacyParameters : list ParameterValue) : M S unit :=
  match params with
  | [] => ret tt
  | param :: rest =>
      deleteExisting (CreateParameterRequest_Name param) legacyParameters ;;;
      id <- draw uuid_New ;;
      (let p := {| IPV_ID := id;
                   IPV_Name := CreateParameterRequest_Name param;
                   IPV_CreatedAt := now;
                   IPV_UpdatedAt := now;
                   IPV_Scope := ParameterScopeWorkspace;
                   IPV_ScopeID := scopeID;
                   IPV_SourceScheme := CreateParameterRequest_SourceScheme param;
                   IPV_SourceValue := CreateParameterRequest_SourceValue param;
                   IPV_DestinationScheme :=
                     CreateParameterRequest_DestinationScheme param |} in
       r <- writeStore (WInsertParameterValue p)
              (fun s => InsertParameterValue s p) ;;
       wrapErr (BuildError StatusInternalServerError "insert parameter value")
               (liftResult r)) ;;;
      writeLegacyParameters now scopeID rest legacyParameters
  end.

(** The part of [buildTx] after its pre-checks: it computes the attributes
    of the new rows and inserts them. *)
Definition computeAndInsert : M S (WorkspaceBuild * ProvisionerJob) :=
  template <- wrapErr (BuildError StatusInternalServerError
                         "failed to fetch template") getTemplate ;;
  templateVersionJob <- wrapErr (BuildError StatusInternalServerError
                                   "failed to fetch template version job")
                                getTemplateVersionJob ;;
  legacyParameters <- wrapErr (BuildError StatusInternalServerError
                                 "failed to fetch previous legacy parameters.")
                              getLastParameterValues ;;
  (* if we haven't been told specifically who initiated, default to owner *)
  modB (fun b => if N.eqb (initiator b) uuid_Nil
                 then set_initiator (Workspace_OwnerID (workspace b)) b else b) ;;;
  (* default reason is initiator *)
  modB (fun b => if String.eqb (reason b) ""
                 then set_reason BuildReasonInitiator b else b) ;;;
  (* Write/Update any new params *)
  now <- draw database_Now ;;
  b <- getB ;;
  writeLegacyParameters now (Workspace_ID (workspace b))
    (legacyParameterValues b) legacyParameters ;;;
  workspaceBuildID <- draw uuid_New ;;
  input <- wrapErr (fun e => Errorf "marshal provision job: " (Some e))
             (liftResult (marshalWorkspaceProvisionJob workspaceBuildID (logLevel b))) ;;
  traceMetadataRaw <- wrapErr (BuildError StatusInternalServerError "marshal metadata")
                        (liftResult marshalTraceMetadata) ;;
  let tags := MutateTags (Workspace_OwnerID (workspace b))
                (ProvisionerJob_Tags templateVersionJob) in
  jobID <- draw uuid_New ;;
  jobCreatedAt <- draw database_Now ;;
  jobUpdatedAt <- draw database_Now ;;
  provisionerJob <-
    (let p := {| IPJ_ID := jobID;
                 IPJ_CreatedAt := jobCreatedAt;
                 IPJ_UpdatedAt := jobUpdatedAt;
                 IPJ_InitiatorID := initiator b;
                 IPJ_OrganizationID := Template_OrganizationID template;
                 IPJ_Provisioner := Template_Provisioner template;
                 IPJ_Type := ProvisionerJobTypeWorkspaceBuild;
                 IPJ_StorageMethod := ProvisionerJob_StorageMethod templateVersionJob;
                 IPJ_FileID := ProvisionerJob_FileID templateVersionJob;
                 IPJ_Input := input;
                 IPJ_Tags := tags;
                 IPJ_TraceMetadata :=
                   {| NullRawMessage_RawMessage := traceMetadataRaw;
                      NullRawMessage_Valid := true |} |} in
     r <- writeStore (WInsertProvisionerJob p) (fun s => InsertProvisionerJob s p) ;;
     wrapErr (BuildError StatusInternalServerError "insert provisioner job")
             (liftResult r)) ;;
  templateVersionID <- wrapErr (BuildError StatusInternalServerError
                                  "compute template version ID")
                               getTemplateVersionID ;;
  buildNum <- wrapErr (BuildError StatusInternalServerError "compute build number")
                      getBuildNumber ;;
  state <- wrapErr (BuildError StatusInternalServerError "compute build state")
                   getState ;;
  buildCreatedAt <- draw database_Now ;;
  buildUpdatedAt <- draw database_Now ;;
  workspaceBuild <-
    (let p := {| IWB_ID := workspaceBuildID;
                 IWB_CreatedAt := buildCreatedAt;
                 IWB_UpdatedAt := buildUpdatedAt;
                 IWB_WorkspaceID := Workspace_ID (workspace b);
                 IWB_TemplateVersionID := templateVersionID;
                 IWB_BuildNumber := buildNum;
                 IWB_ProvisionerState := state;
                 IWB_InitiatorID := initiator b;
                 IWB_Transition := trans b;
                 IWB_JobID := ProvisionerJob_ID provisionerJob;
                 IWB_Reason := reason b |} in
     r <- writeStore (WInsertWorkspaceBuild p) (fun s => InsertWorkspaceBuild s p) ;;
     wrapErr (BuildError StatusInternalServerError "insert workspace build")
             (liftResult r)) ;;
  (* getParameters already wraps errors in BuildError *)
  nv <- getParameters ;;
  (let p := {| IWBP_WorkspaceBuildID := workspaceBuildID;
               IWBP_Name := fst nv;
               IWBP_Value := snd nv |} in
   err <- writeStore (WInsertWorkspaceBuildParameters p)
            (fun s => InsertWorkspaceBuildParameters s p) ;;
   match err with
   | Some e => fail (BuildError StatusInternalServerError
                       "insert workspace build parameters: %w" e)
   | None => ret tt
   end) ;;;
  ret (workspaceBuild, provisionerJob).

(** [buildTx] contains the business logic of computing a new build. *)
Definition buildTx (authFunc : AuthFunc) : M S (WorkspaceBuild * ProvisionerJob) :=
  match authFunc with
  | Some f => authorize f
  | None => ret tt
  end ;;;
  checkTemplateVersionMatchesTemplate ;;;
  checkTemplateJobStatus ;;;
  checkRunningBuild ;;;
  computeAndInsert.

(** ** The transaction wrapper and the retry loop *)

(** Modelled from the spec: [InTx(fn, isolation) -> error] runs [fn] once on
    a transaction-scoped handle; when [fn] fails its error is surfaced and
    the writes of the transaction are rolled back by the store; otherwise the
    transaction is committed.  ([database.Store.InTx] has no implementation
    in the sources.)  [a] stands for the variables [fn] captures. *)
Definition InTx {A} (store : S)
    (fn : S * list Write -> A -> option error * A * (S * list Write)) (a : A)
    : option error * A * (S * list Write) :=
  let '(err, a', (tx', ws)) := fn (txBegin store, []) a in
  match err with
  | Some e => (Some e, a', (txRollback store tx', []))
  | None => (None, a', (txCommit store tx', ws))
  end.

(** The variables of [Build] its closure reads and assigns: the receiver
    [b], the draws made, the function-level [err], and the iteration's
    [workspaceBuild] and [provisionerJob]. *)
Record Captured := {
  c_b : Builder;
  c_tick : nat;
  c_err : option error;
  c_workspaceBuild : option WorkspaceBuild;
  c_provisionerJob : option ProvisionerJob }.

(** The function literal passed to [InTx]:
    [b.store = store; workspaceBuild, provisionerJob, err = b.buildTx(authFunc); return err].
    The [err] it assigns is the function-level one: the [err :=] of the loop
    body is not in scope inside its own initialiser. *)
Definition buildClosure (authFunc : AuthFunc) (store : S * list Write) (c : Captured)
    : option error * Captured * (S * list Write) :=
  let (r, st) := buildTx authFunc {| bld := c_b c; tx := fst store;
                                      writes := snd store; tick := c_tick c |} in
  match r with
  | Ok (wb, pj) =>
      (None,
       {| c_b := bld st; c_tick := tick st; c_err := None;
          c_workspaceBuild := Some wb; c_provisionerJob := Some pj |},
       (tx st, writes st))
  | Err e =>
      (Some e,
       {| c_b := bld st; c_tick := tick st; c_err := Some e;
          c_workspaceBuild := None; c_provisionerJob := None |},
       (tx st, writes st))
  end.

(** What a call of [Build] leaves: its three results, the receiver, the
    store with the writes it committed, and the draws made. *)
Record Outcome := {
  o_workspaceBuild : option WorkspaceBuild;
  o_provisionerJob : option ProvisionerJob;
  o_err : option error;
  o_b : Builder;
  o_store : S;
  o_committed : list Write;
  o_tick : nat }.

(** The loop [for retries := 0; retries < 5; retries++], by the number of
    iterations left. *)
Fixpoint buildLoop (left : nat) (authFunc : AuthFunc) (b : Builder) (store : S)
    (tk : nat) (err : option error) : Outcome :=
  match left with
  | O =>
      {| o_workspaceBuild := None; o_provisionerJob := None;
         o_err := Some (Errorf "too many errors; last error: " err);
         o_b := b; o_store := store; o_committed := []; o_tick := tk |}
  | Datatypes.S left' =>
      let '(err', c, (store', ws)) :=
        InTx store (buildClosure authFunc)
          {| c_b := b; c_tick := tk; c_err := err;
             c_workspaceBuild := None; c_provisionerJob := None |} in
      if isSerializationFailure err' then
        (* serialization error, retry *)
        buildLoop left' authFunc (c_b c) store' (c_tick c) (c_err c)
      else
        match err' with
        | Some e =>
            (* Other (hard) error *)
            {| o_workspaceBuild := None; o_provisionerJob := None;
               o_err := Some e;
               o_b := c_b c; o_store := store'; o_committed := []; o_tick := c_tick c |}
        | None =>
            {| o_workspaceBuild := c_workspaceBuild c;
               o_provisionerJob := c_provisionerJob c;
               o_err := None;
               o_b := c_b c; o_store := store'; o_committed := ws; o_tick := c_tick c |}
        end
  end.

(** [Build] computes and inserts a new workspace build into the database.
    If [authFunc] is provided, it also performs authorization preflight
    checks. *)
Definition Build (authFunc : AuthFunc) (b : Builder) (store : S) (tk : nat) : Outcome :=
  buildLoop 5 authFunc b store tk None.

End Checks.

(** ** What the cached accessors compute

    Each accessor is a read through the cache: its value is a function of
    the builder and of the handle.  The functions below give that value; the
    accessors are proved to return it and to leave it unchanged for every
    later call on the same handle. *)

Section Views.
Context {S : Type} `{Store S} `{Collaborators}.

Definition rbind {A B} (r : result A) (f : A -> result B) : result B :=
  match r with
  | Ok a => f a
  | Err e => Err e
  end.

Definition rwrap {A} (w : error -> error) (r : result A) : result A :=
  match r with
  | Ok a => Ok a
  | Err e => Err (w e)
  end.

Definition viewTemplate (b : Builder) (s : S) : result Template :=
  match template b with
  | Some t => Ok t
  | None => GetTemplateByID s (Workspace_TemplateID (workspace b))
  end.

Definition viewLastBuild (b : Builder) (s : S) : result WorkspaceBuild :=
  match lastBuild b with
  | Some bl => Ok bl
  | None => GetLatestWorkspaceBuildByWorkspaceID s (Workspace_ID (workspace b))
  end.

Definition viewTemplateVersionID (b : Builder) (s : S) : result UUID :=
  match specific (version b) with
  | Some v => Ok v
  | None =>
      if active (version b)
      then rbind (viewTemplate b s) (fun t => Ok (Template_ActiveVersionID t))
      else rbind (viewLastBuild b s)
             (fun bl => Ok (WorkspaceBuild_TemplateVersionID bl))
  end.

Definition viewTemplateVersion (b : Builder) (s : S) : result TemplateVersion :=
  match templateVersion b with
  | Some v => Ok v
  | None => rbind (viewTemplateVersionID b s) (GetTemplateVersionByID s)
  end.

Definition viewTemplateVersionJob (b : Builder) (s : S) : result ProvisionerJob :=
  match templateVersionJob b with
  | Some j => Ok j
  | None =>
      rbind (viewTemplateVersion b s)
        (fun v => GetProvisionerJobByID s (TemplateVersion_JobID v))
  end.

Definition viewLastBuildJob (b : Builder) (s : S) : result ProvisionerJob :=
  match lastBuildJob b with
  | Some j => Ok j
  | None =>
      rbind (viewLastBuild b s)
        (fun bl => GetProvisionerJobByID s (WorkspaceBuild_JobID bl))
  end.

Definition viewLastParameterValues (b : Builder) (s : S)
    : result (list ParameterValue) :=
  match lastParameterValues b with
  | Some pv => Ok pv
  | None =>
      tolerateNoRows
        (ParameterValues s {| Scopes := [ParameterScopeWorkspace];
                              ScopeIds := [Workspace_ID (workspace b)] |})
  end.

Definition viewBuildNumber (b : Builder) (s : S) : result Z :=
  rbind (viewLastBuild b s)
    (fun bl => Ok (int32_add (WorkspaceBuild_BuildNumber bl) 1)).

Definition viewState (b : Builder) (s : S) : result bytes :=
  if orphan (state b) then Ok []
  else match explicit (state b) with
       | Some st => Ok st
       | None => rbind (viewLastBuild b s)
                   (fun bl => Ok (WorkspaceBuild_ProvisionerState bl))
       end.

(** The settings of a builder, and the values behind its cache. *)
Definition config (b : Builder) :=
  (workspace b, trans b, version b, state b, logLevel b,
   legacyParameterValues b, richParameterValues b).

Definition views (b : Builder) (s : S) :=
  (viewTemplate b s, viewLastBuild b s, viewTemplateVersion b s,
   viewTemplateVersionJob b s, viewLastBuildJob b s,
   viewLastParameterValues b s).

(** A cache slot, once filled, keeps its value. *)
Definition slotLe {A} (o o' : option A) : Prop :=
  forall x, o = Some x -> o' = Some x.

Record cacheLe (b b' : Builder) : Prop := {
  le_template : slotLe (template b) (template b');
  le_templateVersion : slotLe (templateVersion b) (templateVersion b');
  le_templateVersionJob : slotLe (templateVersionJob b) (templateVersionJob b');
  le_templateVersionParameters :
    slotLe (templateVersionParameters b) (templateVersionParameters b');
  le_lastBuild : slotLe (lastBuild b) (lastBuild b');
  le_lastBuildParameters : slotLe (lastBuildParameters b) (lastBuildParameters b');
  le_lastParameterValues : slotLe (lastParameterValues b) (lastParameterValues b');
  le_lastBuildJob : slotLe (lastBuildJob b) (lastBuildJob b') }.

(** The last build's job is only ever fetched after the last build. *)
Definition jobAfterBuild (b : Builder) : Prop :=
  lastBuild b = None -> lastBuildJob b = None.

(** [ext st st']: [st'] is [st] with more of the cache filled in, from the
    same handle; nothing else moved. *)
Record ext (st st' : St S) : Prop := {
  ext_tx : tx st' = tx st;
  ext_writes : writes st' = writes st;
  ext_tick : tick st' = tick st;
  ext_config : config (bld st') = config (bld st);
  ext_initiator : initiator (bld st') = initiator (bld st);
  ext_reason : reason (bld st') = reason (bld st);
  ext_views : views (bld st') (tx st) = views (bld st) (tx st);
  ext_templateVersionParameters :
    templateVersionParameters (bld st') = templateVersionParameters (bld st);
  ext_lastBuildParameters :
    lastBuildParameters (bld st') = lastBuildParameters (bld st);
  ext_cache : cacheLe (bld st) (bld st');
  ext_jobAfterBuild : jobAfterBuild (bld st) -> jobAfterBuild (bld st') }.

Definition withBuilder (b : Builder) (st : St S) : St S :=
  {| bld := b; tx := tx st; writes := writes st; tick := tick st |}.

(** [Reads m v]: the method [m] returns [v] of the builder and the handle,
    and only fills the cache. *)
Definition Reads {A} (m : M S A) (v : Builder -> S -> result A) : Prop :=
  forall st, exists st', m st = (v (bld st) (tx st), st') /\ ext st st'.

(** [Stable w]: [w] does not change when the cache is filled further. *)
Definition Stable {A} (w : Builder -> S -> A) : Prop :=
  forall st st', ext st st' -> w (bld st') (tx st') = w (bld st) (tx st).

(** *** The pre-checks as functions of the builder and the handle *)

Definition actionOf (t : WorkspaceTransition) : option Action :=
  if String.eqb t WorkspaceTransitionDelete then Some ActionDelete
  else if String.eqb t WorkspaceTransitionStart
          || String.eqb t WorkspaceTransitionStop
  then Some ActionUpdate
  else None.

Definition customState (st : stateTarget) : bool :=
  match explicit st, orphan st with
  | None, false => false
  | _, _ => true
  end.

Definition authorizeV (authFunc : Action -> Objecter -> bool)
    (b : Builder) (s : S) : result unit :=
  match actionOf (trans b) with
  | None =>
      Err (BuildError StatusBadRequest
             ("Transition " ++ fmt_q (trans b) ++ " not supported.") emptyErr)
  | Some action =>
      if negb (authFunc action (ObjWorkspace (workspace b))) then
        Err (BuildError StatusNotFound ResourceNotFoundMessage emptyErr)
      else
        rbind (rwrap (BuildError StatusInternalServerError "failed to fetch template")
                 (viewTemplate b s))
          (fun template =>
             if customState (state b)
                && negb (authFunc ActionUpdate (ObjTemplateRBACObject template))
             then Err (BuildError StatusForbidden
                         "Only template managers may provide custom state" emptyErr)
             else if negb (String.eqb (logLevel b) "")
                     && negb (authFunc ActionUpdate (ObjTemplate template))
             then Err (BuildError StatusBadRequest
                         "Workspace builds with a custom log level are restricted to template authors only."
                         emptyErr)
             else Ok tt)
  end.

Definition authorizeOptV (authFunc : AuthFunc) (b : Builder) (s : S) : result unit :=
  match authFunc with
  | Some f => authorizeV f b s
  | None => Ok tt
  end.

Definition versionMatches (v : TemplateVersion) (t : Template) : bool :=
  NullUUID_Valid (TemplateVersion_TemplateID v)
  && N.eqb (NullUUID_UUID (TemplateVersion_TemplateID v)) (Template_ID t).

Definition checkTemplateVersionMatchesTemplateV (b : Builder) (s : S) : result unit :=
  rbind (rwrap (BuildError StatusInternalServerError "failed to fetch template")
           (viewTemplate b s))
    (fun template =>
       rbind (rwrap (BuildError StatusInternalServerError
                       "failed to fetch template version")
                (viewTemplateVersion b s))
         (fun templateVersion =>
            if versionMatches templateVersion template then Ok tt
            else Err (BuildError StatusBadRequest
                        "template version doesn't match template"
                        (ErrNew ("templateVersion.TemplateID = "
                                 ++ fmt_NullUUID (TemplateVersion_TemplateID templateVersion)
                                 ++ ", template.ID = "
                                 ++ fmt_UUID (Template_ID template)))))).

(** The verdict of [checkTemplateJobStatus] on a version and its import job. *)
Definition importVerdict (templateVersion : TemplateVersion)
    (templateVersionJob : ProvisionerJob) : result unit :=
  match ConvertProvisionerJobStatus templateVersionJob with
  | ProvisionerJobPending =>
      Err (BuildError StatusNotAcceptable
             "The provided template version is pending. Wait for it to complete importing!"
             emptyErr)
  | ProvisionerJobRunning =>
      Err (BuildError StatusNotAcceptable
             "The provided template version is running. Wait for it to complete importing!"
             emptyErr)
  | ProvisionerJobFailed =>
      Err (BuildError StatusBadRequest
             ("The provided template version "
              ++ fmt_q (TemplateVersion_Name templateVersion)
              ++ " has failed to import: "
              ++ fmt_q (NullString_String (ProvisionerJob_Error templateVersionJob))
              ++ ". You cannot build workspaces with it!")
             emptyErr)
  | ProvisionerJobCanceled =>
      Err (BuildError StatusBadRequest
             "The provided template version was canceled during import. You cannot build workspaces with it!"
             emptyErr)
  | ProvisionerJobSucceeded => Ok tt
  end.

Definition checkTemplateJobStatusV (b : Builder) (s : S) : result unit :=
  rbind (rwrap (BuildError StatusInternalServerError
                  "failed to fetch template version")
           (viewTemplateVersion b s))
    (fun templateVersion =>
       rbind (rwrap (BuildError StatusInternalServerError
                       "failed to fetch template version job")
                (viewTemplateVersionJob b s))
         (fun templateVersionJob => importVerdict templateVersion templateVersionJob)).

Definition activeBuildError : error :=
  BuildError StatusConflict "A workspace build is already active." emptyErr.

Definition checkRunningBuildV (b : Builder) (s : S) : result unit :=
  rbind (rwrap (BuildError StatusInternalServerError "failed to fetch prior build")
           (viewLastBuildJob b s))
    (fun job =>
       if Active (ConvertProvisionerJobStatus job) then Err activeBuildError
       else Ok tt).

(** The four pre-checks in the order [buildTx] runs them. *)
Definition preChecksV (authFunc : AuthFunc) (b : Builder) (s : S) : result unit :=
  rbind (authorizeOptV authFunc b s) (fun _ =>
  rbind (checkTemplateVersionMatchesTemplateV b s) (fun _ =>
  rbind (checkTemplateJobStatusV b s) (fun _ =>
  checkRunningBuildV b s))).

Definition preChecks (authFunc : AuthFunc) : M S unit :=
  match authFunc with
  | Some f => authorize f
  | None => ret tt
  end ;;;
  checkTemplateVersionMatchesTemplate ;;;
  checkTemplateJobStatus ;;;
  checkRunningBuild.

(** *** The attempts of [Build] *)

(** One iteration of the retry loop runs [buildTx] in a fresh transaction of
    the store, with the receiver as the previous iterations left it. *)
Definition attempt (authFunc : AuthFunc) (x : Builder * S * nat)
    : result (WorkspaceBuild * ProvisionerJob) * St S :=
  let '(b, store, tk) := x in
  buildTx authFunc {| bld := b; tx := txBegin store; writes := []; tick := tk |}.

(** The receiver, store and draws an iteration that is retried leaves. *)
Definition afterRollback (authFunc : AuthFunc) (x : Builder * S * nat)
    : Builder * S * nat :=
  let st := snd (attempt authFunc x) in
  (bld st, txRollback (snd (fst x)) (tx st), tick st).

(** Where iteration [k] (from 0) starts when all earlier ones were retried. *)
Fixpoint attemptStart (authFunc : AuthFunc) (k : nat) (x : Builder * S * nat)
    : Builder * S * nat :=
  match k with
  | O => x
  | Datatypes.S k' => afterRollback authFunc (attemptStart authFunc k' x)
  end.

(** The error an iteration reports, if any. *)
Definition attemptErr (authFunc : AuthFunc) (x : Builder * S * nat) : option error :=
  match fst (attempt authFunc x) with
  | Ok _ => None
  | Err e => Some e
  end.

(** The cache slots of a builder. *)
Definition cacheOf (b : Builder) :=
  (template b, templateVersion b, templateVersionJob b,
   templateVersionParameters b, lastBuild b, lastBuildParameters b,
   lastParameterValues b, lastBuildJob b).

End Views.

Section Attempts.
Context {S : Type} `{Store S} `{Collaborators}.

(** The value of the function-level [err] when iteration [k] starts. *)
Definition lastErr (authFunc : AuthFunc) (k : nat) (x : Builder * S * nat)
    (err : option error) : option error :=
  match k with
  | O => err
  | Datatypes.S k' => attemptErr authFunc (attemptStart authFunc k' x)
  end.

(** Iterations [0 .. k-1] all report a serialization failure. *)
Definition retried (authFunc : AuthFunc) (k : nat) (x : Builder * S * nat) : Prop :=
  forall i, (i < k)%nat ->
    isSerializationFailure (attemptErr authFunc (attemptStart authFunc i x)) = true.

Definition startBuilder (authFunc : AuthFunc) (k : nat) (x : Builder * S * nat)
    : Builder := fst (fst (attemptStart authFunc k x)).

Definition startStore (authFunc : AuthFunc) (k : nat) (x : Builder * S * nat)
    : S := snd (fst (attemptStart authFunc k x)).

Definition startTick (authFunc : AuthFunc) (k : nat) (x : Builder * S * nat)
    : nat := snd (attemptStart authFunc k x).

(** What a call leaves when its first iteration is rejected with [e]: the
    error, no build, no job, nothing committed, the store as the rollback of
    an untouched transaction left it, and no draw made. *)
Definition rejectedWith (e : error) (store : S) (tk : nat) (out : @Outcome S)
    : Prop :=
  o_err out = Some e /\
  o_workspaceBuild out = None /\ o_provisionerJob out = None /\
  o_committed out = [] /\
  o_store out = txRollback store (txBegin store) /\ o_tick out = tk.

End Attempts.

Section Frames.
Context {S : Type} `{Store S} `{Collaborators}.

(** The two writes of the legacy parameter update. *)
Definition isParameterWrite (w : Write) : bool :=
  match w with
  | WDeleteParameterValueByID _ | WInsertParameterValue _ => true
  | _ => false
  end.

(** [keeps b b']: the settings are the same but for the defaulted initiator
    and reason, and the cache only grew. *)
Record keeps (b b' : Builder) : Prop := {
  keeps_config : config b' = config b;
  keeps_cache : cacheLe b b';
  keeps_jobAfterBuild : jobAfterBuild b -> jobAfterBuild b' }.

(** [Keeps m]: whatever [m] returns, it keeps the builder in that sense. *)
Definition Keeps {A} (m : M S A) : Prop :=
  forall st, keeps (bld st) (bld (snd (m st))).

(** The state chosen by the state selector, given the last build. *)
Definition stateOf (t : stateTarget) (bl : WorkspaceBuild) : bytes :=
  if orphan t then []
  else match explicit t with
       | Some st => st
       | None => WorkspaceBuild_ProvisionerState bl
       end.

(** The version chosen by the version selector, given the template and the
    last build. *)
Definition versionOf (v : versionTarget) (t : Template) (bl : WorkspaceBuild)
    : UUID :=
  match specific v with
  | Some id => id
  | None => if active v then Template_ActiveVersionID t
            else WorkspaceBuild_TemplateVersionID bl
  end.

End Frames.

Section Quiet.
Context {S : Type} `{Store S} `{Collaborators}.

(** [Quiet m]: [m] issues no write. *)
Definition Quiet {A} (m : M S A) : Prop :=
  forall st, tx (snd (m st)) = tx st /\ writes (snd (m st)) = writes st.

End Quiet.

Section NewRows.
Context {S : Type} `{Store S} `{Collaborators}.

(** The writes [ws] of a successful [buildTx] for the settings of [b], with
    [t] the template, [bl] the last build, and [wb] and [pj] the build and
    the job returned: the legacy parameter writes, then one job, one build
    referring to it, and the parameters of that build; [pj] and [wb] are
    what the store answered to the two insertions. *)
Definition newRows (b : Builder) (t : Template) (bl : WorkspaceBuild)
    (wb : WorkspaceBuild) (pj : ProvisionerJob) (ws : list Write) : Prop :=
  exists legacy jp p pp,
    ws = (legacy ++ [WInsertProvisionerJob jp; WInsertWorkspaceBuild p;
                     WInsertWorkspaceBuildParameters pp])%list /\
    forallb isParameterWrite legacy = true /\
    IWB_BuildNumber p = int32_add (WorkspaceBuild_BuildNumber bl) 1 /\
    IWB_ProvisionerState p = stateOf (state b) bl /\
    IWB_TemplateVersionID p = versionOf (version b) t bl /\
    IWB_WorkspaceID p = Workspace_ID (workspace b) /\
    IWB_Transition p = trans b /\
    IWB_JobID p = ProvisionerJob_ID pj /\
    IWBP_WorkspaceBuildID pp = IWB_ID p /\
    (exists s, fst (InsertProvisionerJob s jp) = Ok pj) /\
    (exists s, fst (InsertWorkspaceBuild s p) = Ok wb).

End NewRows.

Section ImportErrors.
Context `{Collaborators}.

(** The three rejections of [checkTemplateJobStatus]. *)
Definition notReadyError (status : string) : error :=
  BuildError StatusNotAcceptable
    ("The provided template version is " ++ status
     ++ ". Wait for it to complete importing!")%string emptyErr.

Definition failedImportError (v : TemplateVersion) (j : ProvisionerJob) : error :=
  BuildError StatusBadRequest
    ("The provided template version " ++ fmt_q (TemplateVersion_Name v)
     ++ " has failed to import: "
     ++ fmt_q (NullString_String (ProvisionerJob_Error j))
     ++ ". You cannot build workspaces with it!")%string emptyErr.

Definition canceledImportError : error :=
  BuildError StatusBadRequest
    "The provided template version was canceled during import. You cannot build workspaces with it!"
    emptyErr.

End ImportErrors.

(** ** The rows of a new build *)

Section Rows.
Context `{Collaborators}.

(** The initiator and the reason a build is recorded with: the defaults of
    [buildTx] applied to the settings. *)
Definition initiatorOf (b : Builder) : UUID :=
  if N.eqb (initiator b) uuid_Nil then Workspace_OwnerID (workspace b)
  else initiator b.

Definition reasonOf (b : Builder) : BuildReason :=
  if String.eqb (reason b) "" then BuildReasonInitiator else reason b.

(** What [Build] may not change in its receiver: the settings, with the
    initiator and the reason up to their defaults, and the slot of the last
    build's parameters, which no method assigns. *)
Definition settled (b : Builder) :=
  (config b, initiatorOf b, reasonOf b, lastBuildParameters b).

(** The ids of the stored legacy values called [name]. *)
Definition idsNamed (name : string) (legacyParameters : list ParameterValue)
    : list UUID :=
  map ParameterValue_ID
    (filter (fun e => String.eqb (ParameterValue_Name e) name) legacyParameters).

(** The row inserted for a requested legacy value. *)
Definition legacyRow (now : Time) (scopeID id : UUID) (param : CreateParameterRequest)
    : InsertParameterValueParams :=
  {| IPV_ID := id;
     IPV_Name := CreateParameterRequest_Name param;
     IPV_CreatedAt := now;
     IPV_UpdatedAt := now;
     IPV_Scope := ParameterScopeWorkspace;
     IPV_ScopeID := scopeID;
     IPV_SourceScheme := CreateParameterRequest_SourceScheme param;
     IPV_SourceValue := CreateParameterRequest_SourceValue param;
     IPV_DestinationScheme := CreateParameterRequest_DestinationScheme param |}.

(** The writes of the legacy parameter update when the store accepts them
    all: for each requested value in turn, the deletion of every stored
    value of that name, then the insertion of the new one, whose id is the
    next draw from [tk] on. *)
Fixpoint legacyWrites (now : Time) (scopeID : UUID)
    (params : list CreateParameterRequest) (legacyParameters : list ParameterValue)
    (tk : nat) : list Write :=
  match params with
  | [] => []
  | param :: rest =>
      (map WDeleteParameterValueByID
         (idsNamed (CreateParameterRequest_Name param) legacyParameters)
       ++ WInsertParameterValue (legacyRow now scopeID (uuid_New tk) param)
       :: legacyWrites now scopeID rest legacyParameters (Datatypes.S tk))%list
  end.

(** The job row of a new build: [b] the settings, [t] the template, [tvj]
    the import job of the template version. *)
Definition jobRow (b : Builder) (t : Template) (tvj : ProvisionerJob)
    (input raw : bytes) (id : UUID) (createdAt updatedAt : Time)
    : InsertProvisionerJobParams :=
  {| IPJ_ID := id;
     IPJ_CreatedAt := createdAt;
     IPJ_UpdatedAt := updatedAt;
     IPJ_InitiatorID := initiatorOf b;
     IPJ_OrganizationID := Template_OrganizationID t;
     IPJ_Provisioner := Template_Provisioner t;
     IPJ_Type := ProvisionerJobTypeWorkspaceBuild;
     IPJ_StorageMethod := ProvisionerJob_StorageMethod tvj;
     IPJ_FileID := ProvisionerJob_FileID tvj;
     IPJ_Input := input;
     IPJ_Tags := MutateTags (Workspace_OwnerID (workspace b)) (ProvisionerJob_Tags tvj);
     IPJ_TraceMetadata := {| NullRawMessage_RawMessage := raw;
                             NullRawMessage_Valid := true |} |}.

(** The build row: [bl] the last build, [pj] the job the store returned. *)
Definition buildRow (b : Builder) (t : Template) (bl : WorkspaceBuild)
    (pj : ProvisionerJob) (id : UUID) (createdAt updatedAt : Time)
    : InsertWorkspaceBuildParams :=
  {| IWB_ID := id;
     IWB_CreatedAt := createdAt;
     IWB_UpdatedAt := updatedAt;
     IWB_WorkspaceID := Workspace_ID (workspace b);
     IWB_TemplateVersionID := versionOf (version b) t bl;
     IWB_BuildNumber := int32_add (WorkspaceBuild_BuildNumber bl) 1;
     IWB_ProvisionerState := stateOf (state b) bl;
     IWB_InitiatorID := initiatorOf b;
     IWB_Transition := trans b;
     IWB_JobID := ProvisionerJob_ID pj;
     IWB_Reason := reasonOf b |}.

(** [resolved resolver rich tvps values]: [values] are, in order, what the
    resolver answers for the declared parameters [tvps], each with the
    requested value of its name, if there is one. *)
Definition resolved (resolver : ParameterResolver)
    (rich : list WorkspaceBuildParameter)
    (tvps : list TemplateVersionParameter) (values : list string) : Prop :=
  Forall2
    (fun tvp value =>
       exists sdk,
         conversion_TemplateVersionParameter tvp = Ok sdk /\
         ValidateResolve resolver sdk
           (findNewBuildParameterValue rich (TemplateVersionParameter_Name tvp))
         = Ok value)
    tvps values.

End Rows.

Section Declared.

(** A requested value is declared when the template version has a parameter
    of its name. *)
Definition declared (tvps : list TemplateVersionParameter)
    (v : WorkspaceBuildParameter) : bool :=
  existsb (String.eqb (WorkspaceBuildParameter_Name v))
    (map TemplateVersionParameter_Name tvps).

End Declared.

Section Footprints.
Context {S : Type} `{Store S} `{Collaborators}.

(** [Leaves m]: [m] issues no write, makes no draw and touches nothing of
    the settings; it may fill the cache. *)
Record leaves (st st' : St S) : Prop := {
  leaves_tx : tx st' = tx st;
  leaves_writes : writes st' = writes st;
  leaves_tick : tick st' = tick st;
  leaves_config : config (bld st') = config (bld st);
  leaves_initiator : initiator (bld st') = initiator (bld st);
  leaves_reason : reason (bld st') = reason (bld st);
  leaves_lastBuildParameters :
    lastBuildParameters (bld st') = lastBuildParameters (bld st);
  leaves_cache : cacheLe (bld st) (bld st') }.

Definition Leaves {A} (m : M S A) : Prop := forall st, leaves st (snd (m st)).

(** [Settled m]: [m] leaves the settings of the builder as they are, up to
    the defaults. *)
Definition Settled {A} (m : M S A) : Prop :=
  forall st, settled (bld (snd (m st))) = settled (bld st).

End Footprints.

Section RowsOf.
Context {S : Type} `{Store S} `{Collaborators}.

(** The last build's parameters are what the slot holds or, the slot being
    empty, what the store answers for the last build. *)
Definition lastBuildParametersOf (b : Builder) (bl : WorkspaceBuild)
    (lbp : list DBWorkspaceBuildParameter) : Prop :=
  match lastBuildParameters b with
  | Some ps => lbp = ps
  | None =>
      exists s, tolerateNoRows (GetWorkspaceBuildParameters s (WorkspaceBuild_ID bl))
                = Ok lbp
  end.

(** The writes [ws] of a successful [buildTx], in full: [b] the settings,
    [T] the draws made before, [t], [tvj], [lps], [bl], [tvps], [lbp] what
    the builder read, [wb] and [pj] what the store returned. *)
Definition rowsOf (b : Builder) (T : nat) (t : Template) (tvj : ProvisionerJob)
    (lps : list ParameterValue) (bl : WorkspaceBuild)
    (tvps : list TemplateVersionParameter) (lbp : list DBWorkspaceBuildParameter)
    (wb : WorkspaceBuild) (pj : ProvisionerJob) (ws : list Write) : Prop :=
  exists input raw values,
    let n := List.length (legacyParameterValues b) in
    let jp := jobRow b t tvj input raw (uuid_New (T + 2 + n))
                (database_Now (T + 3 + n)) (database_Now (T + 4 + n)) in
    let p := buildRow b t bl pj (uuid_New (T + 1 + n))
               (database_Now (T + 5 + n)) (database_Now (T + 6 + n)) in
    marshalWorkspaceProvisionJob (uuid_New (T + 1 + n)) (logLevel b) = Ok input /\
    marshalTraceMetadata = Ok raw /\
    resolved {| Rich := conversion_WorkspaceBuildParameters lbp;
                Legacy := conversion_Parameters lps |}
      (richParameterValues b) tvps values /\
    ws = (legacyWrites (database_Now T) (Workspace_ID (workspace b))
            (legacyParameterValues b) lps (Datatypes.S T)
          ++ [WInsertProvisionerJob jp; WInsertWorkspaceBuild p;
              WInsertWorkspaceBuildParameters
                {| IWBP_WorkspaceBuildID := uuid_New (T + 1 + n);
                   IWBP_Name := map TemplateVersionParameter_Name tvps;
                   IWBP_Value := values |}])%list /\
    (exists s, fst (InsertProvisionerJob s jp) = Ok pj) /\
    (exists s, fst (InsertWorkspaceBuild s p) = Ok wb).

End RowsOf.

Section ErrorClasses.
Context {S : Type} `{Store S} `{Collaborators}.




(** [FetchesOnce m]: once [m] has returned a value, it returns that value
    again, on whatever handle, and changes nothing. *)
Definition FetchesOnce {A} (m : M S A) : Prop :=
  forall st a st', m st = (Ok a, st') ->
    forall st2, bld st2 = bld st' -> m st2 = (Ok a, st2).

End ErrorClasses.

(** ** An in-memory store and stand-in collaborators

    A small implementation of the two interfaces, used to run the builder on
    concrete inputs. *)

Record FakeStore := {
  fs_templates : list Template;
  fs_templateVersions : list TemplateVersion;
  fs_provisionerJobs : list ProvisionerJob;
  fs_workspaceBuilds : list WorkspaceBuild;
  fs_parameterValues : list (UUID * ParameterValue);
  fs_workspaceBuildParameters : list DBWorkspaceBuildParameter;
  fs_templateVersionParameters : list (UUID * TemplateVersionParameter);
  (* how many of the coming transactions lose a write-write conflict *)
  fs_conflicts : nat }.

Definition notFound {A} (o : option A) : result A :=
  match o with
  | Some a => Ok a
  | None => Err ErrNoRows
  end.

(** The build of a workspace with the highest build number. *)
Fixpoint latestBuild (ws : UUID) (builds : list WorkspaceBuild)
    : option WorkspaceBuild :=
  match builds with
  | [] => None
  | bl :: rest =>
      if N.eqb (WorkspaceBuild_WorkspaceID bl) ws then
        match latestBuild ws rest with
        | Some bl' =>
            if WorkspaceBuild_BuildNumber bl <? WorkspaceBuild_BuildNumber bl'
            then Some bl' else Some bl
        | None => Some bl
        end
      else latestBuild ws rest
  end.

Definition fs_with_conflicts (n : nat) (s : FakeStore) : FakeStore :=
  {| fs_templates := fs_templates s;
     fs_templateVersions := fs_templateVersions s;
     fs_provisionerJobs := fs_provisionerJobs s;
     fs_workspaceBuilds := fs_workspaceBuilds s;
     fs_parameterValues := fs_parameterValues s;
     fs_workspaceBuildParameters := fs_workspaceBuildParameters s;
     fs_templateVersionParameters := fs_templateVersionParameters s;
     fs_conflicts := n |}.

Definition fs_insertJob (p : InsertProvisionerJobParams) (s : FakeStore)
    : result ProvisionerJob * FakeStore :=
  let j := {| ProvisionerJob_ID := IPJ_ID p;
              ProvisionerJob_UpdatedAt := IPJ_UpdatedAt p;
              ProvisionerJob_StartedAt := None;
              ProvisionerJob_CanceledAt := None;
              ProvisionerJob_CompletedAt := None;
              ProvisionerJob_Error := {| NullString_String := "";
                                         NullString_Valid := false |};
              ProvisionerJob_StorageMethod := IPJ_StorageMethod p;
              ProvisionerJob_FileID := IPJ_FileID p;
              ProvisionerJob_Tags := IPJ_Tags p |} in
  (Ok j,
   {| fs_templates := fs_templates s;
      fs_templateVersions := fs_templateVersions s;
      fs_provisionerJobs := fs_provisionerJobs s ++ [j];
      fs_workspaceBuilds := fs_workspaceBuilds s;
      fs_parameterValues := fs_parameterValues s;
      fs_workspaceBuildParameters := fs_workspaceBuildParameters s;
      fs_templateVersionParameters := fs_templateVersionParameters s;
      fs_conflicts := fs_conflicts s |}).

Definition fs_insertBuild (p : InsertWorkspaceBuildParams) (s : FakeStore)
    : result WorkspaceBuild * FakeStore :=
  match fs_conflicts s with
  | Datatypes.S _ => (Err (PqError "40001"), s)
  | O =>
      let bl := {| WorkspaceBuild_ID := IWB_ID p;
                   WorkspaceBuild_WorkspaceID := IWB_WorkspaceID p;
                   WorkspaceBuild_TemplateVersionID := IWB_TemplateVersionID p;
                   WorkspaceBuild_BuildNumber := IWB_BuildNumber p;
                   WorkspaceBuild_ProvisionerState := IWB_ProvisionerState p;
                   WorkspaceBuild_InitiatorID := IWB_InitiatorID p;
                   WorkspaceBuild_Transition := IWB_Transition p;
                   WorkspaceBuild_JobID := IWB_JobID p;
                   WorkspaceBuild_Reason := IWB_Reason p |} in
      (Ok bl,
       {| fs_templates := fs_templates s;
          fs_templateVersions := fs_templateVersions s;
          fs_provisionerJobs := fs_provisionerJobs s;
          fs_workspaceBuilds := fs_workspaceBuilds s ++ [bl];
          fs_parameterValues := fs_parameterValues s;
          fs_workspaceBuildParameters := fs_workspaceBuildParameters s;
          fs_templateVersionParameters := fs_templateVersionParameters s;
          fs_conflicts := fs_conflicts s |})
  end.

Definition fs_setParameterValues (pvs : list (UUID * ParameterValue))
    (s : FakeStore) : FakeStore :=
  {| fs_templates := fs_templates s;
     fs_templateVersions := fs_templateVersions s;
     fs_provisionerJobs := fs_provisionerJobs s;
     fs_workspaceBuilds := fs_workspaceBuilds s;
     fs_parameterValues := pvs;
     fs_workspaceBuildParameters := fs_workspaceBuildParameters s;
     fs_templateVersionParameters := fs_templateVersionParameters s;
     fs_conflicts := fs_conflicts s |}.

Definition fs_addBuildParameters (ps : list DBWorkspaceBuildParameter)
    (s : FakeStore) : FakeStore :=
  {| fs_templates := fs_templates s;
     fs_templateVersions := fs_templateVersions s;
     fs_provisionerJobs := fs_provisionerJobs s;
     fs_workspaceBuilds := fs_workspaceBuilds s;
     fs_parameterValues := fs_parameterValues s;
     fs_workspaceBuildParameters := fs_workspaceBuildParameters s ++ ps;
     fs_templateVersionParameters := fs_templateVersionParameters s;
     fs_conflicts := fs_conflicts s |}.

Definition FakeStore_Store : Store FakeStore :=
  {| GetTemplateByID s id :=
       notFound (find (fun t => N.eqb (Template_ID t) id) (fs_templates s));
     GetTemplateVersionByID s id :=
       notFound (find (fun v => N.eqb (TemplateVersion_ID v) id)
                   (fs_templateVersions s));
     GetProvisionerJobByID s id :=
       notFound (find (fun j => N.eqb (ProvisionerJob_ID j) id)
                   (fs_provisionerJobs s));
     GetLatestWorkspaceBuildByWorkspaceID s ws :=
       notFound (latestBuild ws (fs_workspaceBuilds s));
     GetWorkspaceBuildParameters s id :=
       (filter (fun p => N.eqb (DBWorkspaceBuildParameter_WorkspaceBuildID p) id)
          (fs_workspaceBuildParameters s), None);
     GetTemplateVersionParameters s id :=
       (map snd (filter (fun p => N.eqb (fst p) id)
                   (fs_templateVersionParameters s)), None);
     ParameterValues s arg :=
       (map snd (filter (fun p => existsb (N.eqb (fst p)) (ScopeIds arg))
                   (fs_parameterValues s)), None);
     DeleteParameterValueByID s id :=
       (None,
        fs_setParameterValues
          (filter (fun p => negb (N.eqb (ParameterValue_ID (snd p)) id))
             (fs_parameterValues s)) s);
     InsertParameterValue s p :=
       let pv := {| ParameterValue_ID := IPV_ID p;
                    ParameterValue_Name := IPV_Name p;
                    ParameterValue_SourceValue := IPV_SourceValue p |} in
       (Ok pv, fs_setParameterValues (fs_parameterValues s ++ [(IPV_ScopeID p, pv)]) s);
     InsertProvisionerJob s p := fs_insertJob p s;
     InsertWorkspaceBuild s p := fs_insertBuild p s;
     InsertWorkspaceBuildParameters s p :=
       (None,
        fs_addBuildParameters
          (map (fun nv => {| DBWorkspaceBuildParameter_WorkspaceBuildID :=
                               IWBP_WorkspaceBuildID p;
                             DBWorkspaceBuildParameter_Name := fst nv;
                             DBWorkspaceBuildParameter_Value := snd nv |})
             (combine (IWBP_Name p) (IWBP_Value p))) s);
     txBegin s := s;
     txCommit _ tx' := tx';
     txRollback s _ := fs_with_conflicts (Nat.pred (fs_conflicts s)) s |}.

(** Modelled from the spec: a job's status is derived from its timestamps
    (started/completed/canceled) and its error field
    ([conversion.ConvertProvisionerJobStatus] is not part of the sources). *)
Definition statusFromTimestamps (j : ProvisionerJob) : ProvisionerJobStatus :=
  match ProvisionerJob_CanceledAt j with
  | Some _ => ProvisionerJobCanceled
  | None =>
      match ProvisionerJob_StartedAt j with
      | None => ProvisionerJobPending
      | Some _ =>
          match ProvisionerJob_CompletedAt j with
          | None => ProvisionerJobRunning
          | Some _ =>
              if String.eqb (NullString_String (ProvisionerJob_Error j)) ""
              then ProvisionerJobSucceeded else ProvisionerJobFailed
          end
      end
  end.

Fixpoint findRich (ps : list WorkspaceBuildParameter) (name : string)
    : option string :=
  match ps with
  | [] => None
  | p :: rest =>
      if String.eqb (WorkspaceBuildParameter_Name p) name
      then Some (WorkspaceBuildParameter_Value p)
      else findRich rest name
  end.

Definition testCollaborators : Collaborators :=
  {| ConvertProvisionerJobStatus := statusFromTimestamps;
     MutateTags owner tags := tags;
     uuid_New n := (1000 + N.of_nat n)%N;
     database_Now n := Z.of_nat n;
     marshalWorkspaceProvisionJob _ _ := Ok [];
     marshalTraceMetadata := Ok [];
     conversion_WorkspaceBuildParameters :=
       map (fun p => {| WorkspaceBuildParameter_Name := DBWorkspaceBuildParameter_Name p;
                        WorkspaceBuildParameter_Value := DBWorkspaceBuildParameter_Value p |});
     conversion_Parameters :=
       map (fun p => {| SDKParameter_Name := ParameterValue_Name p;
                        SDKParameter_SourceValue := ParameterValue_SourceValue p |});
     conversion_TemplateVersionParameter p :=
       Ok {| SDKTemplateVersionParameter_Name := TemplateVersionParameter_Name p;
             SDKTemplateVersionParameter_Schema := TemplateVersionParameter_Schema p |};
     ValidateResolve resolver tvp override :=
       match override with
       | Some v => Ok (WorkspaceBuildParameter_Value v)
       | None =>
           match findRich (Rich resolver) (SDKTemplateVersionParameter_Name tvp) with
           | Some v => Ok v
           | None => Err (ErrNew "parameter value is required")
           end
       end;
     errorString _ := "error";
     ResourceNotFoundMessage :=
       "Resource not found or you do not have access to this resource";
     escaped s := s;
     fmt_UUID _ := "uuid";
     fmt_NullUUID _ := "uuid" |}.

(** *** A sample deployment

    Template 10 with versions 20 (active, imported) and 21 (imported),
    version 22 of another template, version 23 still importing; workspace 1
    of owner 7 with one finished build, workspace 2 whose build is still
    running, workspace 3 without any build. *)

Definition okJob (id : UUID) : ProvisionerJob :=
  {| ProvisionerJob_ID := id; ProvisionerJob_UpdatedAt := 0;
     ProvisionerJob_StartedAt := Some 0; ProvisionerJob_CanceledAt := None;
     ProvisionerJob_CompletedAt := Some 0;
     ProvisionerJob_Error := {| NullString_String := ""; NullString_Valid := false |};
     ProvisionerJob_StorageMethod := "file"; ProvisionerJob_FileID := 50%N;
     ProvisionerJob_Tags := [] |}.

Definition runningJob (id : UUID) : ProvisionerJob :=
  {| ProvisionerJob_ID := id; ProvisionerJob_UpdatedAt := 0;
     ProvisionerJob_StartedAt := Some 0; ProvisionerJob_CanceledAt := None;
     ProvisionerJob_CompletedAt := None;
     ProvisionerJob_Error := {| NullString_String := ""; NullString_Valid := false |};
     ProvisionerJob_StorageMethod := "file"; ProvisionerJob_FileID := 50%N;
     ProvisionerJob_Tags := [] |}.

Definition pendingJob (id : UUID) : ProvisionerJob :=
  {| ProvisionerJob_ID := id; ProvisionerJob_UpdatedAt := 0;
     ProvisionerJob_StartedAt := None; ProvisionerJob_CanceledAt := None;
     ProvisionerJob_CompletedAt := None;
     ProvisionerJob_Error := {| NullString_String := ""; NullString_Valid := false |};
     ProvisionerJob_StorageMethod := "file"; ProvisionerJob_FileID := 50%N;
     ProvisionerJob_Tags := [] |}.

Definition sampleVersion (id tpl job : UUID) : TemplateVersion :=
  {| TemplateVersion_ID := id;
     TemplateVersion_TemplateID := {| NullUUID_UUID := tpl; NullUUID_Valid := true |};
     TemplateVersion_Name := "v"; TemplateVersion_JobID := job |}.

Definition sampleBuild (id ws ver : UUID) (num : Z) (st : bytes) (job : UUID)
    : WorkspaceBuild :=
  {| WorkspaceBuild_ID := id; WorkspaceBuild_WorkspaceID := ws;
     WorkspaceBuild_TemplateVersionID := ver; WorkspaceBuild_BuildNumber := num;
     WorkspaceBuild_ProvisionerState := st; WorkspaceBuild_InitiatorID := 7%N;
     WorkspaceBuild_Transition := WorkspaceTransitionStart;
     WorkspaceBuild_JobID := job; WorkspaceBuild_Reason := BuildReasonInitiator |}.

Definition sampleTemplate : Template :=
  {| Template_ID := 10%N; Template_OrganizationID := 9%N;
     Template_Provisioner := "terraform"; Template_ActiveVersionID := 20%N |}.

Definition sampleStore : FakeStore :=
  {| fs_templates := [sampleTemplate];
     fs_templateVersions :=
       [sampleVersion 20%N 10%N 30%N; sampleVersion 21%N 10%N 31%N;
        sampleVersion 22%N 11%N 32%N; sampleVersion 23%N 10%N 33%N];
     fs_provisionerJobs :=
       [okJob 30%N; okJob 31%N; okJob 32%N; pendingJob 33%N; okJob 40%N;
        runningJob 41%N];
     fs_workspaceBuilds :=
       [sampleBuild 60%N 1%N 21%N 3 [Byte.x01; Byte.x02] 40%N;
        sampleBuild 61%N 2%N 20%N 1 [] 41%N];
     fs_parameterValues := [];
     fs_workspaceBuildParameters := [];
     fs_templateVersionParameters := [];
     fs_conflicts := 0 |}.

Definition workspace1 : Workspace :=
  {| Workspace_ID := 1%N; Workspace_OwnerID := 7%N; Workspace_TemplateID := 10%N |}.
Definition workspace2 : Workspace :=
  {| Workspace_ID := 2%N; Workspace_OwnerID := 7%N; Workspace_TemplateID := 10%N |}.

Definition start1 : Builder := New workspace1 WorkspaceTransitionStart.
Definition start2 : Builder := New workspace2 WorkspaceTransitionStart.

(** An [authFunc] that lets the owner act on workspaces but not on templates. *)
Definition ownerOnly (a : Action) (o : Objecter) : bool :=
  match o with
  | ObjWorkspace _ => true
  | _ => false
  end.

Definition allowAll (a : Action) (o : Objecter) : bool := true.

Definition denyAll (a : Action) (o : Objecter) : bool := false.

(** [Build] on the in-memory store, with no draw made before. *)
Abbreviation runBuild authFunc b s :=
  (@Build FakeStore FakeStore_Store testCollaborators authFunc b s 0%nat)
  (only parsing).

(** *** More of the sample deployment

    Version 21 declares one parameter, [region]; the last build of
    workspace 1 has the value [eu] for it; workspace 1 has two legacy
    parameter values and workspace 2 has one. *)

Definition regionParameter : TemplateVersionParameter :=
  {| TemplateVersionParameter_Name := "region"; TemplateVersionParameter_Schema := "" |}.

Definition sizeValue : ParameterValue :=
  {| ParameterValue_ID := 70%N; ParameterValue_Name := "size";
     ParameterValue_SourceValue := "small" |}.

Definition zoneValue : ParameterValue :=
  {| ParameterValue_ID := 71%N; ParameterValue_Name := "zone";
     ParameterValue_SourceValue := "a" |}.

Definition otherSizeValue : ParameterValue :=
  {| ParameterValue_ID := 72%N; ParameterValue_Name := "size";
     ParameterValue_SourceValue := "tiny" |}.

Definition regionOfBuild60 : DBWorkspaceBuildParameter :=
  {| DBWorkspaceBuildParameter_WorkspaceBuildID := 60%N;
     DBWorkspaceBuildParameter_Name := "region";
     DBWorkspaceBuildParameter_Value := "eu" |}.

Definition withParameters (buildParameters : list DBWorkspaceBuildParameter)
    (s : FakeStore) : FakeStore :=
  {| fs_templates := fs_templates s;
     fs_templateVersions := fs_templateVersions s;
     fs_provisionerJobs := fs_provisionerJobs s;
     fs_workspaceBuilds := fs_workspaceBuilds s;
     fs_parameterValues :=
       [(1%N, sizeValue); (1%N, zoneValue); (2%N, otherSizeValue)];
     fs_workspaceBuildParameters := buildParameters;
     fs_templateVersionParameters := [(21%N, regionParameter)];
     fs_conflicts := fs_conflicts s |}.

(** The deployment with parameters, and the same where the last build of
    workspace 1 has no value for [region]. *)
Definition parameterStore : FakeStore := withParameters [regionOfBuild60] sampleStore.
Definition incompleteStore : FakeStore := withParameters [] sampleStore.

(** A request to set the legacy parameter [size]. *)
Definition sizeRequest : CreateParameterRequest :=
  {| CreateParameterRequest_Name := "size";
     CreateParameterRequest_SourceValue := "large";
     CreateParameterRequest_SourceScheme := "data";
     CreateParameterRequest_DestinationScheme := "environment_variable" |}.

(** A build of workspace 1 with the largest int32 as its number. *)
Definition lastOfAll : WorkspaceBuild :=
  sampleBuild 60%N 1%N 21%N (2 ^ 31 - 1) [Byte.x01; Byte.x02] 40%N.

(** * Properties *)

Local Open Scope list_scope.

Section CacheLemmas.
Context {S : Type} `{Store S} `{Collaborators}.

Lemma slotLe_refl {A} (o : option A) : slotLe o o.
Proof. intros x E; exact E. Qed.

Lemma slotLe_trans {A} (o1 o2 o3 : option A) :
  slotLe o1 o2 -> slotLe o2 o3 -> slotLe o1 o3.
Proof. intros H12 H23 x E. apply H23, H12, E. Qed.

Lemma slotLe_None {A} (o : option A) : slotLe None o.
Proof. intros x E; discriminate E. Qed.

Lemma cacheLe_refl b : cacheLe b b.
Proof. constructor; apply slotLe_refl. Qed.

Lemma cacheLe_trans b1 b2 b3 : cacheLe b1 b2 -> cacheLe b2 b3 -> cacheLe b1 b3.
Proof.
  intros [] []; constructor; eapply slotLe_trans; eassumption.
Qed.

Lemma ext_refl st : ext st st.
Proof. constructor; try reflexivity; [apply cacheLe_refl | exact (fun I => I)]. Qed.

Lemma ext_trans st1 st2 st3 : ext st1 st2 -> ext st2 st3 -> ext st1 st3.
Proof.
  intros [] []; constructor; try congruence; [| auto].
  eapply cacheLe_trans; eassumption.
Qed.

End CacheLemmas.

Section ReadLemmas.
Context {S : Type} `{Store S} `{Collaborators}.

(** Filling a slot with the value behind it changes no view. *)
Lemma views_set_template b s t :
  viewTemplate b s = Ok t -> views (set_template (Some t) b) s = views b s.
Proof.
  unfold views, viewTemplateVersionJob, viewTemplateVersion, viewTemplateVersionID,
    viewLastBuildJob, viewLastParameterValues, viewLastBuild, viewTemplate.
  simpl. intros E.
  destruct (template b); rewrite E; reflexivity.
Qed.

Lemma views_set_lastBuild b s bl :
  viewLastBuild b s = Ok bl -> views (set_lastBuild (Some bl) b) s = views b s.
Proof.
  unfold views, viewTemplateVersionJob, viewTemplateVersion, viewTemplateVersionID,
    viewLastBuildJob, viewLastParameterValues, viewLastBuild, viewTemplate.
  simpl. intros E.
  destruct (lastBuild b); rewrite E; reflexivity.
Qed.

Lemma views_set_templateVersion b s v :
  viewTemplateVersion b s = Ok v ->
  views (set_templateVersion (Some v) b) s = views b s.
Proof.
  unfold views, viewTemplateVersionJob, viewTemplateVersion.
  simpl. intros E. rewrite E. reflexivity.
Qed.

Lemma views_set_templateVersionJob b s j :
  viewTemplateVersionJob b s = Ok j ->
  views (set_templateVersionJob (Some j) b) s = views b s.
Proof.
  unfold views, viewTemplateVersionJob.
  simpl. intros E. rewrite E. reflexivity.
Qed.

Lemma views_set_lastBuildJob b s j :
  viewLastBuildJob b s = Ok j ->
  views (set_lastBuildJob (Some j) b) s = views b s.
Proof.
  unfold views, viewLastBuildJob.
  simpl. intros E. rewrite E. reflexivity.
Qed.

Lemma views_set_lastParameterValues b s pv :
  viewLastParameterValues b s = Ok pv ->
  views (set_lastParameterValues (Some pv) b) s = views b s.
Proof.
  unfold views, viewLastParameterValues.
  simpl. intros E. rewrite E. reflexivity.
Qed.

(** *** Combinators *)

Lemma Reads_ret {A} (a : A) : Reads (ret a) (fun _ _ => Ok a).
Proof. intros st; exists st; split; [reflexivity | apply ext_refl]. Qed.

Lemma Reads_fail {A} (e : error) : Reads (@fail S A e) (fun _ _ => Err e).
Proof. intros st; exists st; split; [reflexivity | apply ext_refl]. Qed.

Lemma Reads_liftResult {A} (r : result A) : Reads (liftResult r) (fun _ _ => r).
Proof. intros st; exists st; split; [reflexivity | apply ext_refl]. Qed.

Lemma Reads_bind {A B} (m : M S A) v (f : A -> M S B) w :
  Reads m v -> (forall a, Reads (f a) (w a)) -> (forall a, Stable (w a)) ->
  Reads (bind m f) (fun b s => rbind (v b s) (fun a => w a b s)).
Proof.
  intros Hm Hf Hw st. unfold bind.
  destruct (Hm st) as (st1 & E1 & X1). rewrite E1.
  destruct (v (bld st) (tx st)) as [a|e]; simpl.
  - destruct (Hf a st1) as (st2 & E2 & X2). exists st2. split.
    + rewrite E2, (Hw a st st1 X1). reflexivity.
    + eapply ext_trans; eassumption.
  - exists st1. split; [reflexivity | assumption].
Qed.

Lemma Reads_wrapErr {A} (m : M S A) v w :
  Reads m v -> Reads (wrapErr w m) (fun b s => rwrap w (v b s)).
Proof.
  intros Hm st. unfold wrapErr.
  destruct (Hm st) as (st1 & E1 & X1). rewrite E1. exists st1.
  destruct (v (bld st) (tx st)); simpl; split; auto.
Qed.

Lemma Reads_getB {A} (f : Builder -> M S A) w :
  (forall b0, Reads (f b0) (w b0)) ->
  Reads (bind getB f) (fun b s => w b b s).
Proof. intros Hf st. unfold bind, getB. apply Hf. Qed.

Lemma Reads_eq {A} (m : M S A) v v' :
  Reads m v -> (forall b s, v b s = v' b s) -> Reads m v'.
Proof.
  intros Hm E st. destruct (Hm st) as (st1 & E1 & X1).
  exists st1. rewrite <- E. auto.
Qed.

(** *** The views are stable *)

Ltac stable :=
  let st := fresh "st" in
  let st' := fresh "st'" in
  let X := fresh "X" in
  intros st st' X;
  let Hc := fresh "Hc" in
  let Hv := fresh "Hv" in
  pose proof (ext_config _ _ X) as Hc;
  pose proof (ext_views _ _ X) as Hv;
  rewrite (ext_tx _ _ X);
  unfold config, views in Hc, Hv;
  injection Hc as ? ? ? ? ? ? ?;
  injection Hv as ? ? ? ? ? ?.

Lemma Stable_viewTemplate : Stable viewTemplate.
Proof. stable. assumption. Qed.

Lemma Stable_viewLastBuild : Stable viewLastBuild.
Proof. stable. assumption. Qed.

Lemma Stable_viewTemplateVersion : Stable viewTemplateVersion.
Proof. stable. assumption. Qed.

Lemma Stable_viewTemplateVersionJob : Stable viewTemplateVersionJob.
Proof. stable. assumption. Qed.

Lemma Stable_viewLastBuildJob : Stable viewLastBuildJob.
Proof. stable. assumption. Qed.

Lemma Stable_viewLastParameterValues : Stable viewLastParameterValues.
Proof. stable. assumption. Qed.

Lemma Stable_viewTemplateVersionID : Stable viewTemplateVersionID.
Proof.
  stable. unfold viewTemplateVersionID.
  repeat match goal with E : _ = _ |- _ => rewrite E; clear E end.
  reflexivity.
Qed.

(** *** Filling a slot *)

Ltac fill_slot lem V :=
  let E := fresh "E" in
  intros E; constructor; simpl; try reflexivity;
  try (unfold jobAfterBuild; simpl; intros; solve [auto | discriminate]);
  [ apply lem; assumption
  | constructor; simpl; try apply slotLe_refl;
    unfold V in E;
    match goal with
    | |- slotLe ?o _ =>
        destruct o; [injection E as ->; apply slotLe_refl | apply slotLe_None]
    end
  | idtac .. ].

Lemma fill_template st t :
  viewTemplate (bld st) (tx st) = Ok t ->
  ext st (withBuilder (set_template (Some t) (bld st)) st).
Proof. fill_slot views_set_template @viewTemplate. Qed.

Lemma fill_lastBuild st bl :
  viewLastBuild (bld st) (tx st) = Ok bl ->
  ext st (withBuilder (set_lastBuild (Some bl) (bld st)) st).
Proof. fill_slot views_set_lastBuild @viewLastBuild. Qed.

Lemma fill_templateVersion st v :
  viewTemplateVersion (bld st) (tx st) = Ok v ->
  ext st (withBuilder (set_templateVersion (Some v) (bld st)) st).
Proof. fill_slot views_set_templateVersion @viewTemplateVersion. Qed.

Lemma fill_templateVersionJob st j :
  viewTemplateVersionJob (bld st) (tx st) = Ok j ->
  ext st (withBuilder (set_templateVersionJob (Some j) (bld st)) st).
Proof. fill_slot views_set_templateVersionJob @viewTemplateVersionJob. Qed.

Lemma fill_lastBuildJob st j :
  lastBuild (bld st) <> None ->
  viewLastBuildJob (bld st) (tx st) = Ok j ->
  ext st (withBuilder (set_lastBuildJob (Some j) (bld st)) st).
Proof.
  intros F. fill_slot views_set_lastBuildJob @viewLastBuildJob.
  unfold jobAfterBuild; simpl. intros _ N. contradiction.
Qed.

Lemma fill_lastParameterValues st pv :
  viewLastParameterValues (bld st) (tx st) = Ok pv ->
  ext st (withBuilder (set_lastParameterValues (Some pv) (bld st)) st).
Proof. fill_slot views_set_lastParameterValues @viewLastParameterValues. Qed.

(** *** The accessors read their views *)

(** Run a sub-call whose [Reads] lemma is [L] from the state [st]. *)
Ltac run L st st1 E1 X1 :=
  destruct (L st) as (st1 & E1 & X1); rewrite E1.

Ltac done_at st := exists st; split; [reflexivity | try apply ext_refl; try assumption].

Lemma Reads_getTemplate : Reads getTemplate viewTemplate.
Proof.
  intros st. unfold getTemplate, bind, getB.
  pose proof (fill_template st) as F. unfold viewTemplate in *.
  destruct (template (bld st)) eqn:E; [done_at st |].
  unfold queryStore.
  destruct (GetTemplateByID (tx st) _) as [t|e] eqn:G; [| done_at st].
  eexists. split; [reflexivity | apply F; reflexivity].
Qed.

Lemma Reads_getLastBuild : Reads getLastBuild viewLastBuild.
Proof.
  intros st. unfold getLastBuild, bind, getB.
  pose proof (fill_lastBuild st) as F. unfold viewLastBuild in *.
  destruct (lastBuild (bld st)) eqn:E; [done_at st |].
  unfold queryStore.
  destruct (GetLatestWorkspaceBuildByWorkspaceID (tx st) _) as [t|e] eqn:G;
    [| done_at st].
  eexists. split; [reflexivity | apply F; reflexivity].
Qed.

Lemma Reads_getTemplateVersionID : Reads getTemplateVersionID viewTemplateVersionID.
Proof.
  intros st. unfold getTemplateVersionID, bind at 1, getB, viewTemplateVersionID.
  destruct (specific (version (bld st))); [done_at st |].
  destruct (active (version (bld st))); unfold bind.
  - run Reads_getTemplate st st1 E1 X1.
    destruct (viewTemplate _ _); done_at st1.
  - run Reads_getLastBuild st st1 E1 X1.
    destruct (viewLastBuild _ _); done_at st1.
Qed.

Lemma Reads_getTemplateVersion : Reads getTemplateVersion viewTemplateVersion.
Proof.
  intros st. unfold getTemplateVersion, bind at 1, getB.
  destruct (templateVersion (bld st)) eqn:E.
  { unfold viewTemplateVersion; rewrite E; done_at st. }
  unfold bind at 1. run Reads_getTemplateVersionID st st1 E1 X1.
  assert (V : viewTemplateVersion (bld st) (tx st)
              = rbind (viewTemplateVersionID (bld st) (tx st))
                  (GetTemplateVersionByID (tx st)))
    by (unfold viewTemplateVersion; rewrite E; reflexivity).
  rewrite V.
  destruct (viewTemplateVersionID (bld st) (tx st)) as [id|e]; [| done_at st1].
  unfold bind, queryStore, modB, ret. simpl.
  rewrite <- (ext_tx _ _ X1).
  destruct (GetTemplateVersionByID (tx st1) id) as [v|e] eqn:G; [| done_at st1].
  eexists. split; [reflexivity |].
  eapply ext_trans; [exact X1 |]. apply fill_templateVersion.
  rewrite (Stable_viewTemplateVersion _ _ X1), V. simpl.
  rewrite <- (ext_tx _ _ X1). exact G.
Qed.

Lemma Reads_getTemplateVersionJob : Reads getTemplateVersionJob viewTemplateVersionJob.
Proof.
  intros st. unfold getTemplateVersionJob, bind at 1, getB.
  destruct (templateVersionJob (bld st)) eqn:E.
  { unfold viewTemplateVersionJob; rewrite E; done_at st. }
  unfold bind at 1. run Reads_getTemplateVersion st st1 E1 X1.
  assert (V : viewTemplateVersionJob (bld st) (tx st)
              = rbind (viewTemplateVersion (bld st) (tx st))
                  (fun v => GetProvisionerJobByID (tx st) (TemplateVersion_JobID v)))
    by (unfold viewTemplateVersionJob; rewrite E; reflexivity).
  rewrite V.
  destruct (viewTemplateVersion (bld st) (tx st)) as [v|e]; [| done_at st1].
  unfold bind, queryStore, modB, ret. simpl.
  rewrite <- (ext_tx _ _ X1).
  destruct (GetProvisionerJobByID (tx st1) _) as [j|e] eqn:G; [| done_at st1].
  eexists. split; [reflexivity |].
  eapply ext_trans; [exact X1 |]. apply fill_templateVersionJob.
  rewrite (Stable_viewTemplateVersionJob _ _ X1), V. simpl.
  rewrite <- (ext_tx _ _ X1). exact G.
Qed.

(** A successful fetch fills its slot. *)
Lemma getTemplate_fill st t st' :
  getTemplate st = (Ok t, st') -> template (bld st') = Some t.
Proof.
  unfold getTemplate, bind, getB, queryStore, modB, ret.
  destruct (template (bld st)) eqn:E.
  - intros Q; injection Q as <- <-. exact E.
  - destruct (GetTemplateByID (tx st) _); [| discriminate].
    intros Q; injection Q as <- <-. reflexivity.
Qed.

Lemma getLastBuild_fill st bl st' :
  getLastBuild st = (Ok bl, st') -> lastBuild (bld st') = Some bl.
Proof.
  unfold getLastBuild, bind, getB, queryStore, modB, ret.
  destruct (lastBuild (bld st)) eqn:E.
  - intros Q; injection Q as <- <-. exact E.
  - destruct (GetLatestWorkspaceBuildByWorkspaceID (tx st) _); [| discriminate].
    intros Q; injection Q as <- <-. reflexivity.
Qed.

Lemma Reads_getLastBuildJob : Reads getLastBuildJob viewLastBuildJob.
Proof.
  intros st. unfold getLastBuildJob, bind at 1, getB.
  destruct (lastBuildJob (bld st)) eqn:E.
  { unfold viewLastBuildJob; rewrite E; done_at st. }
  unfold bind at 1. run Reads_getLastBuild st st1 E1 X1.
  assert (V : viewLastBuildJob (bld st) (tx st)
              = rbind (viewLastBuild (bld st) (tx st))
                  (fun bl => GetProvisionerJobByID (tx st) (WorkspaceBuild_JobID bl)))
    by (unfold viewLastBuildJob; rewrite E; reflexivity).
  rewrite V.
  destruct (viewLastBuild (bld st) (tx st)) as [v|e]; [| done_at st1].
  pose proof (getLastBuild_fill _ _ _ E1) as F.
  unfold bind, queryStore, modB, ret. simpl.
  rewrite <- (ext_tx _ _ X1).
  destruct (GetProvisionerJobByID (tx st1) _) as [j|e] eqn:G; [| done_at st1].
  eexists. split; [reflexivity |].
  eapply ext_trans; [exact X1 |]. apply fill_lastBuildJob; [congruence |].
  rewrite (Stable_viewLastBuildJob _ _ X1), V. simpl.
  rewrite <- (ext_tx _ _ X1). exact G.
Qed.

Lemma Reads_getLastParameterValues :
  Reads getLastParameterValues viewLastParameterValues.
Proof.
  intros st. unfold getLastParameterValues, bind, getB.
  pose proof (fill_lastParameterValues st) as F. unfold viewLastParameterValues in *.
  destruct (lastParameterValues (bld st)) eqn:E; [done_at st |].
  unfold queryStore.
  destruct (tolerateNoRows _) as [t|e] eqn:G; [| done_at st].
  eexists. split; [reflexivity | apply F; reflexivity].
Qed.

Lemma Reads_getBuildNumber : Reads getBuildNumber viewBuildNumber.
Proof.
  intros st. unfold getBuildNumber, viewBuildNumber, bind.
  run Reads_getLastBuild st st1 E1 X1.
  destruct (viewLastBuild _ _); done_at st1.
Qed.

Lemma Reads_getState : Reads getState viewState.
Proof.
  intros st. unfold getState, viewState, bind at 1, getB.
  destruct (orphan (state (bld st))); [done_at st |].
  destruct (explicit (state (bld st))); [done_at st |].
  unfold bind. run Reads_getLastBuild st st1 E1 X1.
  destruct (viewLastBuild _ _); done_at st1.
Qed.

(** *** The pre-checks read their verdicts *)

Lemma Reads_authorize f : Reads (authorize f) (authorizeV f).
Proof.
  intros st. unfold authorize, authorizeV, actionOf, bind at 1, getB.
  unfold bind, wrapErr, ret, fail.
  destruct (String.eqb _ _); [| destruct (orb _ _)]; simpl; try (done_at st).
  all: destruct (negb (f _ _)); [done_at st |].
  all: run Reads_getTemplate st st1 E1 X1.
  all: destruct (viewTemplate _ _) as [t|e]; simpl; [| done_at st1].
  all: unfold customState; destruct (explicit (state (bld st)));
    destruct (orphan (state (bld st))); simpl.
  all: destruct (f ActionUpdate (ObjTemplateRBACObject t)); simpl; try done_at st1.
  all: destruct (negb (String.eqb _ _) && _); done_at st1.
Qed.

Lemma Reads_checkTemplateVersionMatchesTemplate :
  Reads checkTemplateVersionMatchesTemplate checkTemplateVersionMatchesTemplateV.
Proof.
  intros st.
  unfold checkTemplateVersionMatchesTemplate, checkTemplateVersionMatchesTemplateV.
  unfold bind, wrapErr, ret, fail.
  run Reads_getTemplate st st1 E1 X1.
  destruct (viewTemplate _ _) as [t|e]; simpl; [| done_at st1].
  run Reads_getTemplateVersion st1 st2 E2 X2.
  rewrite (Stable_viewTemplateVersion _ _ X1).
  pose proof (ext_trans _ _ _ X1 X2) as X12.
  destruct (viewTemplateVersion (bld st) (tx st)) as [v|e]; simpl; [| done_at st2].
  unfold versionMatches.
  destruct (NullUUID_Valid _); simpl; [| done_at st2].
  destruct (N.eqb _ _); simpl; done_at st2.
Qed.

Lemma Reads_checkTemplateJobStatus :
  Reads checkTemplateJobStatus checkTemplateJobStatusV.
Proof.
  intros st.
  unfold checkTemplateJobStatus, checkTemplateJobStatusV.
  unfold bind, wrapErr, ret, fail.
  run Reads_getTemplateVersion st st1 E1 X1.
  destruct (viewTemplateVersion (bld st) (tx st)) as [t|e]; simpl; [| done_at st1].
  run Reads_getTemplateVersionJob st1 st2 E2 X2.
  rewrite (Stable_viewTemplateVersionJob _ _ X1).
  pose proof (ext_trans _ _ _ X1 X2) as X12.
  destruct (viewTemplateVersionJob (bld st) (tx st)) as [v|e]; simpl; [| done_at st2].
  unfold importVerdict.
  destruct (ConvertProvisionerJobStatus v); simpl; done_at st2.
Qed.

Lemma Reads_checkRunningBuild : Reads checkRunningBuild checkRunningBuildV.
Proof.
  intros st.
  unfold checkRunningBuild, checkRunningBuildV.
  unfold bind, wrapErr, ret, fail.
  run Reads_getLastBuildJob st st1 E1 X1.
  destruct (viewLastBuildJob _ _) as [t|e]; simpl; [| done_at st1].
  destruct (Active _); done_at st1.
Qed.


Lemma Stable_checkTemplateVersionMatchesTemplateV :
  Stable checkTemplateVersionMatchesTemplateV.
Proof.
  intros st st' X. unfold checkTemplateVersionMatchesTemplateV.
  rewrite (Stable_viewTemplate _ _ X), (Stable_viewTemplateVersion _ _ X).
  reflexivity.
Qed.

Lemma Stable_checkTemplateJobStatusV : Stable checkTemplateJobStatusV.
Proof.
  intros st st' X. unfold checkTemplateJobStatusV.
  rewrite (Stable_viewTemplateVersion _ _ X), (Stable_viewTemplateVersionJob _ _ X).
  reflexivity.
Qed.

Lemma Stable_checkRunningBuildV : Stable checkRunningBuildV.
Proof.
  intros st st' X. unfold checkRunningBuildV.
  rewrite (Stable_viewLastBuildJob _ _ X). reflexivity.
Qed.

Lemma Reads_authorizeOpt authFunc :
  Reads (match authFunc with Some f => authorize f | None => ret tt end)
        (authorizeOptV authFunc).
Proof.
  destruct authFunc; [apply Reads_authorize | apply Reads_ret].
Qed.

Lemma Reads_preChecks authFunc : Reads (preChecks authFunc) (preChecksV authFunc).
Proof.
  intros st. unfold preChecks, preChecksV, bind.
  run (Reads_authorizeOpt authFunc) st st1 E1 X1.
  destruct (authorizeOptV authFunc (bld st) (tx st)); simpl; [| done_at st1].
  run Reads_checkTemplateVersionMatchesTemplate st1 st2 E2 X2.
  rewrite (Stable_checkTemplateVersionMatchesTemplateV _ _ X1).
  pose proof (ext_trans _ _ _ X1 X2) as X12.
  destruct (checkTemplateVersionMatchesTemplateV (bld st) (tx st)); simpl;
    [| done_at st2].
  run Reads_checkTemplateJobStatus st2 st3 E3 X3.
  rewrite (Stable_checkTemplateJobStatusV _ _ X12).
  pose proof (ext_trans _ _ _ X12 X3) as X13.
  destruct (checkTemplateJobStatusV (bld st) (tx st)); simpl; [| done_at st3].
  run Reads_checkRunningBuild st3 st4 E4 X4.
  rewrite (Stable_checkRunningBuildV _ _ X13).
  pose proof (ext_trans _ _ _ X13 X4) as X14.
  done_at st4.
Qed.

(** [buildTx] is its pre-checks followed by the insertion. *)
Lemma buildTx_split authFunc st :
  buildTx authFunc st =
  match preChecks authFunc st with
  | (Ok _, st') => computeAndInsert st'
  | (Err e, st') => (Err e, st')
  end.
Proof.
  unfold buildTx, preChecks, bind.
  destruct (match authFunc with Some f => authorize f | None => ret tt end st)
    as [[u|e] st1]; [| reflexivity].
  destruct (checkTemplateVersionMatchesTemplate st1) as [[u2|e] st2]; [| reflexivity].
  destruct (checkTemplateJobStatus st2) as [[u3|e] st3]; [| reflexivity].
  destruct (checkRunningBuild st3) as [[u4|e] st4]; reflexivity.
Qed.

(** When a pre-check rejects, [buildTx] returns its error and has written
    nothing; otherwise it goes on from the same handle. *)
Lemma buildTx_preChecks authFunc st :
  exists st1, ext st st1 /\
    buildTx authFunc st =
    match preChecksV authFunc (bld st) (tx st) with
    | Ok _ => computeAndInsert st1
    | Err e => (Err e, st1)
    end.
Proof.
  destruct (Reads_preChecks authFunc st) as (st1 & E1 & X1).
  exists st1. split; [assumption |].
  rewrite buildTx_split, E1.
  destruct (preChecksV authFunc (bld st) (tx st)); reflexivity.
Qed.

End ReadLemmas.

Section LoopLemmas.
Context {S : Type} `{Store S} `{Collaborators}.

Lemma buildLoop_step n authFunc b store tk err :
  buildLoop (Datatypes.S n) authFunc b store tk err =
  let (r, st) := attempt authFunc (b, store, tk) in
  match r with
  | Err e =>
      if isSerializationFailure (Some e)
      then buildLoop n authFunc (bld st) (txRollback store (tx st)) (tick st) (Some e)
      else {| o_workspaceBuild := None; o_provisionerJob := None; o_err := Some e;
              o_b := bld st; o_store := txRollback store (tx st);
              o_committed := []; o_tick := tick st |}
  | Ok (wb, pj) =>
      {| o_workspaceBuild := Some wb; o_provisionerJob := Some pj; o_err := None;
         o_b := bld st; o_store := txCommit store (tx st);
         o_committed := writes st; o_tick := tick st |}
  end.
Proof.
  simpl. unfold InTx, buildClosure, attempt. simpl.
  destruct (buildTx authFunc _) as [[[wb pj]|e] st]; simpl; reflexivity.
Qed.

Lemma attemptStart_shift authFunc k x :
  attemptStart authFunc (Datatypes.S k) x
  = attemptStart authFunc k (afterRollback authFunc x).
Proof.
  induction k as [|k IH]; [reflexivity |].
  simpl in *. rewrite IH. reflexivity.
Qed.

Lemma retried_shift authFunc k x :
  retried authFunc (Datatypes.S k) x -> retried authFunc k (afterRollback authFunc x).
Proof.
  intros R i Hi. rewrite <- attemptStart_shift. apply R. lia.
Qed.

Lemma buildLoop_retried authFunc k :
  forall n x err,
    retried authFunc k x ->
    buildLoop (k + n) authFunc (fst (fst x)) (snd (fst x)) (snd x) err
    = buildLoop n authFunc (startBuilder authFunc k x) (startStore authFunc k x)
        (startTick authFunc k x) (lastErr authFunc k x err).
Proof.
  induction k as [|k IH]; intros n x err R.
  - reflexivity.
  - change (Datatypes.S k + n)%nat with (Datatypes.S (k + n)).
    destruct x as [[b store] tk]. simpl fst; simpl snd.
    rewrite buildLoop_step.
    pose proof (R 0%nat ltac:(lia)) as R0. simpl in R0. unfold attemptErr in R0.
    pose proof (retried_shift _ _ _ R) as R'.
    unfold startBuilder, startStore, startTick.
    rewrite attemptStart_shift.
    assert (L : lastErr authFunc (Datatypes.S k) (b, store, tk) err
                = lastErr authFunc k (afterRollback authFunc (b, store, tk))
                    (attemptErr authFunc (b, store, tk))).
    { destruct k; simpl; [reflexivity |].
      rewrite <- attemptStart_shift. reflexivity. }
    rewrite L.
    specialize (IH n (afterRollback authFunc (b, store, tk))
                  (attemptErr authFunc (b, store, tk)) R').
    unfold startBuilder, startStore, startTick in IH. rewrite <- IH.
    unfold afterRollback, attemptErr.
    destruct (attempt authFunc (b, store, tk)) as [[[wb pj]|e] st];
      simpl in *; [discriminate |].
    rewrite R0. reflexivity.
Qed.


(** The first iteration when a pre-check rejects with an error that is not
    a serialization failure: [Build] returns that error at once. *)
Lemma Build_rejected authFunc b store tk e :
  preChecksV authFunc b (txBegin store) = Err e ->
  isSerializationFailure (Some e) = false ->
  exists b',
    Build authFunc b store tk =
    {| o_workspaceBuild := None; o_provisionerJob := None; o_err := Some e;
       o_b := b'; o_store := txRollback store (txBegin store);
       o_committed := []; o_tick := tk |}
    /\ cacheLe b b' /\ config b' = config b.
Proof.
  intros P Ser. unfold Build. rewrite buildLoop_step. unfold attempt.
  destruct (buildTx_preChecks authFunc
              {| bld := b; tx := txBegin store; writes := []; tick := tk |})
    as (st1 & X1 & E1).
  simpl in E1. rewrite P in E1. rewrite E1, Ser.
  exists (bld st1).
  rewrite (ext_tx _ _ X1), (ext_tick _ _ X1). simpl.
  split; [reflexivity |]. split; [apply (ext_cache _ _ X1) | apply (ext_config _ _ X1)].
Qed.

End LoopLemmas.

Section LoopInv.
Context {S : Type} `{Store S} `{Collaborators}.

(** A call that returns no error returns the outcome of an iteration that
    succeeded after all earlier ones were retried. *)
Lemma buildLoop_success_inv authFunc n :
  forall x err,
    o_err (buildLoop n authFunc (fst (fst x)) (snd (fst x)) (snd x) err) = None ->
    exists k wb pj st,
      (k < n)%nat /\ retried authFunc k x /\
      attempt authFunc (attemptStart authFunc k x) = (Ok (wb, pj), st) /\
      buildLoop n authFunc (fst (fst x)) (snd (fst x)) (snd x) err =
      {| o_workspaceBuild := Some wb; o_provisionerJob := Some pj; o_err := None;
         o_b := bld st; o_store := txCommit (startStore authFunc k x) (tx st);
         o_committed := writes st; o_tick := tick st |}.
Proof.
  induction n as [|n IH]; intros [[b store] tk] err; cbn [fst snd].
  - simpl. discriminate.
  - rewrite buildLoop_step.
    destruct (attempt authFunc (b, store, tk)) as [[[wb pj]|e] st] eqn:A.
    + intros _. exists 0%nat, wb, pj, st. repeat split; try lia.
      * intros i Hi; lia.
      * exact A.
    + destruct (isSerializationFailure (Some e)) eqn:Ser; [| simpl; discriminate].
      intros E.
      destruct (IH (bld st, txRollback store (tx st), tick st) (Some e) E)
        as (k & wb & pj & st' & Hk & R & A' & Eq).
      assert (AR : afterRollback authFunc (b, store, tk)
                   = (bld st, txRollback store (tx st), tick st))
        by (unfold afterRollback; rewrite A; reflexivity).
      exists (Datatypes.S k), wb, pj, st'. repeat split; try lia.
      * intros i Hi. destruct i as [|i].
        -- simpl. unfold attemptErr. rewrite A. exact Ser.
        -- rewrite attemptStart_shift, AR. apply R. lia.
      * rewrite attemptStart_shift, AR. exact A'.
      * cbn [fst snd] in Eq. rewrite Eq. unfold startStore.
        rewrite attemptStart_shift, AR. reflexivity.
Qed.

(** A call that returns an error returns no build and commits nothing. *)
Lemma buildLoop_failure authFunc n :
  forall b store tk err,
    o_err (buildLoop n authFunc b store tk err) <> None ->
    o_workspaceBuild (buildLoop n authFunc b store tk err) = None /\
    o_provisionerJob (buildLoop n authFunc b store tk err) = None /\
    o_committed (buildLoop n authFunc b store tk err) = [].
Proof.
  induction n as [|n IH]; intros b store tk err.
  - simpl. auto.
  - rewrite buildLoop_step.
    destruct (attempt authFunc (b, store, tk)) as [[[wb pj]|e] st].
    + simpl. intros F; contradiction F; reflexivity.
    + destruct (isSerializationFailure (Some e)); [apply IH | simpl; auto].
Qed.

End LoopInv.

Section RejectLemmas.
Context {S : Type} `{Store S} `{Collaborators}.

Lemma Build_rejectedWith authFunc b store tk e :
  preChecksV authFunc b (txBegin store) = Err e ->
  isSerializationFailure (Some e) = false ->
  rejectedWith e store tk (Build authFunc b store tk).
Proof.
  intros P Ser.
  destruct (Build_rejected authFunc b store tk e P Ser) as (b' & E & _).
  rewrite E. repeat split.
Qed.

End RejectLemmas.

Section KeepsLemmas.
Context {S : Type} `{Store S} `{Collaborators}.

Lemma keeps_refl b : keeps b b.
Proof. constructor; [reflexivity | apply cacheLe_refl | exact (fun I => I)]. Qed.

Lemma keeps_trans b1 b2 b3 : keeps b1 b2 -> keeps b2 b3 -> keeps b1 b3.
Proof.
  intros [] []; constructor; [congruence | eapply cacheLe_trans; eassumption | auto].
Qed.

Lemma ext_keeps st st' : ext st st' -> keeps (bld st) (bld st').
Proof.
  intros X; constructor;
    [apply (ext_config _ _ X) | apply (ext_cache _ _ X) | apply (ext_jobAfterBuild _ _ X)].
Qed.

Lemma Keeps_Reads {A} (m : M S A) v : Reads m v -> Keeps m.
Proof.
  intros R st. destruct (R st) as (st' & E & X). rewrite E. apply ext_keeps, X.
Qed.

Lemma Keeps_ret {A} (a : A) : Keeps (@ret S A a).
Proof. intros st; apply keeps_refl. Qed.

Lemma Keeps_fail {A} e : Keeps (@fail S A e).
Proof. intros st; apply keeps_refl. Qed.

Lemma Keeps_liftResult {A} (r : result A) : Keeps (@liftResult S A r).
Proof. intros st; apply keeps_refl. Qed.

Lemma Keeps_getB : Keeps (@getB S).
Proof. intros st; apply keeps_refl. Qed.

Lemma Keeps_draw {A} (f : nat -> A) : Keeps (@draw S A f).
Proof. intros st; apply keeps_refl. Qed.

Lemma Keeps_writeStore {A} w (f : S -> A * S) : Keeps (writeStore w f).
Proof.
  intros st. unfold writeStore. destruct (f (tx st)). apply keeps_refl.
Qed.

Lemma Keeps_queryStore {A} (f : S -> result A) : Keeps (queryStore f).
Proof. intros st; apply keeps_refl. Qed.

Lemma Keeps_bind {A B} (m : M S A) (f : A -> M S B) :
  Keeps m -> (forall a, Keeps (f a)) -> Keeps (bind m f).
Proof.
  intros Km Kf st. unfold bind. specialize (Km st).
  destruct (m st) as [[a|e] st1]; simpl in *; [| exact Km].
  eapply keeps_trans; [exact Km | apply Kf].
Qed.

Lemma Keeps_wrapErr {A} w (m : M S A) : Keeps m -> Keeps (wrapErr w m).
Proof.
  intros Km st. unfold wrapErr. specialize (Km st).
  destruct (m st) as [[a|e] st1]; exact Km.
Qed.

Lemma Keeps_modB (f : Builder -> Builder) :
  (forall b, keeps b (f b)) -> Keeps (@modB S f).
Proof. intros K st. apply K. Qed.

Lemma keeps_default_initiator b :
  keeps b (if N.eqb (initiator b) uuid_Nil
           then set_initiator (Workspace_OwnerID (workspace b)) b else b).
Proof.
  destruct (N.eqb _ _); [| apply keeps_refl].
  constructor; [reflexivity | constructor; simpl; apply slotLe_refl | exact (fun I => I)].
Qed.

Lemma keeps_default_reason b :
  keeps b (if String.eqb (reason b) ""
           then set_reason BuildReasonInitiator b else b).
Proof.
  destruct (String.eqb _ _); [| apply keeps_refl].
  constructor; [reflexivity | constructor; simpl; apply slotLe_refl | exact (fun I => I)].
Qed.

Lemma keeps_set_templateVersionParameters b ps :
  templateVersionParameters b = None ->
  keeps b (set_templateVersionParameters (Some ps) b).
Proof.
  intros E.
  constructor; [reflexivity | constructor; simpl; try apply slotLe_refl | exact (fun I => I)].
  rewrite E. apply slotLe_None.
Qed.

Ltac keeps_step :=
  first
    [ apply Keeps_ret | apply Keeps_fail | apply Keeps_liftResult | apply Keeps_getB
    | apply Keeps_draw | apply Keeps_writeStore | apply Keeps_queryStore
    | apply Keeps_wrapErr
    | eapply Keeps_Reads; first
        [ apply Reads_getTemplate | apply Reads_getLastBuild
        | apply Reads_getTemplateVersionID | apply Reads_getTemplateVersion
        | apply Reads_getTemplateVersionJob | apply Reads_getLastBuildJob
        | apply Reads_getLastParameterValues | apply Reads_getBuildNumber
        | apply Reads_getState | apply Reads_preChecks ]
    | apply Keeps_bind; [| intros ? ] ].

Lemma Keeps_getTemplateVersionParameters : Keeps getTemplateVersionParameters.
Proof.
  unfold getTemplateVersionParameters. intros st. unfold bind at 1, getB.
  destruct (templateVersionParameters (bld st)) eqn:E; [apply keeps_refl |].
  unfold bind.
  destruct (Reads_getTemplateVersionID st) as (st1 & E1 & X1). rewrite E1.
  destruct (viewTemplateVersionID _ _); [| apply ext_keeps, X1].
  unfold queryStore. destruct (tolerateNoRows _); [| apply ext_keeps, X1].
  simpl. eapply keeps_trans; [apply ext_keeps, X1 |].
  apply keeps_set_templateVersionParameters.
  rewrite (ext_templateVersionParameters _ _ X1). exact E.
Qed.

Lemma Keeps_getLastBuildParameters : Keeps getLastBuildParameters.
Proof.
  unfold getLastBuildParameters. apply Keeps_bind; [apply Keeps_getB | intros b].
  destruct (lastBuildParameters b); repeat keeps_step.
Qed.

Lemma Keeps_getParameters : Keeps getParameters.
Proof.
  unfold getParameters.
  apply Keeps_bind; [apply Keeps_wrapErr, Keeps_getTemplateVersionParameters | intros ?].
  apply Keeps_bind; [apply Keeps_wrapErr, Keeps_getLastBuildParameters | intros ?].
  repeat keeps_step.
Qed.

Lemma Keeps_deleteExisting name lps : Keeps (deleteExisting name lps).
Proof.
  induction lps as [|p lps IH]; simpl; [apply Keeps_ret |].
  apply Keeps_bind; [| intros _; exact IH].
  destruct (String.eqb _ _); [| apply Keeps_ret].
  apply Keeps_bind; [apply Keeps_writeStore | intros [e|]; [| apply Keeps_ret]].
  destruct (isErrNoRows e); [apply Keeps_ret | apply Keeps_fail].
Qed.

Lemma Keeps_writeLegacyParameters now id ps lps :
  Keeps (writeLegacyParameters now id ps lps).
Proof.
  induction ps as [|p ps IH]; simpl; [apply Keeps_ret |].
  apply Keeps_bind; [apply Keeps_deleteExisting | intros _].
  apply Keeps_bind; [apply Keeps_draw | intros ?].
  apply Keeps_bind; [| intros _; exact IH].
  repeat keeps_step.
Qed.

Lemma Keeps_computeAndInsert : Keeps computeAndInsert.
Proof.
  unfold computeAndInsert.
  repeat first
    [ apply Keeps_getParameters
    | apply Keeps_writeLegacyParameters
    | apply Keeps_modB; first [apply keeps_default_initiator | apply keeps_default_reason]
    | match goal with |- Keeps (match ?e with _ => _ end) => destruct e end
    | keeps_step ].
Qed.

Lemma Keeps_buildTx authFunc : Keeps (buildTx authFunc).
Proof.
  intros st. rewrite buildTx_split.
  pose proof (Keeps_Reads _ _ (Reads_preChecks authFunc) st) as K.
  destruct (preChecks authFunc st) as [[u|e] st1]; simpl in *; [| exact K].
  eapply keeps_trans; [exact K | apply Keeps_computeAndInsert].
Qed.

End KeepsLemmas.

Section InsertLemmas.
Context {S : Type} `{Store S} `{Collaborators}.

Lemma Quiet_Reads {A} (m : M S A) v : Reads m v -> Quiet m.
Proof.
  intros R st. destruct (R st) as (st' & E & X). rewrite E. simpl.
  split; [apply (ext_tx _ _ X) | apply (ext_writes _ _ X)].
Qed.

Lemma Quiet_ret {A} (a : A) : Quiet (@ret S A a).
Proof. intros st; simpl; auto. Qed.

Lemma Quiet_liftResult {A} (r : result A) : Quiet (@liftResult S A r).
Proof. intros st; simpl; auto. Qed.

Lemma Quiet_getB : Quiet (@getB S).
Proof. intros st; simpl; auto. Qed.

Lemma Quiet_modB f : Quiet (@modB S f).
Proof. intros st; simpl; auto. Qed.

Lemma Quiet_draw {A} (f : nat -> A) : Quiet (@draw S A f).
Proof. intros st; simpl; auto. Qed.

Lemma Quiet_queryStore {A} (f : S -> result A) : Quiet (queryStore f).
Proof. intros st; simpl; auto. Qed.

Lemma Quiet_bind {A B} (m : M S A) (f : A -> M S B) :
  Quiet m -> (forall a, Quiet (f a)) -> Quiet (bind m f).
Proof.
  intros Qm Qf st. unfold bind. specialize (Qm st).
  destruct (m st) as [[a|e] st1]; simpl in *; [| exact Qm].
  destruct Qm as (Q1 & Q2). destruct (Qf a st1) as (R1 & R2).
  split; congruence.
Qed.

Lemma Quiet_wrapErr {A} w (m : M S A) : Quiet m -> Quiet (wrapErr w m).
Proof.
  intros Qm st. unfold wrapErr. specialize (Qm st).
  destruct (m st) as [[a|e] st1]; exact Qm.
Qed.

Ltac quiet_step :=
  first
    [ apply Quiet_ret | apply Quiet_liftResult | apply Quiet_getB | apply Quiet_modB
    | apply Quiet_queryStore | apply Quiet_wrapErr
    | eapply Quiet_Reads; first
        [ apply Reads_getTemplate | apply Reads_getLastBuild
        | apply Reads_getTemplateVersionID | apply Reads_getLastParameterValues ]
    | apply Quiet_bind; [| intros ? ]
    | match goal with |- Quiet (match ?e with _ => _ end) => destruct e end ].

Lemma Quiet_getParameters : Quiet getParameters.
Proof.
  unfold getParameters, getTemplateVersionParameters, getLastBuildParameters.
  repeat quiet_step.
Qed.

(** The legacy parameter update leaves the builder alone and issues only
    parameter writes. *)
Lemma deleteExisting_effect name lps :
  forall st r st',
    deleteExisting name lps st = (r, st') ->
    bld st' = bld st /\
    exists l, writes st' = writes st ++ l /\ forallb isParameterWrite l = true.
Proof.
  induction lps as [|p lps IH]; intros st r st' E; simpl in E.
  - injection E as <- <-. split; [reflexivity | exists []; rewrite app_nil_r; auto].
  - unfold bind at 1 in E.
    destruct (String.eqb (ParameterValue_Name p) name); [| apply (IH _ _ _ E)].
    unfold bind at 1, writeStore in E.
    destruct (DeleteParameterValueByID (tx st) (ParameterValue_ID p)) as [err tx'].
    assert (K : forall st1,
               bld st1 = bld st ->
               writes st1 = writes st ++ [WDeleteParameterValueByID (ParameterValue_ID p)] ->
               deleteExisting name lps st1 = (r, st') ->
               bld st' = bld st /\
               exists l, writes st' = writes st ++ l /\ forallb isParameterWrite l = true).
    { intros st1 B1 W1 E1. destruct (IH _ _ _ E1) as (B & l & W & F).
      split; [congruence |].
      exists (WDeleteParameterValueByID (ParameterValue_ID p) :: l).
      rewrite W, W1, <- app_assoc. auto. }
    destruct err as [e|]; [destruct (isErrNoRows e) |]; simpl in E.
    + eapply K; [| | exact E]; reflexivity.
    + injection E as <- <-. simpl. split; [reflexivity |].
      exists [WDeleteParameterValueByID (ParameterValue_ID p)]. auto.
    + eapply K; [| | exact E]; reflexivity.
Qed.

Lemma writeLegacyParameters_effect now id ps lps :
  forall st r st',
    writeLegacyParameters now id ps lps st = (r, st') ->
    bld st' = bld st /\
    exists l, writes st' = writes st ++ l /\ forallb isParameterWrite l = true.
Proof.
  induction ps as [|p ps IH]; intros st r st' E; simpl in E.
  - injection E as <- <-. split; [reflexivity | exists []; rewrite app_nil_r; auto].
  - unfold bind at 1 in E.
    destruct (deleteExisting (CreateParameterRequest_Name p) lps st)
      as [[u|e] st1] eqn:D;
      destruct (deleteExisting_effect _ _ _ _ _ D) as (B1 & l1 & W1 & F1).
    2:{ injection E as <- <-. split; [exact B1 | exists l1; auto]. }
    unfold bind at 1, draw in E. unfold bind at 1 in E.
    unfold bind at 1, writeStore in E. simpl in E.
    destruct (InsertParameterValue (tx st1) _) as [q tx'].
    match type of E with
    | context [WInsertParameterValue ?q] => set (p' := q) in E
    end.
    destruct q as [pv|e]; simpl in E.
    + destruct (IH _ _ _ E) as (B & l & W & F). simpl in B, W.
      split; [congruence |].
      exists (l1 ++ WInsertParameterValue p' :: l).
      rewrite W, W1, <- !app_assoc. simpl.
      split; [reflexivity |]. rewrite forallb_app, F1. simpl. exact F.
    + injection E as <- <-. simpl. split; [exact B1 |].
      exists (l1 ++ [WInsertParameterValue p']). rewrite W1, <- app_assoc.
      split; [reflexivity |]. rewrite forallb_app, F1. reflexivity.
Qed.

End InsertLemmas.

Section SuccessLemmas.
Context {S : Type} `{Store S} `{Collaborators}.

Lemma bind_Ok {A B} (m : M S A) (f : A -> M S B) st b st' :
  bind m f st = (Ok b, st') ->
  exists a st1, m st = (Ok a, st1) /\ f a st1 = (Ok b, st').
Proof.
  unfold bind. destruct (m st) as [[a|e] st1]; [eauto | discriminate].
Qed.

Lemma wrapErr_Ok {A} w (m : M S A) st a st' :
  wrapErr w m st = (Ok a, st') -> m st = (Ok a, st').
Proof.
  unfold wrapErr. destruct (m st) as [[a'|e] st1]; [auto | discriminate].
Qed.

Lemma Reads_Ok {A} (m : M S A) v st a st' :
  Reads m v -> m st = (Ok a, st') -> v (bld st) (tx st) = Ok a /\ ext st st'.
Proof.
  intros R E. destruct (R st) as (st1 & E1 & X1). rewrite E in E1.
  injection E1 as <- <-. auto.
Qed.

Lemma Keeps_at {A} (m : M S A) st r st' :
  Keeps m -> m st = (r, st') -> keeps (bld st) (bld st').
Proof. intros K E. specialize (K st). rewrite E in K. exact K. Qed.

Lemma Quiet_at {A} (m : M S A) st r st' :
  Quiet m -> m st = (r, st') -> tx st' = tx st /\ writes st' = writes st.
Proof. intros Q E. specialize (Q st). rewrite E in Q. exact Q. Qed.

Lemma writeStore_at {A} w (f : S -> A * S) st r st' :
  writeStore w f st = (r, st') ->
  bld st' = bld st /\ writes st' = writes st ++ [w] /\
  r = Ok (fst (f (tx st))) /\ tx st' = snd (f (tx st)).
Proof.
  unfold writeStore. destruct (f (tx st)) as [a tx'].
  intros E; injection E as <- <-. simpl. auto.
Qed.

Lemma liftResult_at {A} (r : result A) (st : St S) r' st' :
  liftResult r st = (r', st') -> r' = r /\ st' = st.
Proof. unfold liftResult. intros E; injection E as <- <-. auto. Qed.

Lemma getBuildNumber_fill st n st' :
  getBuildNumber st = (Ok n, st') ->
  exists bl, lastBuild (bld st') = Some bl /\
             n = int32_add (WorkspaceBuild_BuildNumber bl) 1.
Proof.
  unfold getBuildNumber. intros E.
  apply bind_Ok in E as (bl & st1 & E1 & E).
  unfold ret in E. injection E as <- <-.
  exists bl. split; [eapply getLastBuild_fill; eassumption | reflexivity].
Qed.

Lemma keeps_fields b b' :
  keeps b b' ->
  workspace b' = workspace b /\ trans b' = trans b /\
  version b' = version b /\ state b' = state b.
Proof.
  intros K. pose proof (keeps_config _ _ K) as C. unfold config in C.
  injection C as ? ? ? ? ? ? ?. auto.
Qed.

Lemma keeps_eq b b' : b' = b -> keeps b b'.
Proof. intros ->. apply keeps_refl. Qed.


Ltac advance K T Ki :=
  let K' := fresh "K" in
  let T' := fresh "T" in
  pose proof (keeps_trans _ _ _ K Ki) as K';
  pose proof (le_template _ _ (keeps_cache _ _ Ki) _ T) as T';
  clear K T; rename K' into K; rename T' into T.

(** One step of a successful run: [m] is quiet and keeps the builder. *)
Ltac calm E a stn Kn Qn km qm :=
  let En := fresh "E" in
  apply bind_Ok in E as (a & stn & En & E);
  try apply wrapErr_Ok in En;
  pose proof En as Kn; eapply Keeps_at in Kn; [| km];
  pose proof En as Qn; eapply Quiet_at in Qn; [| qm].

Ltac calm_reads E a stn Kn Qn R :=
  calm E a stn Kn Qn ltac:(eapply Keeps_Reads; apply R)
    ltac:(eapply Quiet_Reads; apply R).

Ltac calm_draw E a stn Kn Qn :=
  calm E a stn Kn Qn ltac:(apply Keeps_draw) ltac:(apply Quiet_draw).

Lemma computeAndInsert_Ok st wb pj st' :
  computeAndInsert st = (Ok (wb, pj), st') ->
  exists t bl legacy jp p pp,
    viewTemplate (bld st) (tx st) = Ok t /\
    lastBuild (bld st') = Some bl /\
    keeps (bld st) (bld st') /\
    writes st' = writes st ++ legacy ++
                 [WInsertProvisionerJob jp; WInsertWorkspaceBuild p;
                  WInsertWorkspaceBuildParameters pp] /\
    forallb isParameterWrite legacy = true /\
    IWB_BuildNumber p = int32_add (WorkspaceBuild_BuildNumber bl) 1 /\
    IWB_ProvisionerState p = stateOf (state (bld st)) bl /\
    IWB_TemplateVersionID p = versionOf (version (bld st)) t bl /\
    IWB_WorkspaceID p = Workspace_ID (workspace (bld st)) /\
    IWB_Transition p = trans (bld st) /\
    IWB_JobID p = ProvisionerJob_ID pj /\
    IWBP_WorkspaceBuildID pp = IWB_ID p /\
    (exists s, fst (InsertProvisionerJob s jp) = Ok pj) /\
    (exists s, fst (InsertWorkspaceBuild s p) = Ok wb).
Proof.
  intros E. unfold computeAndInsert in E.
  (* the three reads *)
  apply bind_Ok in E as (t & st1 & E1 & E). apply wrapErr_Ok in E1.
  destruct (Reads_Ok _ _ _ _ _ Reads_getTemplate E1) as (V1 & X1).
  pose proof (getTemplate_fill _ _ _ E1) as T.
  pose proof (ext_keeps _ _ X1) as K.
  pose proof (ext_writes _ _ X1) as W1.
  calm_reads E tvj st2 K2 Q2 Reads_getTemplateVersionJob. advance K T K2.
  calm_reads E lps st3 K3 Q3 Reads_getLastParameterValues. advance K T K3.
  (* the defaults *)
  calm E u4 st4 K4 Q4 ltac:(apply Keeps_modB, keeps_default_initiator)
    ltac:(apply Quiet_modB).
  advance K T K4.
  calm E u5 st5 K5 Q5 ltac:(apply Keeps_modB, keeps_default_reason)
    ltac:(apply Quiet_modB).
  advance K T K5.
  calm_draw E now st6 K6 Q6.
  advance K T K6. pose proof (keeps_fields _ _ K) as (C1 & C2 & C3 & C4).
  apply bind_Ok in E as (b & st7 & E7 & E). unfold getB in E7. injection E7 as <- <-.
  (* the legacy parameters *)
  apply bind_Ok in E as (u8 & st8 & E8 & E).
  destruct (writeLegacyParameters_effect _ _ _ _ _ _ _ E8) as (B8 & legacy & W8 & F8).
  pose proof (keeps_eq _ _ B8) as K8. advance K T K8.
  (* the job *)
  calm_draw E workspaceBuildID st9 K9 Q9. advance K T K9.
  apply bind_Ok in E as (input & st10 & E10 & E). apply wrapErr_Ok in E10.
  apply liftResult_at in E10 as (_ & ->).
  apply bind_Ok in E as (traceMetadataRaw & st11 & E11 & E). apply wrapErr_Ok in E11.
  apply liftResult_at in E11 as (_ & ->).
  calm_draw E jobID st12 K12 Q12. advance K T K12.
  calm_draw E jobCreatedAt st13 K13 Q13. advance K T K13.
  calm_draw E jobUpdatedAt st14 K14 Q14. advance K T K14.
  apply bind_Ok in E as (provisionerJob & stJ & EJ & E).
  apply bind_Ok in EJ as (rJ & stJ' & EJ' & EJ). apply wrapErr_Ok in EJ.
  apply liftResult_at in EJ as (RJ & ->).
  match type of EJ' with
  | writeStore (WInsertProvisionerJob ?q) _ _ = _ => set (jp := q) in *
  end.
  apply writeStore_at in EJ' as (BJ & WJ & SJ & _).
  injection SJ as SJ. rewrite <- RJ in SJ. cbn beta in SJ.
  pose proof (keeps_eq _ _ BJ) as KJ. advance K T KJ.
  (* the attributes of the build *)
  apply bind_Ok in E as (templateVersionID & stA & EA & E). apply wrapErr_Ok in EA.
  destruct (Reads_Ok _ _ _ _ _ Reads_getTemplateVersionID EA) as (VA & XA).
  pose proof (ext_keeps _ _ XA) as KA. pose proof (ext_writes _ _ XA) as WA.
  pose proof T as TJ. pose proof K as KJ0. advance K T KA.
  apply bind_Ok in E as (buildNum & stB & EB & E). apply wrapErr_Ok in EB.
  destruct (Reads_Ok _ _ _ _ _ Reads_getBuildNumber EB) as (VB & XB).
  destruct (getBuildNumber_fill _ _ _ EB) as (bl & L & ->).
  pose proof (ext_keeps _ _ XB) as KB. pose proof (ext_writes _ _ XB) as WB.
  advance K T KB.
  apply bind_Ok in E as (stateB & stC & EC & E). apply wrapErr_Ok in EC.
  destruct (Reads_Ok _ _ _ _ _ Reads_getState EC) as (VC & XC).
  pose proof (ext_keeps _ _ XC) as KC. pose proof (ext_writes _ _ XC) as WC.
  pose proof K as KB0.
  pose proof (le_lastBuild _ _ (keeps_cache _ _ KC) _ L) as LC.
  advance K T KC.
  calm_draw E buildCreatedAt st15 K15 Q15.
  pose proof (le_lastBuild _ _ (keeps_cache _ _ K15) _ LC) as L15. advance K T K15.
  calm_draw E buildUpdatedAt st16 K16 Q16.
  pose proof (le_lastBuild _ _ (keeps_cache _ _ K16) _ L15) as L16. advance K T K16.
  apply bind_Ok in E as (workspaceBuild & stD & ED & E).
  apply bind_Ok in ED as (rD & stD' & ED' & ED). apply wrapErr_Ok in ED.
  apply liftResult_at in ED as (RD & ->).
  match type of ED' with
  | writeStore (WInsertWorkspaceBuild ?q) _ _ = _ => set (p := q) in *
  end.
  apply writeStore_at in ED' as (BD & WD & SD & _).
  injection SD as SD. rewrite <- RD in SD. cbn beta in SD.
  pose proof (keeps_eq _ _ BD) as KD.
  pose proof (le_lastBuild _ _ (keeps_cache _ _ KD) _ L16) as LD. advance K T KD.
  (* the rich parameters *)
  calm E nv stE KE QE ltac:(apply Keeps_getParameters) ltac:(apply Quiet_getParameters).
  pose proof (le_lastBuild _ _ (keeps_cache _ _ KE) _ LD) as LE. advance K T KE.
  apply bind_Ok in E as (uF & stF & EF & E).
  apply bind_Ok in EF as (err & stF' & EF' & EF).
  match type of EF' with
  | writeStore (WInsertWorkspaceBuildParameters ?q) _ _ = _ => set (pp := q) in *
  end.
  apply writeStore_at in EF' as (BF & WF & _ & _).
  destruct err as [e|]; [discriminate EF |]. unfold ret in EF, E.
  injection EF as _ <-. injection E as <- <- <-.
  pose proof (keeps_eq _ _ BF) as KF.
  pose proof (le_lastBuild _ _ (keeps_cache _ _ KF) _ LE) as LF. advance K T KF.
  exists t, bl, legacy, jp, p, pp.
  split; [exact V1 |]. split; [exact LF |]. split; [exact K |].
  split.
  { destruct Q2, Q3, Q4, Q5, Q6, Q9, Q12, Q13, Q14, Q15, Q16, QE.
    rewrite WF. replace (writes stE) with (writes stD') by congruence.
    rewrite WD. replace (writes st16) with (writes stJ') by congruence.
    rewrite WJ. replace (writes st14) with (writes st8) by congruence.
    rewrite W8. replace (writes st6) with (writes st) by congruence.
    rewrite <- !app_assoc. reflexivity. }
  split; [exact F8 |].
  pose proof (keeps_fields _ _ KB0) as (D1 & D2 & D3 & D4).
  pose proof (keeps_fields _ _ KJ0) as (J1 & J2 & J3 & J4).
  assert (VL : viewLastBuild (bld stB) (tx stB) = Ok bl)
    by (unfold viewLastBuild; rewrite L; reflexivity).
  rewrite (Stable_viewLastBuild _ _ XB), (Stable_viewLastBuild _ _ XA) in VL.
  subst p pp. cbn [IWB_BuildNumber IWB_ProvisionerState IWB_TemplateVersionID
                   IWB_WorkspaceID IWB_Transition IWB_JobID IWB_ID
                   IWBP_WorkspaceBuildID].
  repeat split; try congruence; try (eexists; symmetry; eassumption).
  - unfold viewState in VC. unfold stateOf. rewrite D4 in VC.
    destruct (orphan (state (bld st))); [congruence |].
    destruct (explicit (state (bld st))); [congruence |].
    unfold viewLastBuild in VC. rewrite L in VC. simpl in VC. congruence.
  - unfold viewTemplateVersionID in VA. unfold versionOf. rewrite J3 in VA.
    destruct (specific (version (bld st))); [congruence |].
    destruct (active (version (bld st))).
    + unfold viewTemplate in VA. rewrite TJ in VA. simpl in VA. congruence.
    + rewrite VL in VA. simpl in VA. congruence.
Qed.
End SuccessLemmas.

Section BuildOk.
Context {S : Type} `{Store S} `{Collaborators}.

Lemma getLastBuildJob_fill st j st' :
  getLastBuildJob st = (Ok j, st') -> lastBuildJob (bld st') = Some j.
Proof.
  unfold getLastBuildJob. intros E.
  apply bind_Ok in E as (b & st0 & E0 & E). unfold getB in E0.
  injection E0 as <- <-.
  destruct (lastBuildJob (bld st)) eqn:J.
  - unfold ret in E. injection E as <- <-. exact J.
  - apply bind_Ok in E as (bl & st1 & E1 & E).
    apply bind_Ok in E as (job & st2 & E2 & E).
    apply bind_Ok in E as (u & st3 & E3 & E).
    unfold ret in E. injection E as <- <-.
    unfold modB in E3. injection E3 as _ <-. reflexivity.
Qed.

Lemma preChecks_fill authFunc st u st' :
  preChecks authFunc st = (Ok u, st') -> lastBuildJob (bld st') <> None.
Proof.
  unfold preChecks. intros E.
  apply bind_Ok in E as (u1 & st1 & _ & E).
  apply bind_Ok in E as (u2 & st2 & _ & E).
  apply bind_Ok in E as (u3 & st3 & _ & E).
  unfold checkRunningBuild in E.
  apply bind_Ok in E as (j & st4 & E4 & E). apply wrapErr_Ok in E4.
  apply getLastBuildJob_fill in E4.
  destruct (Active _); [discriminate E |].
  unfold ret in E. injection E as _ <-. congruence.
Qed.

(** A successful [buildTx]: the pre-checks passed, and the rows written are
    computed from the template and the last build the builder holds. *)
Lemma buildTx_Ok authFunc st wb pj st' :
  buildTx authFunc st = (Ok (wb, pj), st') ->
  preChecksV authFunc (bld st) (tx st) = Ok tt /\
  exists t bl ws,
    viewTemplate (bld st) (tx st) = Ok t /\
    lastBuild (bld st') = Some bl /\
    (jobAfterBuild (bld st) -> viewLastBuild (bld st) (tx st) = Ok bl) /\
    keeps (bld st) (bld st') /\
    writes st' = writes st ++ ws /\
    newRows (bld st) t bl wb pj ws.
Proof.
  intros E. rewrite buildTx_split in E.
  destruct (preChecks authFunc st) as [[u|e] st1] eqn:P; [| discriminate E].
  destruct (Reads_Ok _ _ _ _ _ (Reads_preChecks authFunc) P) as (V & X).
  pose proof (preChecks_fill _ _ _ _ P) as FJ.
  destruct u. split; [exact V |].
  destruct (computeAndInsert_Ok _ _ _ _ E)
    as (t & bl & legacy & jp & p & pp & VT & L & K & W & F & P1 & P2 & P3 & P4 & P5
        & P6 & P7 & P8 & P9).
  pose proof (keeps_fields _ _ (ext_keeps _ _ X)) as (C1 & C2 & C3 & C4).
  exists t, bl, (legacy ++ [WInsertProvisionerJob jp; WInsertWorkspaceBuild p;
                            WInsertWorkspaceBuildParameters pp]).
  split; [rewrite <- (Stable_viewTemplate _ _ X); exact VT |].
  split; [exact L |].
  split.
  { intros I. apply (ext_jobAfterBuild _ _ X) in I.
    destruct (lastBuild (bld st1)) as [x|] eqn:LB;
      [| contradiction FJ; apply I; exact LB].
    pose proof (le_lastBuild _ _ (keeps_cache _ _ K) _ LB) as L'.
    rewrite <- (Stable_viewLastBuild _ _ X). unfold viewLastBuild. rewrite LB.
    congruence. }
  split; [eapply keeps_trans; [apply ext_keeps, X | exact K] |].
  split; [rewrite W, (ext_writes _ _ X); reflexivity |].
  exists legacy, jp, p, pp. rewrite <- C1, <- C2, <- C3, <- C4. auto 14.
Qed.

(** The receiver an iteration starts from has the settings and at least the
    cache of the receiver of the call. *)
Lemma keeps_startBuilder authFunc x k :
  keeps (fst (fst x)) (startBuilder authFunc k x).
Proof.
  unfold startBuilder. induction k as [|k IH]; [apply keeps_refl |].
  simpl. eapply keeps_trans; [exact IH |].
  unfold afterRollback. destruct (attemptStart authFunc k x) as [[bk sk] tk].
  simpl.
  apply (Keeps_buildTx authFunc
           {| bld := bk; tx := txBegin sk; writes := []; tick := tk |}).
Qed.

(** A successful [Build]. *)
Lemma Build_Ok authFunc b store tk :
  let x := (b, store, tk) in
  let out := Build authFunc b store tk in
  o_err out = None ->
  exists k wb pj t bl,
    (k < 5)%nat /\ retried authFunc k x /\
    o_workspaceBuild out = Some wb /\ o_provisionerJob out = Some pj /\
    preChecksV authFunc (startBuilder authFunc k x)
      (txBegin (startStore authFunc k x)) = Ok tt /\
    viewTemplate (startBuilder authFunc k x)
      (txBegin (startStore authFunc k x)) = Ok t /\
    lastBuild (o_b out) = Some bl /\
    (jobAfterBuild b ->
     viewLastBuild (startBuilder authFunc k x)
       (txBegin (startStore authFunc k x)) = Ok bl) /\
    keeps b (o_b out) /\
    newRows b t bl wb pj (o_committed out).
Proof.
  intros x out E. subst out x. unfold Build in *.
  destruct (buildLoop_success_inv authFunc 5 (b, store, tk) None E)
    as (k & wb & pj & st & Hk & R & A & Eq).
  cbn [fst snd] in Eq. rewrite Eq. cbn [o_workspaceBuild o_provisionerJob o_b o_committed].
  pose proof (keeps_startBuilder authFunc (b, store, tk) k) as KS. cbn [fst snd] in KS.
  unfold startBuilder, startStore in *.
  destruct (attemptStart authFunc k (b, store, tk)) as [[bk sk] tk'] eqn:AS. cbn [fst snd] in *.
  unfold attempt in A.
  destruct (buildTx_Ok _ _ _ _ _ A) as (P & t & bl & ws & VT & L & PV & K & W & NR).
  cbn [bld tx writes] in *.
  exists k, wb, pj, t, bl. rewrite ?AS. cbn [fst snd].
  pose proof (keeps_fields _ _ KS) as (C1 & C2 & C3 & C4).
  split; [exact Hk |]. split; [exact R |].
  split; [reflexivity |]. split; [reflexivity |].
  split; [exact P |]. split; [exact VT |]. split; [exact L |].
  split; [intros I; apply PV; apply (keeps_jobAfterBuild _ _ KS I) |].
  split; [eapply keeps_trans; eassumption |].
  rewrite W. simpl.
    destruct NR as (legacy & jp & p & pp & N0 & N1 & N2 & N3 & N4 & N5 & N6 & N7 & N8
                    & N9 & N10).
    exists legacy, jp, p, pp. rewrite <- C1, <- C2, <- C3, <- C4. auto 14.
Qed.

End BuildOk.

Section NoPrior.
Context {S : Type} `{Store S} `{Collaborators}.







End NoPrior.

Section Iterations.
Context {S : Type} `{Store S} `{Collaborators}.


Lemma preChecksV_Ok authFunc b s :
  preChecksV authFunc b s = Ok tt ->
  authorizeOptV authFunc b s = Ok tt /\
  checkTemplateVersionMatchesTemplateV b s = Ok tt /\
  checkTemplateJobStatusV b s = Ok tt /\
  checkRunningBuildV b s = Ok tt.
Proof.
  unfold preChecksV.
  destruct (authorizeOptV authFunc b s) as [[]|]; simpl; [| discriminate].
  destruct (checkTemplateVersionMatchesTemplateV b s) as [[]|]; simpl; [| discriminate].
  destruct (checkTemplateJobStatusV b s) as [[]|]; simpl; [| discriminate].
  auto.
Qed.

Lemma checkTemplateJobStatusV_Ok b s :
  checkTemplateJobStatusV b s = Ok tt ->
  exists j, viewTemplateVersionJob b s = Ok j /\
            ConvertProvisionerJobStatus j = ProvisionerJobSucceeded.
Proof.
  unfold checkTemplateJobStatusV.
  destruct (viewTemplateVersion b s) as [v|]; simpl; [| discriminate].
  destruct (viewTemplateVersionJob b s) as [j|]; simpl; [| discriminate].
  unfold importVerdict. intros E. exists j. split; [reflexivity |].
  destruct (ConvertProvisionerJobStatus j); try discriminate E. reflexivity.
Qed.

Lemma failed_canceled_differ v j : failedImportError v j <> canceledImportError.
Proof.
  unfold failedImportError, canceledImportError, fmt_q, quoted. simpl.
  intros E. injection E as E. discriminate E.
Qed.

Lemma attempt_fill authFunc x :
  preChecksV authFunc (fst (fst x)) (txBegin (snd (fst x))) = Ok tt ->
  lastBuildJob (bld (snd (attempt authFunc x))) <> None.
Proof.
  destruct x as [[b store] tk]. cbn [fst snd]. intros P. unfold attempt.
  rewrite buildTx_split.
  set (st := {| bld := b; tx := txBegin store; writes := []; tick := tk |}).
  destruct (preChecks authFunc st) as [[u|e] st1] eqn:E.
  - pose proof (preChecks_fill _ _ _ _ E) as F.
    pose proof (Keeps_computeAndInsert st1) as K.
    destruct (lastBuildJob (bld st1)) as [j|] eqn:J; [| contradiction].
    rewrite (le_lastBuildJob _ _ (keeps_cache _ _ K) _ J). discriminate.
  - destruct (Reads_preChecks authFunc st) as (st2 & E2 & _).
    rewrite E in E2. simpl in E2. rewrite P in E2. discriminate.
Qed.

End Iterations.

(** * The build contract *)

Local Open Scope list_scope.

Section RetryPolicy.
Context {S : Type} `{Store S} `{Collaborators}.


End RetryPolicy.

Section SuccessfulBuilds.
Context {S : Type} `{Store S} `{Collaborators}.



(** C6.  The template version id is resolved by precedence over the version
    selector.  [getTemplateVersionID] returns the specific id when one is
    configured; otherwise, under "active", the [ActiveVersionID] of the
    template; otherwise the [TemplateVersionID] of the last build; and it
    only fills the cache.  The build a successful [Build] commits carries the
    id so resolved. *)
Theorem version_follows_the_version_selector (authFunc : AuthFunc) (b : Builder)
    (store : S) (tk : nat) :
  (forall st : St S,
     exists st',
       ext st st' /\
       getTemplateVersionID st =
       (match specific (version (bld st)) with
        | Some v => Ok v
        | None =>
            if active (version (bld st))
            then rbind (viewTemplate (bld st) (tx st))
                   (fun t => Ok (Template_ActiveVersionID t))
            else rbind (viewLastBuild (bld st) (tx st))
                   (fun bl => Ok (WorkspaceBuild_TemplateVersionID bl))
        end, st'))
  /\
  (let x := (b, store, tk) in
   let out := Build authFunc b store tk in
   o_err out = None ->
   exists k wb t bl legacy jp p pp,
     (k < 5)%nat /\
     o_workspaceBuild out = Some wb /\
     (exists s, fst (InsertWorkspaceBuild s p) = Ok wb) /\
     viewTemplate (startBuilder authFunc k x)
       (txBegin (startStore authFunc k x)) = Ok t /\
     lastBuild (o_b out) = Some bl /\
     (jobAfterBuild b ->
      viewLastBuild (startBuilder authFunc k x)
        (txBegin (startStore authFunc k x)) = Ok bl) /\
     o_committed out =
       legacy ++ [WInsertProvisionerJob jp; WInsertWorkspaceBuild p;
                  WInsertWorkspaceBuildParameters pp] /\
     (forall v, specific (version b) = Some v -> IWB_TemplateVersionID p = v) /\
     (specific (version b) = None -> active (version b) = true ->
      IWB_TemplateVersionID p = Template_ActiveVersionID t) /\
     (specific (version b) = None -> active (version b) = false ->
      IWB_TemplateVersionID p = WorkspaceBuild_TemplateVersionID bl)).
Proof.
  split.
  - intros st. destruct (Reads_getTemplateVersionID st) as (st' & E & X).
    exists st'. split; [exact X | exact E].
  - intros x out E.
    destruct (Build_Ok authFunc b store tk E)
      as (k & wb & pj & t & bl & Hk & R & W1 & W2 & P & VT & L & PV & K & NR).
    destruct NR as (legacy & jp & p & pp & N0 & N1 & N2 & N3 & N4 & N5 & N6 & N7 & N8
                  & N9 & N10).
    exists k, wb, t, bl, legacy, jp, p, pp.
    repeat (split; [assumption |]).
    rewrite N4. unfold versionOf.
    split; [intros v ->; reflexivity |].
    split; intros -> ->; reflexivity.
Qed.

End SuccessfulBuilds.

Section Rejections.
Context {S : Type} `{Store S} `{Collaborators}.

(** C2 (as amended).  When the job of the workspace's last build is active
    (pending or running) and the checks that run before it pass (the
    authorization pre-check when an [authFunc] is given, the match of version
    and template, the import status), [Build] returns the conflict error:
    status 409, "A workspace build is already active.".  It does so in its
    first iteration, having issued no write: nothing is committed. *)
Theorem active_build_is_a_conflict (authFunc : AuthFunc) (b : Builder) (store : S)
    (tk : nat) (job : ProvisionerJob) :
  authorizeOptV authFunc b (txBegin store) = Ok tt ->
  checkTemplateVersionMatchesTemplateV b (txBegin store) = Ok tt ->
  checkTemplateJobStatusV b (txBegin store) = Ok tt ->
  viewLastBuildJob b (txBegin store) = Ok job ->
  Active (ConvertProvisionerJobStatus job) = true ->
  rejectedWith
    (BuildError StatusConflict "A workspace build is already active." emptyErr)
    store tk (Build authFunc b store tk).
Proof.
  intros A V J L Act. apply Build_rejectedWith; [| reflexivity].
  unfold preChecksV. rewrite A, V, J. simpl.
  unfold checkRunningBuildV. rewrite L. simpl. rewrite Act. reflexivity.
Qed.

(** C5 (as amended).  When the authorization pre-check passes (or no
    [authFunc] is given) and the resolved template version has no template id
    or that of another template than the workspace's, [Build] returns the
    bad-request error "template version doesn't match template" (status
    400), in its first iteration and with no write issued: it never goes on
    with another version. *)
Theorem version_of_another_template_is_rejected (authFunc : AuthFunc) (b : Builder)
    (store : S) (tk : nat) (t : Template) (v : TemplateVersion) :
  authorizeOptV authFunc b (txBegin store) = Ok tt ->
  viewTemplate b (txBegin store) = Ok t ->
  viewTemplateVersion b (txBegin store) = Ok v ->
  NullUUID_Valid (TemplateVersion_TemplateID v) = false
  \/ NullUUID_UUID (TemplateVersion_TemplateID v) <> Template_ID t ->
  rejectedWith
    (BuildError StatusBadRequest "template version doesn't match template"
       (ErrNew ("templateVersion.TemplateID = "
                ++ fmt_NullUUID (TemplateVersion_TemplateID v)
                ++ ", template.ID = " ++ fmt_UUID (Template_ID t))%string))
    store tk (Build authFunc b store tk).
Proof.
  intros A T V Mis. apply Build_rejectedWith; [| reflexivity].
  unfold preChecksV. rewrite A. simpl.
  unfold checkTemplateVersionMatchesTemplateV. rewrite T, V. simpl.
  assert (M : versionMatches v t = false).
  { unfold versionMatches. destruct Mis as [U | D].
    - rewrite U. reflexivity.
    - apply N.eqb_neq in D. rewrite D. apply andb_false_r. }
  rewrite M. reflexivity.
Qed.

(** C8 (as amended).  With a custom log level configured, a supported
    transition, the action on the workspace allowed and the template read,
    an [authFunc] that denies update on the template makes [Build] fail
    before any write: with status 400 (bad request) and "Workspace builds
    with a custom log level are restricted to template authors only."; or,
    when a custom state is configured too and update is denied on the
    template's RBAC object, with the 403 of the custom-state check, which
    comes first. *)
Theorem custom_log_level_needs_template_update (f : Action -> Objecter -> bool)
    (b : Builder) (store : S) (tk : nat) (action : Action) (t : Template) :
  logLevel b <> "" ->
  actionOf (trans b) = Some action ->
  f action (ObjWorkspace (workspace b)) = true ->
  viewTemplate b (txBegin store) = Ok t ->
  f ActionUpdate (ObjTemplate t) = false ->
  rejectedWith
    (if customState (state b) && negb (f ActionUpdate (ObjTemplateRBACObject t))
     then BuildError StatusForbidden
            "Only template managers may provide custom state" emptyErr
     else BuildError StatusBadRequest
            "Workspace builds with a custom log level are restricted to template authors only."
            emptyErr)
    store tk (Build (Some f) b store tk).
Proof.
  intros L A W T D.
  assert (P : preChecksV (Some f) b (txBegin store)
              = Err (if customState (state b)
                        && negb (f ActionUpdate (ObjTemplateRBACObject t))
                     then BuildError StatusForbidden
                            "Only template managers may provide custom state" emptyErr
                     else BuildError StatusBadRequest
                            "Workspace builds with a custom log level are restricted to template authors only."
                            emptyErr)).
  { unfold preChecksV. simpl. unfold authorizeV. rewrite A, W, T. simpl.
    apply String.eqb_neq in L. rewrite L, D. simpl.
    destruct (customState (state b) && _); reflexivity. }
  apply Build_rejectedWith; [exact P |].
  destruct (customState (state b) && _); reflexivity.
Qed.

End Rejections.

Section ImportStatus.
Context {S : Type} `{Store S} `{Collaborators}.

(** C7 (as amended).  The import job of the resolved template version
    gates the build.  When the checks before it pass, a pending or running
    import is rejected as not ready with status 406 (not acceptable), a
    failed one and a canceled one with status 400 (bad request) and messages
    that differ from each other; a succeeded one passes the check.  And a
    [Build] that succeeds has seen a succeeded import in the iteration that
    succeeded. *)
Theorem import_status_gates_the_build (authFunc : AuthFunc) (b : Builder)
    (store : S) (tk : nat) :
  let x := (b, store, tk) in
  let out := Build authFunc b store tk in
  (forall v j,
      authorizeOptV authFunc b (txBegin store) = Ok tt ->
      checkTemplateVersionMatchesTemplateV b (txBegin store) = Ok tt ->
      viewTemplateVersion b (txBegin store) = Ok v ->
      viewTemplateVersionJob b (txBegin store) = Ok j ->
      match ConvertProvisionerJobStatus j with
      | ProvisionerJobPending => rejectedWith (notReadyError "pending") store tk out
      | ProvisionerJobRunning => rejectedWith (notReadyError "running") store tk out
      | ProvisionerJobFailed => rejectedWith (failedImportError v j) store tk out
      | ProvisionerJobCanceled => rejectedWith canceledImportError store tk out
      | ProvisionerJobSucceeded => checkTemplateJobStatusV b (txBegin store) = Ok tt
      end)
  /\
  (forall v j, failedImportError v j <> canceledImportError)
  /\
  (o_err out = None ->
   exists k j,
     (k < 5)%nat /\
     viewTemplateVersionJob (startBuilder authFunc k x)
       (txBegin (startStore authFunc k x)) = Ok j /\
     ConvertProvisionerJobStatus j = ProvisionerJobSucceeded).
Proof.
  intros x out. split; [| split].
  - intros v j A M V J.
    assert (P : preChecksV authFunc b (txBegin store)
                = rbind (importVerdict v j)
                    (fun _ => checkRunningBuildV b (txBegin store))).
    { unfold preChecksV. rewrite A, M. simpl.
      unfold checkTemplateJobStatusV. rewrite V, J. reflexivity. }
    assert (Q : checkTemplateJobStatusV b (txBegin store) = importVerdict v j).
    { unfold checkTemplateJobStatusV. rewrite V, J. reflexivity. }
    unfold importVerdict in P, Q.
    destruct (ConvertProvisionerJobStatus j);
      try (apply Build_rejectedWith; [exact P | reflexivity]).
    exact Q.
  - apply failed_canceled_differ.
  - intros E.
    destruct (Build_Ok authFunc b store tk E)
      as (k & wb & pj & t & bl & Hk & R & W1 & W2 & P & _).
    destruct (preChecksV_Ok _ _ _ P) as (_ & _ & J & _).
    destruct (checkTemplateJobStatusV_Ok _ _ J) as (j & VJ & SJ).
    exists k, j. auto.
Qed.

End ImportStatus.

Section CacheAndFirstBuild.
Context {S : Type} `{Store S} `{Collaborators}.

(** C9 (as amended).  The cache is not cleared between iterations.  After
    iterations [0 .. k] were retried, [Build] goes on with the very receiver
    iteration [k] left: every slot filled when the call started or during a
    rolled-back iteration holds the same value when the next one starts; if
    iteration [k] passed its pre-checks the slot of the last build's job is
    among them; and in the next iteration (on whatever handle) the accessors
    return such a value without a read of the store. *)
Theorem cache_survives_retries (authFunc : AuthFunc) (b : Builder) (store : S)
    (tk : nat) (k : nat) :
  let x := (b, store, tk) in
  let b' := startBuilder authFunc (Datatypes.S k) x in
  (k < 5)%nat ->
  retried authFunc (Datatypes.S k) x ->
  Build authFunc b store tk =
    buildLoop (4 - k) authFunc b' (startStore authFunc (Datatypes.S k) x)
      (startTick authFunc (Datatypes.S k) x)
      (attemptErr authFunc (attemptStart authFunc k x))
  /\ b' = bld (snd (attempt authFunc (attemptStart authFunc k x)))
  /\ cacheLe b b'
  /\ cacheLe (startBuilder authFunc k x) b'
  /\ (preChecksV authFunc (startBuilder authFunc k x)
        (txBegin (startStore authFunc k x)) = Ok tt ->
      lastBuildJob b' <> None)
  /\ (forall bl st, lastBuild b' = Some bl -> bld st = b' ->
                    getLastBuild st = (Ok bl, st))
  /\ (forall j st, lastBuildJob b' = Some j -> bld st = b' ->
                   getLastBuildJob st = (Ok j, st))
  /\ (forall t st, template b' = Some t -> bld st = b' ->
                   getTemplate st = (Ok t, st)).
Proof.
  intros x b' Hk R.
  split.
  { unfold Build.
    pose proof (buildLoop_retried authFunc (Datatypes.S k) (4 - k) x None R) as L.
    replace (Datatypes.S k + (4 - k))%nat with 5%nat in L by lia.
    exact L. }
  split; [reflexivity |].
  split; [apply (keeps_cache _ _ (keeps_startBuilder authFunc x (Datatypes.S k))) |].
  split.
  { unfold b', startBuilder. simpl attemptStart. unfold afterRollback.
    destruct (attemptStart authFunc k x) as [[bk sk] tk']. cbn [fst snd].
    apply (keeps_cache _ _
             (Keeps_buildTx authFunc
                {| bld := bk; tx := txBegin sk; writes := []; tick := tk' |})). }
  split.
  { intros P. apply (attempt_fill authFunc (attemptStart authFunc k x)). exact P. }
  split; [| split].
  - intros bl st L <-. unfold getLastBuild, bind, getB. rewrite L. reflexivity.
  - intros j st L <-. unfold getLastBuildJob, bind, getB. rewrite L. reflexivity.
  - intros t st L <-. unfold getTemplate, bind, getB. rewrite L. reflexivity.
Qed.


End CacheAndFirstBuild.

(** * The contract on the sample deployment *)

Section Samples.

#[local] Existing Instance FakeStore_Store.
#[local] Existing Instance testCollaborators.


Lemma retried_on_conflicts n k :
  (k <= n)%nat -> (n <= 5)%nat ->
  retried None k (start1, fs_with_conflicts n sampleStore, 0%nat).
Proof.
  intros Hk Hn i Hi.
  destruct n as [|[|[|[|[|[|n]]]]]]; try lia;
    destruct i as [|[|[|[|[|i]]]]]; try lia; vm_compute; reflexivity.
Defined.




(** C2: workspace 2 has a running build. *)
Lemma active_build_is_a_conflict_witness :
  viewLastBuildJob start2 (txBegin sampleStore) = Ok (runningJob 41%N) /\
  Active (ConvertProvisionerJobStatus (runningJob 41%N)) = true /\
  rejectedWith
    (BuildError StatusConflict "A workspace build is already active." emptyErr)
    sampleStore 0 (runBuild None start2 sampleStore).
Proof.
  split; [vm_compute; reflexivity |]. split; [vm_compute; reflexivity |].
  apply (active_build_is_a_conflict None start2 sampleStore 0 (runningJob 41%N));
    vm_compute; reflexivity.
Defined.

(** C2: on the same workspace a request for version 22, which belongs to
    another template, is answered with 400 and not with the conflict. *)
Lemma conflict_depends_on_version_selector :
  viewLastBuildJob (VersionID 22%N start2) (txBegin sampleStore)
    = Ok (runningJob 41%N) /\
  Active (ConvertProvisionerJobStatus (runningJob 41%N)) = true /\
  o_err (runBuild None (VersionID 22%N start2) sampleStore)
    = Some (BuildError StatusBadRequest "template version doesn't match template"
              (ErrNew "templateVersion.TemplateID = uuid, template.ID = uuid")) /\
  o_err (runBuild None (VersionID 22%N start2) sampleStore)
    <> Some (BuildError StatusConflict "A workspace build is already active."
               emptyErr).
Proof.
  split; [vm_compute; reflexivity |]. split; [vm_compute; reflexivity |].
  split; [vm_compute; reflexivity |]. vm_compute. discriminate.
Qed.



(** C5: version 22 belongs to template 11, workspace 1 to template 10. *)
Lemma version_of_another_template_is_rejected_witness :
  authorizeOptV None (VersionID 22%N start1) (txBegin sampleStore) = Ok tt /\
  viewTemplate (VersionID 22%N start1) (txBegin sampleStore) = Ok sampleTemplate /\
  viewTemplateVersion (VersionID 22%N start1) (txBegin sampleStore)
    = Ok (sampleVersion 22%N 11%N 32%N) /\
  rejectedWith
    (BuildError StatusBadRequest "template version doesn't match template"
       (ErrNew ("templateVersion.TemplateID = "
                ++ fmt_NullUUID (TemplateVersion_TemplateID
                                   (sampleVersion 22%N 11%N 32%N))
                ++ ", template.ID = " ++ fmt_UUID (Template_ID sampleTemplate))%string))
    sampleStore 0 (runBuild None (VersionID 22%N start1) sampleStore).
Proof.
  split; [vm_compute; reflexivity |]. split; [vm_compute; reflexivity |].
  split; [vm_compute; reflexivity |].
  apply (version_of_another_template_is_rejected None (VersionID 22%N start1)
           sampleStore 0 sampleTemplate (sampleVersion 22%N 11%N 32%N));
    try (vm_compute; reflexivity).
  right. vm_compute. discriminate.
Defined.

(** C5: the same request from a caller the [authFunc] denies is answered
    with 404, before the versions are compared. *)
Lemma mismatch_hidden_by_denial :
  viewTemplate (VersionID 22%N start1) (txBegin sampleStore) = Ok sampleTemplate /\
  viewTemplateVersion (VersionID 22%N start1) (txBegin sampleStore)
    = Ok (sampleVersion 22%N 11%N 32%N) /\
  NullUUID_UUID (TemplateVersion_TemplateID (sampleVersion 22%N 11%N 32%N))
    <> Template_ID sampleTemplate /\
  o_err (runBuild (Some denyAll) (VersionID 22%N start1) sampleStore)
    = Some (BuildError StatusNotFound ResourceNotFoundMessage emptyErr) /\
  forall w,
    o_err (runBuild (Some denyAll) (VersionID 22%N start1) sampleStore)
    <> Some (BuildError StatusBadRequest "template version doesn't match template" w).
Proof.
  split; [vm_compute; reflexivity |]. split; [vm_compute; reflexivity |].
  split; [vm_compute; discriminate |]. split; [vm_compute; reflexivity |].
  intros w. vm_compute. discriminate.
Qed.


(** C6: with [ActiveVersion], the new build of workspace 1 is on version 20,
    the template's active one, though its last build is on version 21. *)
Lemma version_follows_the_version_selector_witness :
  o_err (runBuild None (ActiveVersion start1) sampleStore) = None /\
  exists p,
    In (WInsertWorkspaceBuild p)
       (o_committed (runBuild None (ActiveVersion start1) sampleStore)) /\
    IWB_TemplateVersionID p = 20%N.
Proof.
  assert (E : o_err (runBuild None (ActiveVersion start1) sampleStore) = None)
    by (vm_compute; reflexivity).
  split; [exact E |].
  destruct (version_follows_the_version_selector None (ActiveVersion start1)
              sampleStore 0) as (_ & P).
  destruct (P E)
    as (k & wb & t & bl & legacy & jp & p & pp & Hk & W & A & T & L & PV & C & V1 & V2 & V3).
  exists p. split.
  - rewrite C. apply in_or_app. right. right. left. reflexivity.
  - rewrite V2 by reflexivity.
    destruct k as [|[|[|[|[|k]]]]]; try lia;
      vm_compute in T; injection T as <-; reflexivity.
Defined.

(** C7: version 23 is still importing. *)
Lemma import_status_gates_the_build_witness :
  viewTemplateVersionJob (VersionID 23%N start1) (txBegin sampleStore)
    = Ok (pendingJob 33%N) /\
  ConvertProvisionerJobStatus (pendingJob 33%N) = ProvisionerJobPending /\
  rejectedWith (notReadyError "pending") sampleStore 0
    (runBuild None (VersionID 23%N start1) sampleStore).
Proof.
  split; [vm_compute; reflexivity |]. split; [vm_compute; reflexivity |].
  destruct (import_status_gates_the_build None (VersionID 23%N start1) sampleStore 0)
    as (P & _ & _).
  apply (P (sampleVersion 23%N 10%N 33%N) (pendingJob 33%N)); vm_compute; reflexivity.
Defined.

(** C7: the rejection of a pending import has status 406, not 400. *)
Lemma pending_import_is_not_acceptable :
  viewTemplateVersionJob (VersionID 23%N start1) (txBegin sampleStore)
    = Ok (pendingJob 33%N) /\
  ConvertProvisionerJobStatus (pendingJob 33%N) = ProvisionerJobPending /\
  o_err (runBuild None (VersionID 23%N start1) sampleStore)
    = Some (BuildError StatusNotAcceptable
              "The provided template version is pending. Wait for it to complete importing!"
              emptyErr) /\
  forall m w,
    o_err (runBuild None (VersionID 23%N start1) sampleStore)
    <> Some (BuildError StatusBadRequest m w).
Proof.
  repeat (split; [vm_compute; reflexivity |]).
  intros m w. vm_compute. discriminate.
Qed.

(** C8: the owner may update the workspace but not the template. *)
Lemma custom_log_level_needs_template_update_witness :
  logLevel (LogLevel "debug" start1) <> "" /\
  ownerOnly ActionUpdate (ObjTemplate sampleTemplate) = false /\
  rejectedWith
    (BuildError StatusBadRequest
       "Workspace builds with a custom log level are restricted to template authors only."
       emptyErr)
    sampleStore 0 (runBuild (Some ownerOnly) (LogLevel "debug" start1) sampleStore).
Proof.
  split; [discriminate |]. split; [vm_compute; reflexivity |].
  apply (custom_log_level_needs_template_update ownerOnly (LogLevel "debug" start1)
           sampleStore 0 ActionUpdate sampleTemplate);
    try (vm_compute; reflexivity).
  discriminate.
Defined.

(** C8: that denial is a bad request (400), not forbidden (403). *)
Lemma log_level_denial_is_bad_request :
  logLevel (LogLevel "debug" start1) <> "" /\
  ownerOnly ActionUpdate (ObjTemplate sampleTemplate) = false /\
  o_err (runBuild (Some ownerOnly) (LogLevel "debug" start1) sampleStore)
    = Some (BuildError StatusBadRequest
              "Workspace builds with a custom log level are restricted to template authors only."
              emptyErr) /\
  forall m w,
    o_err (runBuild (Some ownerOnly) (LogLevel "debug" start1) sampleStore)
    <> Some (BuildError StatusForbidden m w).
Proof.
  split; [discriminate |]. repeat (split; [vm_compute; reflexivity |]).
  intros m w. vm_compute. discriminate.
Qed.

(** C9: after one conflict the second iteration starts with the last
    build's job in the cache. *)
Lemma cache_survives_retries_witness :
  retried None 1 (start1, fs_with_conflicts 1 sampleStore, 0%nat) /\
  cacheLe start1 (startBuilder None 1 (start1, fs_with_conflicts 1 sampleStore, 0%nat)) /\
  lastBuildJob (startBuilder None 1 (start1, fs_with_conflicts 1 sampleStore, 0%nat))
    <> None.
Proof.
  pose proof (retried_on_conflicts 1 1 ltac:(lia) ltac:(lia)) as R.
  split; [exact R |].
  destruct (cache_survives_retries None start1 (fs_with_conflicts 1 sampleStore) 0 0
              ltac:(lia) R) as (_ & _ & C & _ & F & _).
  split; [exact C |]. apply F. vm_compute; reflexivity.
Defined.

(** C9: the receiver starts with an empty cache; its first iteration is
    rolled back on a serialization failure; the second starts with the
    template, the last build and its job read in the first. *)
Lemma cache_is_not_cleared :
  let x := (start1, fs_with_conflicts 1 sampleStore, 0%nat) in
  cacheOf start1 = (None, None, None, None, None, None, None, None) /\
  isSerializationFailure (attemptErr None x) = true /\
  template (startBuilder None 1 x) = Some sampleTemplate /\
  lastBuild (startBuilder None 1 x)
    = Some (sampleBuild 60%N 1%N 21%N 3 [Byte.x01; Byte.x02] 40%N) /\
  lastBuildJob (startBuilder None 1 x) = Some (okJob 40%N) /\
  cacheOf (startBuilder None 1 x) <> cacheOf start1.
Proof.
  intros x. subst x.
  repeat (split; [vm_compute; reflexivity |]).
  vm_compute. discriminate.
Qed.



End Samples.

(** * More of the builder *)

Section LoopOutcomes.
Context {S : Type} `{Store S} `{Collaborators}.


Lemma isSerializationFailure_Errorf m e :
  isSerializationFailure (Some (Errorf m (Some e))) = isSerializationFailure (Some e).
Proof. reflexivity. Qed.

End LoopOutcomes.

Section Outcomes.
Context {S : Type} `{Store S} `{Collaborators}.

(** [Build] returns either a build with its job and no error, or an error
    with neither; in the second case nothing is committed. *)
Theorem Build_returns_rows_or_error (authFunc : AuthFunc) (b : Builder) (store : S)
    (tk : nat) :
  let out := Build authFunc b store tk in
  (o_err out = None /\
   exists wb pj, o_workspaceBuild out = Some wb /\ o_provisionerJob out = Some pj)
  \/
  (o_err out <> None /\ o_workspaceBuild out = None /\
   o_provisionerJob out = None /\ o_committed out = []).
Proof.
  intros out. destruct (o_err out) as [e|] eqn:E.
  - right. split; [discriminate |]. apply buildLoop_failure.
    fold (Build authFunc b store tk). fold out. rewrite E. discriminate.
  - left. split; [reflexivity |].
    destruct (buildLoop_success_inv authFunc 5 (b, store, tk) None E)
      as (k & wb & pj & st & _ & _ & _ & Eq).
    exists wb, pj. subst out. unfold Build. cbn [fst snd] in Eq. rewrite Eq. auto.
Qed.


End Outcomes.

Section AuthorizeLemmas.
Context {S : Type} `{Store S} `{Collaborators}.

(** The action [authorize] asks for, as its [switch] computes it. *)
Lemma authorize_action f st :
  authorize f st =
  match actionOf (trans (bld st)) with
  | None =>
      (Err (BuildError StatusBadRequest
              ("Transition " ++ fmt_q (trans (bld st)) ++ " not supported.")
              emptyErr), st)
  | Some action =>
      if f action (ObjWorkspace (workspace (bld st))) then
        match wrapErr (BuildError StatusInternalServerError "failed to fetch template")
                getTemplate st with
        | (Ok template, st') =>
            if customState (state (bld st))
               && negb (f ActionUpdate (ObjTemplateRBACObject template))
            then (Err (BuildError StatusForbidden
                         "Only template managers may provide custom state" emptyErr),
                  st')
            else if negb (String.eqb (logLevel (bld st)) "")
                    && negb (f ActionUpdate (ObjTemplate template))
            then (Err (BuildError StatusBadRequest
                         "Workspace builds with a custom log level are restricted to template authors only."
                         emptyErr), st')
            else (Ok tt, st')
        | (Err e, st') => (Err e, st')
        end
      else (Err (BuildError StatusNotFound ResourceNotFoundMessage emptyErr), st)
  end.
Proof.
  assert (Rest : forall action,
            (if negb (f action (ObjWorkspace (workspace (bld st)))) then
               fail (BuildError StatusNotFound ResourceNotFoundMessage emptyErr)
             else
               template <- wrapErr (BuildError StatusInternalServerError
                                      "failed to fetch template") getTemplate ;;
               (match explicit (state (bld st)), orphan (state (bld st)) with
                | None, false => ret tt
                | _, _ =>
                    if negb (f ActionUpdate (ObjTemplateRBACObject template)) then
                      fail (BuildError StatusForbidden
                              "Only template managers may provide custom state" emptyErr)
                    else ret tt
                end) ;;;
               if negb (String.eqb (logLevel (bld st)) "")
                  && negb (f ActionUpdate (ObjTemplate template))
               then
                 fail (BuildError StatusBadRequest
                         "Workspace builds with a custom log level are restricted to template authors only."
                         emptyErr)
               else ret tt) st
            = if f action (ObjWorkspace (workspace (bld st))) then
                match wrapErr (BuildError StatusInternalServerError
                                 "failed to fetch template") getTemplate st with
                | (Ok template, st') =>
                    if customState (state (bld st))
                       && negb (f ActionUpdate (ObjTemplateRBACObject template))
                    then (Err (BuildError StatusForbidden
                                 "Only template managers may provide custom state"
                                 emptyErr), st')
                    else if negb (String.eqb (logLevel (bld st)) "")
                            && negb (f ActionUpdate (ObjTemplate template))
                    then (Err (BuildError StatusBadRequest
                                 "Workspace builds with a custom log level are restricted to template authors only."
                                 emptyErr), st')
                    else (Ok tt, st')
                | (Err e, st') => (Err e, st')
                end
              else (Err (BuildError StatusNotFound ResourceNotFoundMessage emptyErr), st)).
  { intros action.
    destruct (f action (ObjWorkspace (workspace (bld st)))); [| reflexivity].
    cbn [negb]. unfold bind at 1.
    destruct (wrapErr _ getTemplate st) as [[t|e] st']; [| reflexivity].
    unfold bind, customState, ret, fail.
    destruct (explicit (state (bld st))), (orphan (state (bld st)));
      cbn [andb];
      destruct (f ActionUpdate (ObjTemplateRBACObject t)); cbn [negb andb];
      try reflexivity;
      destruct (negb (String.eqb (logLevel (bld st)) "")
                && negb (f ActionUpdate (ObjTemplate t))); reflexivity. }
  unfold authorize, actionOf, bind at 1, getB. cbn beta iota.
  unfold bind at 1.
  destruct (String.eqb (trans (bld st)) WorkspaceTransitionDelete);
    [| destruct (String.eqb (trans (bld st)) WorkspaceTransitionStart
                 || String.eqb (trans (bld st)) WorkspaceTransitionStop)];
    unfold ret at 1, fail at 1; cbn beta iota; try reflexivity; apply Rest.
Qed.

Lemma getTemplate_twice st :
  match getTemplate st with
  | (Ok t, st') => getTemplate st' = (Ok t, st')
  | (Err e, st') => st' = st
  end.
Proof.
  unfold getTemplate, bind, getB, queryStore, modB, ret. cbn beta iota.
  destruct (template (bld st)) as [t|] eqn:T.
  - cbn beta iota. rewrite T. reflexivity.
  - destruct (GetTemplateByID (tx st) _) as [t|e]; cbn; reflexivity.
Qed.

(** After [authorize] has let the request through, the template is in the
    cache, and the next check starts by asking for it. *)
Lemma checkTemplateVersionMatchesTemplate_after_getTemplate st :
  match getTemplate st with
  | (Ok t, st') =>
      checkTemplateVersionMatchesTemplate st' = checkTemplateVersionMatchesTemplate st
  | (Err e, st') =>
      checkTemplateVersionMatchesTemplate st
      = (Err (BuildError StatusInternalServerError "failed to fetch template" e), st')
  end.
Proof.
  pose proof (getTemplate_twice st) as G.
  unfold checkTemplateVersionMatchesTemplate, bind, wrapErr.
  destruct (getTemplate st) as [[t|e] st'] eqn:E.
  - rewrite G. reflexivity.
  - reflexivity.
Qed.

Lemma buildTx_allow_all st :
  actionOf (trans (bld st)) <> None ->
  buildTx (Some (fun _ _ => true)) st = buildTx None st.
Proof.
  intros A0. unfold buildTx.
  set (k := checkTemplateJobStatus ;;; checkRunningBuild ;;; computeAndInsert).
  change ((ret tt ;;; checkTemplateVersionMatchesTemplate ;;; k) st)
    with ((checkTemplateVersionMatchesTemplate ;;; k) st).
  unfold bind at 1. rewrite authorize_action.
  destruct (actionOf (trans (bld st))) as [action|]; [| contradiction A0; reflexivity].
  pose proof (checkTemplateVersionMatchesTemplate_after_getTemplate st) as G.
  unfold wrapErr. cbn [negb andb]. rewrite !andb_false_r.
  destruct (getTemplate st) as [[t|e] st'].
  - unfold bind. rewrite G. reflexivity.
  - unfold bind. rewrite G. reflexivity.
Qed.

End AuthorizeLemmas.

Section AllowAll.
Context {S : Type} `{Store S} `{Collaborators}.

(** For a start, stop or delete transition, an [authFunc] that allows
    everything changes nothing: [Build] returns what it returns without an
    [authFunc], leaves the same receiver and store, and commits the same
    writes. *)
Theorem allow_all_is_no_authFunc (b : Builder) (store : S) (tk : nat) :
  actionOf (trans b) <> None ->
  Build (Some (fun _ _ => true)) b store tk = Build None b store tk.
Proof.
  unfold Build. generalize (@None error) as err. generalize 5%nat as n.
  intros n. revert b store tk.
  induction n as [|n IH]; intros b store tk err A0; [reflexivity |].
  rewrite !buildLoop_step. unfold attempt.
  set (st0 := {| bld := b; tx := txBegin store; writes := []; tick := tk |}).
  rewrite (buildTx_allow_all st0) by exact A0.
  (* the transition is the same in the next iteration *)
  pose proof (Keeps_buildTx None st0) as K.
  destruct (buildTx None st0) as [[[wb pj]|e] st]; [reflexivity |].
  destruct (isSerializationFailure (Some e)); [| reflexivity].
  apply IH. cbn [snd] in K.
  destruct (keeps_fields _ _ K) as (_ & T & _). rewrite T. exact A0.
Qed.

Lemma Build_first_error authFunc b store tk e st :
  buildTx authFunc {| bld := b; tx := txBegin store; writes := []; tick := tk |}
    = (Err e, st) ->
  isSerializationFailure (Some e) = false ->
  Build authFunc b store tk =
  {| o_workspaceBuild := None; o_provisionerJob := None; o_err := Some e;
     o_b := bld st; o_store := txRollback store (tx st);
     o_committed := []; o_tick := tick st |}.
Proof.
  intros E Ser. unfold Build. rewrite buildLoop_step. unfold attempt.
  rewrite E, Ser. reflexivity.
Qed.

(** When the [authFunc] denies the action on the workspace (delete for a
    delete transition, update for start and stop), [Build] answers 404 with
    the wording of a missing resource, and has read nothing: the receiver is
    as it was, so the answer does not tell whether the template exists. *)
Theorem denied_caller_gets_not_found (f : Action -> Objecter -> bool) (b : Builder)
    (store : S) (tk : nat) (action : Action) :
  actionOf (trans b) = Some action ->
  f action (ObjWorkspace (workspace b)) = false ->
  rejectedWith (BuildError StatusNotFound ResourceNotFoundMessage emptyErr)
    store tk (Build (Some f) b store tk)
  /\ o_b (Build (Some f) b store tk) = b.
Proof.
  intros A D.
  rewrite (Build_first_error (Some f) b store tk
             (BuildError StatusNotFound ResourceNotFoundMessage emptyErr)
             {| bld := b; tx := txBegin store; writes := []; tick := tk |}).
  - repeat split.
  - unfold buildTx, bind at 1. rewrite authorize_action. cbn [bld].
    rewrite A, D. reflexivity.
  - reflexivity.
Qed.

(** With an [authFunc], a transition other than start, stop and delete is
    rejected with 400, "Transition %q not supported.", before the [authFunc]
    is asked and before anything is read. *)
Theorem unsupported_transition_is_rejected (f : Action -> Objecter -> bool)
    (b : Builder) (store : S) (tk : nat) :
  actionOf (trans b) = None ->
  rejectedWith
    (BuildError StatusBadRequest
       ("Transition " ++ fmt_q (trans b) ++ " not supported.")%string emptyErr)
    store tk (Build (Some f) b store tk)
  /\ o_b (Build (Some f) b store tk) = b.
Proof.
  intros A.
  rewrite (Build_first_error (Some f) b store tk
             (BuildError StatusBadRequest
                ("Transition " ++ fmt_q (trans b) ++ " not supported.")%string emptyErr)
             {| bld := b; tx := txBegin store; writes := []; tick := tk |}).
  - repeat split.
  - unfold buildTx, bind at 1. rewrite authorize_action. cbn [bld].
    rewrite A. reflexivity.
  - reflexivity.
Qed.

(** A custom state (an explicit state, or orphan) needs update on the
    template's RBAC object: when the action on the workspace is allowed and
    the template is read, a denial there is answered 403, "Only template
    managers may provide custom state", with nothing written. *)
Theorem custom_state_needs_template_update (f : Action -> Objecter -> bool)
    (b : Builder) (store : S) (tk : nat) (action : Action) (t : Template) :
  customState (state b) = true ->
  actionOf (trans b) = Some action ->
  f action (ObjWorkspace (workspace b)) = true ->
  viewTemplate b (txBegin store) = Ok t ->
  f ActionUpdate (ObjTemplateRBACObject t) = false ->
  rejectedWith
    (BuildError StatusForbidden "Only template managers may provide custom state"
       emptyErr)
    store tk (Build (Some f) b store tk).
Proof.
  intros C A W T D. apply Build_rejectedWith; [| reflexivity].
  unfold preChecksV. simpl. unfold authorizeV. rewrite A, W, T. simpl.
  rewrite C, D. reflexivity.
Qed.

End AllowAll.

(** ** Footprints of the methods *)

Section Footprint.
Context {S : Type} `{Store S} `{Collaborators}.

(** A relation between the state before and after a method that every step
    of a class of methods respects. *)
Variable R : St S -> St S -> Prop.
Hypothesis R_refl : forall st, R st st.
Hypothesis R_trans : forall st1 st2 st3, R st1 st2 -> R st2 st3 -> R st1 st3.
Hypothesis R_ext : forall st st', ext st st' -> R st st'.
Hypothesis R_set_templateVersionParameters :
  forall st ps,
    templateVersionParameters (bld st) = None ->
    R st (withBuilder (set_templateVersionParameters (Some ps) (bld st)) st).

Definition Within {A} (m : M S A) : Prop := forall st, R st (snd (m st)).

Lemma Within_ret {A} (a : A) : Within (@ret S A a).
Proof. intros st; apply R_refl. Qed.

Lemma Within_fail {A} e : Within (@fail S A e).
Proof. intros st; apply R_refl. Qed.

Lemma Within_liftResult {A} (r : result A) : Within (@liftResult S A r).
Proof. intros st; apply R_refl. Qed.

Lemma Within_getB : Within (@getB S).
Proof. intros st; apply R_refl. Qed.

Lemma Within_queryStore {A} (f : S -> result A) : Within (queryStore f).
Proof. intros st; apply R_refl. Qed.

Lemma Within_bind {A B} (m : M S A) (f : A -> M S B) :
  Within m -> (forall a, Within (f a)) -> Within (bind m f).
Proof.
  intros Km Kf st. unfold bind. specialize (Km st).
  destruct (m st) as [[a|e] st1]; simpl in *; [| exact Km].
  eapply R_trans; [exact Km | apply Kf].
Qed.

Lemma Within_wrapErr {A} w (m : M S A) : Within m -> Within (wrapErr w m).
Proof.
  intros Km st. unfold wrapErr. specialize (Km st).
  destruct (m st) as [[a|e] st1]; exact Km.
Qed.

Lemma Within_Reads {A} (m : M S A) v : Reads m v -> Within m.
Proof.
  intros Rd st. destruct (Rd st) as (st' & E & X). rewrite E. apply R_ext, X.
Qed.

Lemma Within_getTemplateVersionParameters : Within getTemplateVersionParameters.
Proof.
  unfold getTemplateVersionParameters. intros st. unfold bind at 1, getB.
  destruct (templateVersionParameters (bld st)) eqn:E; [apply R_refl |].
  unfold bind.
  destruct (Reads_getTemplateVersionID st) as (st1 & E1 & X1). rewrite E1.
  destruct (viewTemplateVersionID _ _); [| apply R_ext, X1].
  unfold queryStore. destruct (tolerateNoRows _) as [ps|e]; [| apply R_ext, X1].
  simpl. eapply R_trans; [apply R_ext, X1 |].
  apply (R_set_templateVersionParameters st1 ps).
  rewrite (ext_templateVersionParameters _ _ X1). exact E.
Qed.

Lemma Within_getLastBuildParameters : Within getLastBuildParameters.
Proof.
  unfold getLastBuildParameters. apply Within_bind; [apply Within_getB | intros b].
  destruct (lastBuildParameters b); [apply Within_ret |].
  apply Within_bind; [apply (Within_Reads _ _ Reads_getLastBuild) | intros bl].
  apply Within_queryStore.
Qed.

Lemma Within_getParameters : Within getParameters.
Proof.
  unfold getParameters.
  apply Within_bind; [apply Within_wrapErr, Within_getTemplateVersionParameters | intros ?].
  apply Within_bind; [apply Within_wrapErr, Within_getLastBuildParameters | intros ?].
  apply Within_bind;
    [apply Within_wrapErr, (Within_Reads _ _ Reads_getLastParameterValues) | intros ?].
  apply Within_bind; [apply Within_getB | intros ?]. apply Within_liftResult.
Qed.

(** Methods that write and draw. *)
Hypothesis R_draw :
  forall st, R st {| bld := bld st; tx := tx st; writes := writes st;
                     tick := Datatypes.S (tick st) |}.
Hypothesis R_write :
  forall st s ws, R st {| bld := bld st; tx := s; writes := ws; tick := tick st |}.
Hypothesis R_default_initiator :
  forall st,
    R st (withBuilder (if N.eqb (initiator (bld st)) uuid_Nil
                       then set_initiator (Workspace_OwnerID (workspace (bld st))) (bld st)
                       else bld st) st).
Hypothesis R_default_reason :
  forall st,
    R st (withBuilder (if String.eqb (reason (bld st)) ""
                       then set_reason BuildReasonInitiator (bld st)
                       else bld st) st).

Lemma Within_draw {A} (f : nat -> A) : Within (@draw S A f).
Proof. intros st; apply R_draw. Qed.

Lemma Within_writeStore {A} w (f : S -> A * S) : Within (writeStore w f).
Proof.
  intros st. unfold writeStore. destruct (f (tx st)). apply R_write.
Qed.

Lemma Within_deleteExisting name lps : Within (deleteExisting name lps).
Proof.
  induction lps as [|p lps IH]; simpl; [apply Within_ret |].
  apply Within_bind; [| intros _; exact IH].
  destruct (String.eqb _ _); [| apply Within_ret].
  apply Within_bind; [apply Within_writeStore | intros [e|]; [| apply Within_ret]].
  destruct (isErrNoRows e); [apply Within_ret | apply Within_fail].
Qed.

Lemma Within_writeLegacyParameters now id ps lps :
  Within (writeLegacyParameters now id ps lps).
Proof.
  induction ps as [|p ps IH]; simpl; [apply Within_ret |].
  apply Within_bind; [apply Within_deleteExisting | intros _].
  apply Within_bind; [apply Within_draw | intros ?].
  apply Within_bind; [| intros _; exact IH].
  apply Within_bind; [apply Within_writeStore | intros ?].
  apply Within_wrapErr, Within_liftResult.
Qed.

Lemma Within_computeAndInsert : Within computeAndInsert.
Proof.
  unfold computeAndInsert.
  repeat first
    [ apply Within_getParameters
    | apply Within_writeLegacyParameters
    | apply Within_ret | apply Within_fail | apply Within_liftResult
    | apply Within_getB | apply Within_draw | apply Within_writeStore
    | apply Within_wrapErr
    | eapply Within_Reads; first
        [ apply Reads_getTemplate | apply Reads_getTemplateVersionJob
        | apply Reads_getLastParameterValues | apply Reads_getTemplateVersionID
        | apply Reads_getBuildNumber | apply Reads_getState ]
    | match goal with
      | |- Within (modB _) => intros ?; first [apply R_default_initiator
                                              | apply R_default_reason]
      | |- Within (match ?e with _ => _ end) => destruct e
      end
    | apply Within_bind; [| intros ? ] ].
Qed.

Lemma Within_buildTx authFunc : Within (buildTx authFunc).
Proof.
  intros st. rewrite buildTx_split.
  pose proof (Within_Reads _ _ (Reads_preChecks authFunc) st) as K.
  destruct (preChecks authFunc st) as [[u|e] st1]; simpl in *; [| exact K].
  eapply R_trans; [exact K | apply Within_computeAndInsert].
Qed.

End Footprint.

Section Footprints.
Context {S : Type} `{Store S} `{Collaborators}.

Lemma leaves_refl (st : St S) : leaves st st.
Proof. constructor; try reflexivity. apply cacheLe_refl. Qed.

Lemma leaves_trans (st1 st2 st3 : St S) :
  leaves st1 st2 -> leaves st2 st3 -> leaves st1 st3.
Proof.
  intros [] []; constructor; try congruence. eapply cacheLe_trans; eassumption.
Qed.

Lemma ext_leaves (st st' : St S) : ext st st' -> leaves st st'.
Proof.
  intros X; constructor;
    [ apply (ext_tx _ _ X) | apply (ext_writes _ _ X) | apply (ext_tick _ _ X)
    | apply (ext_config _ _ X) | apply (ext_initiator _ _ X)
    | apply (ext_reason _ _ X) | apply (ext_lastBuildParameters _ _ X)
    | apply (ext_cache _ _ X) ].
Qed.

Lemma leaves_set_templateVersionParameters (st : St S) ps :
  templateVersionParameters (bld st) = None ->
  leaves st (withBuilder (set_templateVersionParameters (Some ps) (bld st)) st).
Proof.
  intros E. constructor; try reflexivity.
  constructor; simpl; try apply slotLe_refl. rewrite E. apply slotLe_None.
Qed.

Lemma Leaves_Reads {A} (m : M S A) v : Reads m v -> Leaves m.
Proof. apply (Within_Reads leaves ext_leaves). Qed.

Lemma Leaves_getParameters : Leaves getParameters.
Proof.
  apply (Within_getParameters leaves leaves_refl leaves_trans ext_leaves
           leaves_set_templateVersionParameters).
Qed.

(** The settings, up to the defaults. *)
Definition settledR (st st' : St S) : Prop := settled (bld st') = settled (bld st).

Lemma leaves_settled (st st' : St S) : leaves st st' -> settledR st st'.
Proof.
  intros L. unfold settledR, settled, initiatorOf, reasonOf.
  pose proof (leaves_config _ _ L) as C. unfold config in C.
  injection C as C1 C2 C3 C4 C5 C6 C7.
  rewrite (leaves_initiator _ _ L), (leaves_reason _ _ L),
    (leaves_lastBuildParameters _ _ L).
  unfold config. rewrite C1, C2, C3, C4, C5, C6, C7. reflexivity.
Qed.

Lemma settled_default_initiator b :
  settled (if N.eqb (initiator b) uuid_Nil
           then set_initiator (Workspace_OwnerID (workspace b)) b else b)
  = settled b.
Proof.
  unfold settled, initiatorOf, reasonOf, config.
  destruct (N.eqb (initiator b) uuid_Nil) eqn:E; [| rewrite E; reflexivity].
  simpl. destruct (N.eqb (Workspace_OwnerID (workspace b)) uuid_Nil); reflexivity.
Qed.

Lemma settled_default_reason b :
  settled (if String.eqb (reason b) ""
           then set_reason BuildReasonInitiator b else b)
  = settled b.
Proof.
  unfold settled, initiatorOf, reasonOf, config.
  destruct (String.eqb (reason b) "") eqn:E; [reflexivity | rewrite E; reflexivity].
Qed.

Lemma Settled_buildTx authFunc : Settled (buildTx authFunc).
Proof.
  apply (Within_buildTx settledR); unfold settledR.
  - reflexivity.
  - intros st1 st2 st3 E1 E2. congruence.
  - intros st st' X. apply leaves_settled, ext_leaves, X.
  - intros st ps _. reflexivity.
  - intros st. reflexivity.
  - intros st s ws. reflexivity.
  - intros st. apply settled_default_initiator.
  - intros st. apply settled_default_reason.
Qed.

End Footprints.

Section StepLemmas.
Context {S : Type} `{Store S} `{Collaborators}.

Lemma draw_at {A} (f : nat -> A) (st : St S) r st' :
  draw f st = (r, st') ->
  r = Ok (f (tick st)) /\ bld st' = bld st /\ tx st' = tx st /\
  writes st' = writes st /\ tick st' = Datatypes.S (tick st).
Proof. unfold draw. intros E; injection E as <- <-. simpl. auto. Qed.

Lemma modB_at (f : Builder -> Builder) (st : St S) r st' :
  modB f st = (r, st') ->
  bld st' = f (bld st) /\ tx st' = tx st /\ writes st' = writes st /\
  tick st' = tick st.
Proof. unfold modB. intros E; injection E as <- <-. simpl. auto. Qed.

Lemma writeStore_to {A} w (f : S -> A * S) (st : St S) r st' :
  writeStore w f st = (r, st') ->
  bld st' = bld st /\ writes st' = writes st ++ [w] /\ tick st' = tick st /\
  r = Ok (fst (f (tx st))).
Proof.
  unfold writeStore. destruct (f (tx st)) as [a tx'].
  intros E; injection E as <- <-. simpl. auto.
Qed.

Lemma leaves_at {A} (m : M S A) st r st' :
  Leaves m -> m st = (r, st') -> leaves st st'.
Proof. intros L E. specialize (L st). rewrite E in L. exact L. Qed.

(** *** The legacy parameter update *)

Lemma deleteExisting_Ok name lps :
  forall (st : St S) u st',
    deleteExisting name lps st = (Ok u, st') ->
    bld st' = bld st /\ tick st' = tick st /\
    writes st' = writes st ++ map WDeleteParameterValueByID (idsNamed name lps).
Proof.
  unfold idsNamed.
  induction lps as [|p lps IH]; intros st u st' E; simpl in E.
  - injection E as _ <-. rewrite app_nil_r. auto.
  - apply bind_Ok in E as (u1 & st1 & E1 & E). simpl.
    destruct (String.eqb (ParameterValue_Name p) name).
    + apply bind_Ok in E1 as (err & st0 & E0 & E1).
      apply writeStore_to in E0 as (B0 & W0 & T0 & _).
      assert (st1 = st0) as ->.
      { destruct err as [e|]; [destruct (isErrNoRows e) |];
          first [injection E1 as _ <-; reflexivity | discriminate E1]. }
      destruct (IH _ _ _ E) as (B & T & W).
      split; [congruence |]. split; [congruence |].
      rewrite W, W0, <- app_assoc. reflexivity.
    + injection E1 as _ <-. apply (IH _ _ _ E).
Qed.

Lemma writeLegacyParameters_Ok now id ps lps :
  forall (st : St S) u st',
    writeLegacyParameters now id ps lps st = (Ok u, st') ->
    bld st' = bld st /\ tick st' = (tick st + List.length ps)%nat /\
    writes st' = writes st ++ legacyWrites now id ps lps (tick st).
Proof.
  induction ps as [|p ps IH]; intros st u st' E; simpl in E.
  - injection E as _ <-. simpl. rewrite app_nil_r, Nat.add_0_r. auto.
  - apply bind_Ok in E as (u1 & st1 & E1 & E).
    apply deleteExisting_Ok in E1 as (B1 & T1 & W1).
    apply bind_Ok in E as (i & st2 & E2 & E).
    apply draw_at in E2 as (Ei & B2 & X2 & W2 & T2). injection Ei as ->.
    apply bind_Ok in E as (u3 & st3 & E3 & E).
    apply bind_Ok in E3 as (r & st4 & E4 & E3).
    apply writeStore_to in E4 as (B4 & W4 & T4 & _).
    apply wrapErr_Ok in E3. apply liftResult_at in E3 as (_ & ->).
    destruct (IH _ _ _ E) as (B & T & W).
    split; [congruence |]. split; [simpl; lia |].
    rewrite W, W4, W2, W1. simpl. rewrite <- !app_assoc. simpl.
    unfold legacyRow.
    replace (tick st4) with (Datatypes.S (tick st)) by congruence.
    rewrite T1. reflexivity.
Qed.

(** *** The rich parameters *)

Lemma resolveParameters_Ok resolver rich tvps :
  forall names values names' values',
    resolveParameters resolver rich tvps names values = Ok (names', values') ->
    names' = names ++ map TemplateVersionParameter_Name tvps /\
    exists vs, values' = values ++ vs /\ resolved resolver rich tvps vs.
Proof.
  unfold resolved.
  induction tvps as [|tvp tvps IH]; intros names values names' values' E; simpl in E.
  - injection E as <- <-. split; [rewrite app_nil_r; reflexivity |].
    exists []. rewrite app_nil_r. split; [reflexivity | constructor].
  - destruct (conversion_TemplateVersionParameter tvp) as [sdk|e] eqn:C;
      [| discriminate E].
    destruct (ValidateResolve resolver sdk _) as [value|e] eqn:V; [| discriminate E].
    destruct (IH _ _ _ _ E) as (N & vs & Vs & F).
    split; [rewrite N, <- app_assoc; reflexivity |].
    exists (value :: vs). split; [rewrite Vs, <- app_assoc; reflexivity |].
    constructor; [exists sdk; auto | exact F].
Qed.


Lemma getLastParameterValues_fill st pv st' :
  getLastParameterValues st = (Ok pv, st') -> lastParameterValues (bld st') = Some pv.
Proof.
  unfold getLastParameterValues, bind, getB, queryStore, modB, ret.
  destruct (lastParameterValues (bld st)) eqn:E.
  - intros Q; injection Q as <- <-. exact E.
  - destruct (tolerateNoRows _); [| discriminate].
    intros Q; injection Q as <- <-. reflexivity.
Qed.

Lemma getTemplateVersionParameters_fill st ps st' :
  getTemplateVersionParameters st = (Ok ps, st') ->
  templateVersionParameters (bld st') = Some ps.
Proof.
  unfold getTemplateVersionParameters. intros E.
  apply bind_Ok in E as (b & st0 & E0 & E). unfold getB in E0.
  injection E0 as <- <-.
  destruct (templateVersionParameters (bld st)) eqn:T.
  - unfold ret in E. injection E as <- <-. exact T.
  - apply bind_Ok in E as (id & st1 & _ & E).
    apply bind_Ok in E as (tvp & st2 & _ & E).
    apply bind_Ok in E as (u & st3 & E3 & E).
    unfold ret in E. injection E as <- <-.
    unfold modB in E3. injection E3 as _ <-. reflexivity.
Qed.

Lemma getLastBuildParameters_Ok st lbp st' bl :
  lastBuild (bld st) = Some bl ->
  getLastBuildParameters st = (Ok lbp, st') ->
  lastBuildParametersOf (bld st) bl lbp.
Proof.
  unfold getLastBuildParameters, lastBuildParametersOf. intros L E.
  apply bind_Ok in E as (b & st0 & E0 & E). unfold getB in E0.
  injection E0 as <- <-.
  destruct (lastBuildParameters (bld st)).
  - unfold ret in E. injection E as <- _. reflexivity.
  - apply bind_Ok in E as (bl' & st1 & E1 & E).
    assert (bl' = bl) as ->.
    { unfold getLastBuild, bind, getB in E1. rewrite L in E1.
      unfold ret in E1. injection E1 as <- _. reflexivity. }
    unfold queryStore in E. injection E as E _. eauto.
Qed.

Lemma getParameters_Ok st nv st' bl :
  lastBuild (bld st) = Some bl ->
  getParameters st = (Ok nv, st') ->
  leaves st st' /\
  exists tvps lbp lpv,
    templateVersionParameters (bld st') = Some tvps /\
    lastParameterValues (bld st') = Some lpv /\
    lastBuildParametersOf (bld st) bl lbp /\
    fst nv = map TemplateVersionParameter_Name tvps /\
    resolved {| Rich := conversion_WorkspaceBuildParameters lbp;
                Legacy := conversion_Parameters lpv |}
      (richParameterValues (bld st)) tvps (snd nv).
Proof.
  intros L E. split; [apply (leaves_at _ _ _ _ Leaves_getParameters E) |].
  unfold getParameters in E.
  apply bind_Ok in E as (tvps & st1 & E1 & E). apply wrapErr_Ok in E1.
  pose proof (getTemplateVersionParameters_fill _ _ _ E1) as F1.
  pose proof (Within_getTemplateVersionParameters leaves leaves_refl leaves_trans
                ext_leaves leaves_set_templateVersionParameters st) as L1.
  rewrite E1 in L1. cbn [snd] in L1.
  apply bind_Ok in E as (lbp & st2 & E2 & E). apply wrapErr_Ok in E2.
  pose proof (Within_getLastBuildParameters leaves leaves_refl leaves_trans
                ext_leaves st1) as L2.
  rewrite E2 in L2. cbn [snd] in L2.
  pose proof (le_lastBuild _ _ (leaves_cache _ _ L1) _ L) as LB1.
  pose proof (getLastBuildParameters_Ok _ _ _ _ LB1 E2) as P2.
  apply bind_Ok in E as (lpv & st3 & E3 & E). apply wrapErr_Ok in E3.
  pose proof (getLastParameterValues_fill _ _ _ E3) as F3.
  pose proof (leaves_at _ _ _ _ (Leaves_Reads _ _ Reads_getLastParameterValues) E3) as L3.
  apply bind_Ok in E as (b & st4 & E4 & E). unfold getB in E4.
  injection E4 as <- <-. apply liftResult_at in E as (E & ->).
  destruct nv as [names values]. symmetry in E.
  apply resolveParameters_Ok in E as (N & vs & V & F). simpl in N, V. subst.
  exists tvps, lbp, lpv.
  split; [apply (le_templateVersionParameters _ _
                   (leaves_cache _ _ (leaves_trans _ _ _ L2 L3)) _ F1) |].
  split; [exact F3 |].
  split.
  { unfold lastBuildParametersOf in *.
    rewrite <- (leaves_lastBuildParameters _ _ L1). exact P2. }
  split; [reflexivity |]. cbn [snd].
  pose proof (leaves_config _ _ (leaves_trans _ _ _ L1 (leaves_trans _ _ _ L2 L3))) as C.
  unfold config in C. injection C as _ _ _ _ _ _ C7. rewrite <- C7. exact F.
Qed.

End StepLemmas.

Section RowsLemmas.
Context {S : Type} `{Store S} `{Collaborators}.

Lemma leaves_fields (st st' : St S) :
  leaves st st' ->
  workspace (bld st') = workspace (bld st) /\ trans (bld st') = trans (bld st) /\
  version (bld st') = version (bld st) /\ state (bld st') = state (bld st) /\
  logLevel (bld st') = logLevel (bld st) /\
  legacyParameterValues (bld st') = legacyParameterValues (bld st) /\
  richParameterValues (bld st') = richParameterValues (bld st).
Proof.
  intros L. pose proof (leaves_config _ _ L) as C. unfold config in C.
  injection C as ? ? ? ? ? ? ?. auto 8.
Qed.

Lemma Reads_leaves {A} (m : M S A) v st a st' :
  Reads m v -> m st = (Ok a, st') -> v (bld st) (tx st) = Ok a /\ leaves st st'.
Proof.
  intros R E. destruct (Reads_Ok _ _ _ _ _ R E) as (V & X).
  split; [exact V | apply ext_leaves, X].
Qed.

(** A step that changes the handle, the writes or the draws only. *)
Lemma leaves_builder (st st' : St S) : bld st' = bld st -> cacheLe (bld st) (bld st').
Proof. intros ->. apply cacheLe_refl. Qed.

Lemma computeAndInsert_rows st wb pj st' :
  computeAndInsert st = (Ok (wb, pj), st') ->
  exists t tvj lps bl tvps lbp ws,
    viewTemplate (bld st) (tx st) = Ok t /\
    viewTemplateVersionJob (bld st) (tx st) = Ok tvj /\
    viewLastParameterValues (bld st) (tx st) = Ok lps /\
    lastBuild (bld st') = Some bl /\
    templateVersionParameters (bld st') = Some tvps /\
    lastBuildParametersOf (bld st) bl lbp /\
    initiator (bld st') = initiatorOf (bld st) /\
    reason (bld st') = reasonOf (bld st) /\
    tick st' = (tick st + 7 + List.length (legacyParameterValues (bld st)))%nat /\
    writes st' = writes st ++ ws /\
    rowsOf (bld st) (tick st) t tvj lps bl tvps lbp wb pj ws.
Proof.
  intros E. unfold computeAndInsert in E.
  (* the three reads *)
  apply bind_Ok in E as (t & st1 & E1 & E). apply wrapErr_Ok in E1.
  pose proof (getTemplate_fill _ _ _ E1) as T1.
  apply (Reads_Ok _ _ _ _ _ Reads_getTemplate) in E1 as (V1 & X1).
  apply bind_Ok in E as (tvj & st2 & E2 & E). apply wrapErr_Ok in E2.
  apply (Reads_Ok _ _ _ _ _ Reads_getTemplateVersionJob) in E2 as (V2 & X2).
  rewrite (Stable_viewTemplateVersionJob _ _ X1) in V2.
  pose proof (ext_trans _ _ _ X1 X2) as X02.
  apply bind_Ok in E as (lps & st3 & E3 & E). apply wrapErr_Ok in E3.
  pose proof (getLastParameterValues_fill _ _ _ E3) as P3.
  apply (Reads_Ok _ _ _ _ _ Reads_getLastParameterValues) in E3 as (V3 & X3).
  rewrite (Stable_viewLastParameterValues _ _ X02) in V3.
  pose proof (ext_leaves _ _ (ext_trans _ _ _ X02 X3)) as L3.
  pose proof (le_template _ _ (ext_cache _ _ (ext_trans _ _ _ X2 X3)) _ T1) as T3.
  clear X1 X2 X3 X02 T1 st1 st2.
  destruct (leaves_fields _ _ L3) as (C1 & C2 & C3 & C4 & C5 & C6 & C7).
  (* the defaults and the time *)
  apply bind_Ok in E as (u4 & st4 & E4 & E).
  apply modB_at in E4 as (B4 & X4 & W4 & K4).
  apply bind_Ok in E as (u5 & st5 & E5 & E).
  apply modB_at in E5 as (B5 & X5 & W5 & K5).
  apply bind_Ok in E as (now & st6 & E6 & E).
  apply draw_at in E6 as (N6 & B6 & X6 & W6 & K6). injection N6 as ->.
  apply bind_Ok in E as (b & st7 & E7 & E). unfold getB in E7. injection E7 as <- <-.
  assert (Bb : exists i r,
             bld st6 = set_reason r (set_initiator i (bld st3)) /\
             i = initiatorOf (bld st) /\ r = reasonOf (bld st)).
  { exists (initiatorOf (bld st)), (reasonOf (bld st)).
    split; [| split; reflexivity].
    rewrite B6, B5, B4. unfold initiatorOf, reasonOf.
    rewrite <- (leaves_initiator _ _ L3), <- (leaves_reason _ _ L3), <- C1.
    destruct (bld st3) as [? ? ? ? ? ? ? ini rea ? ? ? ? ? ? ? ?]; simpl.
    destruct (N.eqb ini uuid_Nil) eqn:EI; simpl;
      destruct (String.eqb rea "") eqn:ER; reflexivity. }
  destruct Bb as (i & r & Bb & -> & ->).
  assert (F6 : workspace (bld st6) = workspace (bld st) /\
               trans (bld st6) = trans (bld st) /\
               version (bld st6) = version (bld st) /\
               state (bld st6) = state (bld st) /\
               logLevel (bld st6) = logLevel (bld st) /\
               legacyParameterValues (bld st6) = legacyParameterValues (bld st) /\
               richParameterValues (bld st6) = richParameterValues (bld st) /\
               initiator (bld st6) = initiatorOf (bld st) /\
               reason (bld st6) = reasonOf (bld st) /\
               template (bld st6) = Some t /\
               lastParameterValues (bld st6) = Some lps /\
               lastBuildParameters (bld st6) = lastBuildParameters (bld st)).
  { rewrite Bb. simpl. rewrite (leaves_lastBuildParameters _ _ L3). auto 12. }
  destruct F6 as (F1 & F2 & F3 & F4 & F5 & F6 & F7 & FI & FR & FT & FP & FL).
  assert (K06 : tick st6 = Datatypes.S (tick st))
    by (rewrite K6, K5, K4; f_equal; apply (leaves_tick _ _ L3)).
  assert (W06 : writes st6 = writes st)
    by (rewrite W6, W5, W4; apply (leaves_writes _ _ L3)).
  assert (N06 : database_Now (tick st5) = database_Now (tick st))
    by (rewrite K5, K4, (leaves_tick _ _ L3); reflexivity).
  rewrite N06 in E.
  clear Bb B4 X4 W4 K4 B5 X5 W5 K5 B6 X6 W6 K6 N06 L3 st4 st5 u4 u5
    C1 C2 C3 C4 C5 C6 C7 P3 T3 st3.
  (* the legacy parameters *)
  apply bind_Ok in E as (u8 & st8 & E8 & E).
  apply writeLegacyParameters_Ok in E8 as (B8 & K8 & W8).
  rewrite F1, F6, K06, W06 in *.
  (* the job *)
  apply bind_Ok in E as (workspaceBuildID & st9 & E9 & E).
  apply draw_at in E9 as (N9 & B9 & X9 & W9 & K9). injection N9 as ->.
  apply bind_Ok in E as (input & st10 & E10 & E). apply wrapErr_Ok in E10.
  apply liftResult_at in E10 as (M10 & ->).
  apply bind_Ok in E as (raw & st11 & E11 & E). apply wrapErr_Ok in E11.
  apply liftResult_at in E11 as (M11 & ->).
  apply bind_Ok in E as (jobID & st12 & E12 & E).
  apply draw_at in E12 as (N12 & B12 & X12 & W12 & K12). injection N12 as ->.
  apply bind_Ok in E as (jobCreatedAt & st13 & E13 & E).
  apply draw_at in E13 as (N13 & B13 & X13 & W13 & K13). injection N13 as ->.
  apply bind_Ok in E as (jobUpdatedAt & st14 & E14 & E).
  apply draw_at in E14 as (N14 & B14 & X14 & W14 & K14). injection N14 as ->.
  apply bind_Ok in E as (provisionerJob & stJ & EJ & E).
  apply bind_Ok in EJ as (rJ & stJ' & EJ' & EJ). apply wrapErr_Ok in EJ.
  apply liftResult_at in EJ as (RJ & ->).
  apply writeStore_to in EJ' as (BJ & WJ & KJ & SJ).
  injection SJ as SJ. rewrite <- RJ in SJ. cbn beta in SJ.
  assert (B0J : bld stJ' = bld st6) by congruence.
  (* the attributes of the build *)
  apply bind_Ok in E as (templateVersionID & stA & EA & E). apply wrapErr_Ok in EA.
  apply (Reads_Ok _ _ _ _ _ Reads_getTemplateVersionID) in EA as (VA & XA).
  pose proof (ext_leaves _ _ XA) as LA.
  apply bind_Ok in E as (buildNum & stB & EB & E). apply wrapErr_Ok in EB.
  destruct (getBuildNumber_fill _ _ _ EB) as (bl & LB & ->).
  destruct (Reads_Ok _ _ _ _ _ Reads_getBuildNumber EB) as (VB & XB).
  pose proof (ext_leaves _ _ XB) as LB'.
  apply bind_Ok in E as (stateB & stC & EC & E). apply wrapErr_Ok in EC.
  apply (Reads_leaves _ _ _ _ _ Reads_getState) in EC as (VC & LC).
  apply bind_Ok in E as (buildCreatedAt & st15 & E15 & E).
  apply draw_at in E15 as (N15 & B15 & X15 & W15 & K15). injection N15 as ->.
  apply bind_Ok in E as (buildUpdatedAt & st16 & E16 & E).
  apply draw_at in E16 as (N16 & B16 & X16 & W16 & K16). injection N16 as ->.
  apply bind_Ok in E as (workspaceBuild & stD & ED & E).
  apply bind_Ok in ED as (rD & stD' & ED' & ED). apply wrapErr_Ok in ED.
  apply liftResult_at in ED as (RD & ->).
  apply writeStore_to in ED' as (BD & WD & KD & SD).
  injection SD as SD. rewrite <- RD in SD. cbn beta in SD.
  (* the rich parameters *)
  assert (LD : lastBuild (bld stD') = Some bl).
  { rewrite BD, B16, B15. apply (le_lastBuild _ _ (leaves_cache _ _ LC) _ LB). }
  apply bind_Ok in E as (nv & stE & EE & E).
  destruct (getParameters_Ok _ _ _ _ LD EE)
    as (LE & tvps & lbp & lpv & TV & LP & LBP & NV & RV).
  apply bind_Ok in E as (uF & stF & EF & E).
  apply bind_Ok in EF as (err & stF' & EF' & EF).
  apply writeStore_to in EF' as (BF & WF & KF & _).
  destruct err as [e|]; [discriminate EF |]. unfold ret in EF, E.
  injection EF as _ <-. injection E as <- <- <-.
  (* what the builder holds at the end *)
  pose proof (leaves_trans _ _ _ LA (leaves_trans _ _ _ LB' LC)) as LAC.
  assert (BC : bld stD' = bld stC) by congruence.
  assert (VL : viewLastBuild (bld stJ') (tx stJ') = Ok bl).
  { rewrite <- (Stable_viewLastBuild _ _ XA), <- (Stable_viewLastBuild _ _ XB).
    unfold viewLastBuild. rewrite LB. reflexivity. }
  (* the values *)
  destruct (leaves_fields _ _ LAC) as (A1 & A2 & A3 & A4 & A5 & A6 & A7).
  destruct (leaves_fields _ _ LE) as (E1 & E2 & E3 & E4 & E5 & E6 & E7).
  exists t, tvj, lps, bl, tvps, lbp.
  eexists.
  split; [exact V1 |]. split; [exact V2 |]. split; [exact V3 |].
  split; [rewrite BF; apply (le_lastBuild _ _ (leaves_cache _ _ LE) _ LD) |].
  split; [rewrite BF; exact TV |].
  split.
  { unfold lastBuildParametersOf in *. rewrite <- FL.
    rewrite <- B0J, <- (leaves_lastBuildParameters _ _ LAC), <- BC. exact LBP. }
  split.
  { rewrite BF, (leaves_initiator _ _ LE), BC, (leaves_initiator _ _ LAC), B0J.
    exact FI. }
  split.
  { rewrite BF, (leaves_reason _ _ LE), BC, (leaves_reason _ _ LAC), B0J.
    exact FR. }
  split.
  { rewrite KF, (leaves_tick _ _ LE), KD, K16, K15, (leaves_tick _ _ LAC), KJ,
      K14, K13, K12, K9, K8. lia. }
  split.
  { rewrite WF, (leaves_writes _ _ LE), WD, W16, W15, (leaves_writes _ _ LAC), WJ,
      W14, W13, W12, W9, W8. rewrite <- !app_assoc. reflexivity. }
  exists input, raw, (snd nv).
  cbv zeta.
  assert (Kb : tick st9 = (tick st + 2 + List.length (legacyParameterValues (bld st)))%nat)
    by (rewrite K9, K8; lia).
  assert (TJ : tick stJ' = (tick st + 5 + List.length (legacyParameterValues (bld st)))%nat)
    by (rewrite KJ, K14, K13, K12, Kb; lia).
  assert (TC : tick stC = tick stJ') by apply (leaves_tick _ _ LAC).
  replace (tick st8) with (tick st + 1 + List.length (legacyParameterValues (bld st)))%nat
    in * by lia.
  replace (tick st9) with (tick st + 2 + List.length (legacyParameterValues (bld st)))%nat
    in * by lia.
  replace (tick st12) with (tick st + 3 + List.length (legacyParameterValues (bld st)))%nat
    in * by lia.
  replace (tick st13) with (tick st + 4 + List.length (legacyParameterValues (bld st)))%nat
    in * by lia.
  replace (tick stC) with (tick st + 5 + List.length (legacyParameterValues (bld st)))%nat
    in * by lia.
  replace (tick st15) with (tick st + 6 + List.length (legacyParameterValues (bld st)))%nat
    in * by lia.
  split; [rewrite <- F5; exact (eq_sym M10) |].
  split; [exact (eq_sym M11) |].
  split.
  { assert (lpv = lps) as ->.
    { pose proof (le_lastParameterValues _ _ (leaves_cache _ _ LAC)) as Q.
      rewrite B0J in Q. specialize (Q _ FP). rewrite <- BC in Q.
      pose proof (le_lastParameterValues _ _ (leaves_cache _ _ LE) _ Q) as Q'.
      congruence. }
    rewrite <- F7, <- B0J, <- A7, <- BC. exact RV. }
  match goal with
  | |- context [WInsertProvisionerJob ?q] =>
      assert (EJP : q = jobRow (bld st) t tvj input raw
                 (uuid_New (tick st + 2 + List.length (legacyParameterValues (bld st))))
                 (database_Now (tick st + 3 + List.length (legacyParameterValues (bld st))))
                 (database_Now (tick st + 4 + List.length (legacyParameterValues (bld st)))))
  end.
  { unfold jobRow. rewrite FI. reflexivity. }
  rewrite EJP in *.
  assert (TVID : templateVersionID = versionOf (version (bld st)) t bl).
  { unfold viewTemplateVersionID in VA. unfold versionOf.
    rewrite B0J, F3 in VA.
    destruct (specific (version (bld st))); [congruence |].
    destruct (active (version (bld st))).
    - unfold viewTemplate in VA. rewrite FT in VA. simpl in VA. congruence.
    - rewrite <- B0J, VL in VA. simpl in VA. congruence. }
  assert (STB : stateB = stateOf (state (bld st)) bl).
  { unfold viewState in VC. unfold stateOf.
    assert (S4 : state (bld stB) = state (bld st)).
    { destruct (leaves_fields _ _ (leaves_trans _ _ _ LA LB')) as (_ & _ & _ & Q & _).
      rewrite Q, B0J. exact F4. }
    rewrite S4 in VC.
    destruct (orphan (state (bld st))); [congruence |].
    destruct (explicit (state (bld st))); [congruence |].
    unfold viewLastBuild in VC. rewrite LB in VC. simpl in VC. congruence. }
  match goal with
  | |- context [WInsertWorkspaceBuild ?q] =>
      assert (EP : q = buildRow (bld st) t bl provisionerJob
                 (uuid_New (tick st + 1 + List.length (legacyParameterValues (bld st))))
                 (database_Now (tick st + 5 + List.length (legacyParameterValues (bld st))))
                 (database_Now (tick st + 6 + List.length (legacyParameterValues (bld st)))))
  end.
  { unfold buildRow. rewrite FI, FR, F2, TVID, STB. reflexivity. }
  rewrite EP in *.
  rewrite NV.
  split; [reflexivity |].
  split; eexists; symmetry; eassumption.
Qed.

End RowsLemmas.

Section BuildRows.
Context {S : Type} `{Store S} `{Collaborators}.

Lemma settled_fields b b' :
  settled b' = settled b ->
  workspace b' = workspace b /\ trans b' = trans b /\
  version b' = version b /\ state b' = state b /\
  logLevel b' = logLevel b /\
  legacyParameterValues b' = legacyParameterValues b /\
  richParameterValues b' = richParameterValues b /\
  initiatorOf b' = initiatorOf b /\ reasonOf b' = reasonOf b /\
  lastBuildParameters b' = lastBuildParameters b.
Proof.
  unfold settled, config. intros E. injection E as ? ? ? ? ? ? ? ? ? ?. auto 12.
Qed.

Lemma rowsOf_settled b b' T t tvj lps bl tvps lbp wb pj ws :
  settled b' = settled b ->
  rowsOf b' T t tvj lps bl tvps lbp wb pj ws ->
  rowsOf b T t tvj lps bl tvps lbp wb pj ws.
Proof.
  intros E. destruct (settled_fields _ _ E)
    as (C1 & C2 & C3 & C4 & C5 & C6 & C7 & C8 & C9 & C10).
  unfold rowsOf, jobRow, buildRow.
  rewrite C1, C2, C3, C4, C5, C6, C7, C8, C9. exact (fun x => x).
Qed.

Lemma lastBuildParametersOf_settled b b' bl lbp :
  settled b' = settled b ->
  lastBuildParametersOf b' bl lbp -> lastBuildParametersOf b bl lbp.
Proof.
  intros E. destruct (settled_fields _ _ E) as (_ & _ & _ & _ & _ & _ & _ & _ & _ & C).
  unfold lastBuildParametersOf. rewrite C. exact (fun x => x).
Qed.

(** A successful [buildTx], in full. *)
Lemma buildTx_rows authFunc st wb pj st' :
  buildTx authFunc st = (Ok (wb, pj), st') ->
  exists t tvj lps bl tvps lbp ws,
    viewTemplate (bld st) (tx st) = Ok t /\
    viewTemplateVersionJob (bld st) (tx st) = Ok tvj /\
    viewLastParameterValues (bld st) (tx st) = Ok lps /\
    lastBuild (bld st') = Some bl /\
    templateVersionParameters (bld st') = Some tvps /\
    lastBuildParametersOf (bld st) bl lbp /\
    initiator (bld st') = initiatorOf (bld st) /\
    reason (bld st') = reasonOf (bld st) /\
    tick st' = (tick st + 7 + List.length (legacyParameterValues (bld st)))%nat /\
    writes st' = writes st ++ ws /\
    rowsOf (bld st) (tick st) t tvj lps bl tvps lbp wb pj ws.
Proof.
  intros E. rewrite buildTx_split in E.
  destruct (preChecks authFunc st) as [[u|e] st1] eqn:P; [| discriminate E].
  destruct (Reads_Ok _ _ _ _ _ (Reads_preChecks authFunc) P) as (_ & X).
  pose proof (leaves_settled _ _ (ext_leaves _ _ X)) as SE. unfold settledR in SE.
  destruct (settled_fields _ _ SE) as (C1 & C2 & C3 & C4 & C5 & C6 & C7 & C8 & C9 & C10).
  destruct (computeAndInsert_rows _ _ _ _ E)
    as (t & tvj & lps & bl & tvps & lbp & ws & V1 & V2 & V3 & L & TV & LBP & I & R
        & K & W & RO).
  exists t, tvj, lps, bl, tvps, lbp, ws.
  rewrite (Stable_viewTemplate _ _ X) in V1.
  rewrite (Stable_viewTemplateVersionJob _ _ X) in V2.
  rewrite (Stable_viewLastParameterValues _ _ X) in V3.
  rewrite (ext_tick _ _ X), C6 in K. rewrite (ext_writes _ _ X) in W.
  rewrite (ext_tick _ _ X) in RO. rewrite C8 in I. rewrite C9 in R.
  repeat (split; [assumption |]).
  split; [eapply lastBuildParametersOf_settled; eassumption |].
  repeat (split; [assumption |]).
  eapply rowsOf_settled; eassumption.
Qed.

(** The receiver an iteration starts from has the settings of the receiver
    of the call, up to the defaults. *)
Lemma settled_startBuilder authFunc x k :
  settled (startBuilder authFunc k x) = settled (fst (fst x)).
Proof.
  unfold startBuilder. induction k as [|k IH]; [reflexivity |].
  simpl. rewrite <- IH.
  unfold afterRollback. destruct (attemptStart authFunc k x) as [[bk sk] tk].
  simpl.
  apply (Settled_buildTx authFunc
           {| bld := bk; tx := txBegin sk; writes := []; tick := tk |}).
Qed.

(** A successful [Build], in full: the iteration [k] that succeeded, what it
    read when it started, and the rows it committed. *)
Lemma Build_rows authFunc b store tk :
  let x := (b, store, tk) in
  let out := Build authFunc b store tk in
  o_err out = None ->
  exists k wb pj t tvj lps bl tvps lbp,
    (k < 5)%nat /\ retried authFunc k x /\
    o_workspaceBuild out = Some wb /\ o_provisionerJob out = Some pj /\
    viewTemplate (startBuilder authFunc k x)
      (txBegin (startStore authFunc k x)) = Ok t /\
    viewTemplateVersionJob (startBuilder authFunc k x)
      (txBegin (startStore authFunc k x)) = Ok tvj /\
    viewLastParameterValues (startBuilder authFunc k x)
      (txBegin (startStore authFunc k x)) = Ok lps /\
    lastBuild (o_b out) = Some bl /\
    templateVersionParameters (o_b out) = Some tvps /\
    lastBuildParametersOf b bl lbp /\
    initiator (o_b out) = initiatorOf b /\
    reason (o_b out) = reasonOf b /\
    o_tick out = (startTick authFunc k x + 7
                  + List.length (legacyParameterValues b))%nat /\
    rowsOf b (startTick authFunc k x) t tvj lps bl tvps lbp wb pj (o_committed out).
Proof.
  intros x out E. subst out x. unfold Build in *.
  destruct (buildLoop_success_inv authFunc 5 (b, store, tk) None E)
    as (k & wb & pj & st & Hk & R & A & Eq).
  cbn [fst snd] in Eq. rewrite Eq.
  cbn [o_workspaceBuild o_provisionerJob o_b o_committed o_tick].
  pose proof (settled_startBuilder authFunc (b, store, tk) k) as KS. cbn [fst snd] in KS.
  unfold startBuilder, startStore, startTick in *.
  destruct (attemptStart authFunc k (b, store, tk)) as [[bk sk] tk'] eqn:AS.
  cbn [fst snd] in *. unfold attempt in A.
  destruct (buildTx_rows _ _ _ _ _ A)
    as (t & tvj & lps & bl & tvps & lbp & ws & V1 & V2 & V3 & L & TV & LBP & I & Rs
        & K & W & RO).
  cbn [bld tx writes tick] in *.
  destruct (settled_fields _ _ KS) as (C1 & C2 & C3 & C4 & C5 & C6 & C7 & C8 & C9 & C10).
  exists k, wb, pj, t, tvj, lps, bl, tvps, lbp. rewrite ?AS. cbn [fst snd].
  rewrite C6 in K. rewrite C8 in I. rewrite C9 in Rs. rewrite W. simpl.
  split; [exact Hk |]. split; [exact R |].
  split; [reflexivity |]. split; [reflexivity |].
  repeat (split; [assumption |]).
  split; [eapply lastBuildParametersOf_settled; eassumption |].
  repeat (split; [assumption |]).
  eapply rowsOf_settled; eassumption.
Qed.

(** Whatever [Build] returns, its receiver has the settings it had, up to
    the defaults. *)
Lemma buildLoop_settled authFunc n :
  forall b store tk err,
    settled (o_b (buildLoop n authFunc b store tk err)) = settled b.
Proof.
  induction n as [|n IH]; intros b store tk err; [reflexivity |].
  rewrite buildLoop_step. unfold attempt.
  pose proof (Settled_buildTx authFunc
                {| bld := b; tx := txBegin store; writes := []; tick := tk |}) as K.
  destruct (buildTx authFunc _) as [[[wb pj]|e] st]; cbn [snd bld] in K;
    [exact K |].
  destruct (isSerializationFailure (Some e)); [| exact K].
  rewrite IH. exact K.
Qed.

Lemma buildLoop_keeps authFunc n :
  forall b store tk err,
    keeps b (o_b (buildLoop n authFunc b store tk err)).
Proof.
  induction n as [|n IH]; intros b store tk err; [apply keeps_refl |].
  rewrite buildLoop_step. unfold attempt.
  pose proof (Keeps_buildTx authFunc
                {| bld := b; tx := txBegin store; writes := []; tick := tk |}) as K.
  destruct (buildTx authFunc _) as [[[wb pj]|e] st]; cbn [snd bld] in K;
    [exact K |].
  destruct (isSerializationFailure (Some e)); [| exact K].
  eapply keeps_trans; [exact K | apply IH].
Qed.

End BuildRows.

Section NewBuild.
Context {S : Type} `{Store S} `{Collaborators}.

(** The initiator and the reason default: the job and the build a
    successful [Build] commits carry the initiator given or, if none
    ([uuid.Nil]) was given, the owner of the workspace; the build carries the
    reason given or, if none was given, "initiator".  The receiver is left
    with these values in its settings. *)
Theorem initiator_and_reason_default (authFunc : AuthFunc) (b : Builder) (store : S)
    (tk : nat) :
  let out := Build authFunc b store tk in
  o_err out = None ->
  exists legacy jp p pp,
    o_committed out =
      legacy ++ [WInsertProvisionerJob jp; WInsertWorkspaceBuild p;
                 WInsertWorkspaceBuildParameters pp] /\
    IPJ_InitiatorID jp = initiatorOf b /\
    IWB_InitiatorID p = initiatorOf b /\
    IWB_Reason p = reasonOf b /\
    initiator (o_b out) = initiatorOf b /\
    reason (o_b out) = reasonOf b.
Proof.
  intros out E.
  destruct (Build_rows authFunc b store tk E)
    as (k & wb & pj & t & tvj & lps & bl & tvps & lbp & Hk & R & W1 & W2 & V1 & V2 & V3
        & L & TV & LBP & I & Rs & K & RO).
  destruct RO as (input & raw & values & M & Tr & Rv & Ws & SJ & SD).
  eexists _, _, _, _. split; [exact Ws |]. cbn. auto.
Qed.


(** The rows of a new build refer to each other: the job [Build] returns
    is the store's answer to the insertion of the job row, and the build
    returned the answer to that of the build row; the build row refers to
    the job returned, the parameters row to the build row, and the input of
    the job is the marshalled pair of the build's id and the log level. *)
Theorem new_rows_are_linked (authFunc : AuthFunc) (b : Builder) (store : S)
    (tk : nat) :
  let out := Build authFunc b store tk in
  o_err out = None ->
  exists wb pj legacy jp p pp,
    o_workspaceBuild out = Some wb /\
    o_provisionerJob out = Some pj /\
    o_committed out =
      legacy ++ [WInsertProvisionerJob jp; WInsertWorkspaceBuild p;
                 WInsertWorkspaceBuildParameters pp] /\
    (exists s, fst (InsertProvisionerJob s jp) = Ok pj) /\
    (exists s, fst (InsertWorkspaceBuild s p) = Ok wb) /\
    IWB_JobID p = ProvisionerJob_ID pj /\
    IWBP_WorkspaceBuildID pp = IWB_ID p /\
    marshalWorkspaceProvisionJob (IWB_ID p) (logLevel b) = Ok (IPJ_Input jp).
Proof.
  intros out E.
  destruct (Build_rows authFunc b store tk E)
    as (k & wb & pj & t & tvj & lps & bl & tvps & lbp & Hk & R & W1 & W2 & V1 & V2 & V3
        & L & TV & LBP & I & Rs & K & RO).
  destruct RO as (input & raw & values & M & Tr & Rv & Ws & SJ & SD).
  exists wb, pj. eexists _, _, _, _.
  split; [exact W1 |]. split; [exact W2 |]. split; [exact Ws |].
  split; [exact SJ |]. split; [exact SD |]. cbn. auto.
Qed.


(** The legacy parameter update of a successful [Build]: its writes start
    with, for each requested legacy value in turn, the deletion of every
    stored value of the workspace with that name and then the insertion of
    the requested one, all inserted with one timestamp; the job, the build
    and its parameters follow.  With no legacy value requested, exactly
    these three rows are written. *)
Theorem legacy_parameters_are_replaced (authFunc : AuthFunc) (b : Builder)
    (store : S) (tk : nat) :
  let x := (b, store, tk) in
  let out := Build authFunc b store tk in
  o_err out = None ->
  exists k lps jp p pp,
    (k < 5)%nat /\
    viewLastParameterValues (startBuilder authFunc k x)
      (txBegin (startStore authFunc k x)) = Ok lps /\
    o_committed out =
      legacyWrites (database_Now (startTick authFunc k x)) (Workspace_ID (workspace b))
        (legacyParameterValues b) lps (Datatypes.S (startTick authFunc k x))
      ++ [WInsertProvisionerJob jp; WInsertWorkspaceBuild p;
          WInsertWorkspaceBuildParameters pp] /\
    (legacyParameterValues b = [] ->
     o_committed out = [WInsertProvisionerJob jp; WInsertWorkspaceBuild p;
                        WInsertWorkspaceBuildParameters pp]).
Proof.
  intros x out E.
  destruct (Build_rows authFunc b store tk E)
    as (k & wb & pj & t & tvj & lps & bl & tvps & lbp & Hk & R & W1 & W2 & V1 & V2 & V3
        & L & TV & LBP & I & Rs & K & RO).
  destruct RO as (input & raw & values & M & Tr & Rv & Ws & SJ & SD).
  exists k, lps. eexists _, _, _.
  split; [exact Hk |]. split; [exact V3 |]. split; [exact Ws |].
  intros N. unfold out. rewrite Ws, N. reflexivity.
Qed.

(** [Build] has a pointer receiver.  Whatever it returns, it leaves the
    settings of the receiver as they were, but for an initiator and a reason
    replaced by their defaults; it never assigns the slot of the last
    build's parameters; and every other slot that was filled holds the same
    value. *)
Theorem Build_settles_its_receiver (authFunc : AuthFunc) (b : Builder) (store : S)
    (tk : nat) :
  let b' := o_b (Build authFunc b store tk) in
  workspace b' = workspace b /\ trans b' = trans b /\
  version b' = version b /\ state b' = state b /\
  logLevel b' = logLevel b /\
  legacyParameterValues b' = legacyParameterValues b /\
  richParameterValues b' = richParameterValues b /\
  initiatorOf b' = initiatorOf b /\ reasonOf b' = reasonOf b /\
  lastBuildParameters b' = lastBuildParameters b /\
  cacheLe b b'.
Proof.
  intros b'.
  destruct (settled_fields _ _ (buildLoop_settled authFunc 5 b store tk None))
    as (C1 & C2 & C3 & C4 & C5 & C6 & C7 & C8 & C9 & C10).
  repeat (split; [assumption |]).
  apply (keeps_cache _ _ (buildLoop_keeps authFunc 5 b store tk None)).
Qed.

(** A last build handed in with [SetLastWorkspaceBuildInTx] is the one the
    new build is derived from, whatever the store has as the workspace's
    latest build: its number plus 1, and by default its state and its
    template version. *)
Theorem handed_in_last_build_is_used (authFunc : AuthFunc) (b : Builder) (store : S)
    (tk : nat) (bl : WorkspaceBuild) :
  let out := Build authFunc (SetLastWorkspaceBuildInTx (Some bl) b) store tk in
  o_err out = None ->
  exists legacy jp p pp,
    o_committed out =
      legacy ++ [WInsertProvisionerJob jp; WInsertWorkspaceBuild p;
                 WInsertWorkspaceBuildParameters pp] /\
    IWB_BuildNumber p = int32_add (WorkspaceBuild_BuildNumber bl) 1 /\
    IWB_ProvisionerState p = stateOf (state b) bl /\
    (specific (version b) = None -> active (version b) = false ->
     IWB_TemplateVersionID p = WorkspaceBuild_TemplateVersionID bl).
Proof.
  intros out E.
  destruct (Build_rows authFunc _ store tk E)
    as (k & wb & pj & t & tvj & lps & bl' & tvps & lbp & Hk & R & W1 & W2 & V1 & V2 & V3
        & L & TV & LBP & I & Rs & K & RO).
  destruct RO as (input & raw & values & M & Tr & Rv & Ws & SJ & SD).
  assert (bl' = bl) as ->.
  { pose proof (keeps_cache _ _ (buildLoop_keeps authFunc 5
                  (SetLastWorkspaceBuildInTx (Some bl) b) store tk None)) as C.
    pose proof (le_lastBuild _ _ C bl eq_refl) as Q.
    unfold Build in L. congruence. }
  eexists _, _, _, _. split; [exact Ws |]. cbn.
  split; [reflexivity |]. split; [reflexivity |].
  intros Sp Ac. unfold versionOf. rewrite Sp, Ac. reflexivity.
Qed.

(** The build number is an int32: after a last build numbered 2^31 - 1 a
    successful [Build] commits the number -2^31. *)
Theorem build_number_wraps_around (authFunc : AuthFunc) (b : Builder) (store : S)
    (tk : nat) (bl : WorkspaceBuild) :
  let out := Build authFunc b store tk in
  o_err out = None ->
  lastBuild (o_b out) = Some bl ->
  WorkspaceBuild_BuildNumber bl = 2 ^ 31 - 1 ->
  exists p,
    In (WInsertWorkspaceBuild p) (o_committed out) /\
    IWB_BuildNumber p = - 2 ^ 31.
Proof.
  intros out E L0 Mx.
  destruct (Build_rows authFunc b store tk E)
    as (k & wb & pj & t & tvj & lps & bl' & tvps & lbp & Hk & R & W1 & W2 & V1 & V2 & V3
        & L & TV & LBP & I & Rs & K & RO).
  destruct RO as (input & raw & values & M & Tr & Rv & Ws & SJ & SD).
  assert (bl' = bl) as -> by (unfold out in L0; congruence).
  eexists. split.
  - unfold out. rewrite Ws. apply in_or_app. right. right. left. reflexivity.
  - cbn. rewrite Mx. reflexivity.
Qed.

End NewBuild.

Section Failures.
Context {S : Type} `{Store S} `{Collaborators}.
Variable P : error -> Prop.










End Failures.


Section Classified.
Context {S : Type} `{Store S} `{Collaborators}.














End Classified.

Section FetchOnce.
Context {S : Type} `{Store S} `{Collaborators}.

Lemma getTemplateVersion_fill st v st' :
  getTemplateVersion st = (Ok v, st') -> templateVersion (bld st') = Some v.
Proof.
  unfold getTemplateVersion. intros E.
  apply bind_Ok in E as (b & st0 & E0 & E). unfold getB in E0.
  injection E0 as <- <-.
  destruct (templateVersion (bld st)) eqn:T.
  - unfold ret in E. injection E as <- <-. exact T.
  - apply bind_Ok in E as (id & st1 & _ & E).
    apply bind_Ok in E as (v' & st2 & _ & E).
    apply bind_Ok in E as (u & st3 & E3 & E).
    unfold ret in E. injection E as <- <-.
    unfold modB in E3. injection E3 as _ <-. reflexivity.
Qed.

Lemma getTemplateVersionJob_fill st j st' :
  getTemplateVersionJob st = (Ok j, st') -> templateVersionJob (bld st') = Some j.
Proof.
  unfold getTemplateVersionJob. intros E.
  apply bind_Ok in E as (b & st0 & E0 & E). unfold getB in E0.
  injection E0 as <- <-.
  destruct (templateVersionJob (bld st)) eqn:T.
  - unfold ret in E. injection E as <- <-. exact T.
  - apply bind_Ok in E as (v & st1 & _ & E).
    apply bind_Ok in E as (j' & st2 & _ & E).
    apply bind_Ok in E as (u & st3 & E3 & E).
    unfold ret in E. injection E as <- <-.
    unfold modB in E3. injection E3 as _ <-. reflexivity.
Qed.

(** "We only fetch once": after a cached accessor has returned a value, a
    further call returns that value on whatever handle, without a read, and
    changes nothing. *)
Theorem accessors_fetch_once :
  FetchesOnce getTemplate /\ FetchesOnce getTemplateVersion /\
  FetchesOnce getTemplateVersionJob /\ FetchesOnce getTemplateVersionParameters /\
  FetchesOnce getLastBuild /\ FetchesOnce getLastParameterValues /\
  FetchesOnce getLastBuildJob.
Proof.
  repeat split; intros st a st' E st2 B.
  - apply getTemplate_fill in E.
    unfold getTemplate, bind, getB. rewrite B, E. reflexivity.
  - apply getTemplateVersion_fill in E.
    unfold getTemplateVersion, bind, getB. rewrite B, E. reflexivity.
  - apply getTemplateVersionJob_fill in E.
    unfold getTemplateVersionJob, bind, getB. rewrite B, E. reflexivity.
  - apply getTemplateVersionParameters_fill in E.
    unfold getTemplateVersionParameters, bind, getB. rewrite B, E. reflexivity.
  - apply getLastBuild_fill in E.
    unfold getLastBuild, bind, getB. rewrite B, E. reflexivity.
  - apply getLastParameterValues_fill in E.
    unfold getLastParameterValues, bind, getB. rewrite B, E. reflexivity.
  - apply getLastBuildJob_fill in E.
    unfold getLastBuildJob, bind, getB. rewrite B, E. reflexivity.
Qed.

End FetchOnce.

Section RichParameters.
Context `{Collaborators}.

(** [findNewBuildParameterValue] returns the first requested value of the
    given name, and nil exactly when no requested value has that name. *)
Theorem findNewBuildParameterValue_first_match
    (rich : list WorkspaceBuildParameter) (name : string) :
  match findNewBuildParameterValue rich name with
  | Some v =>
      exists before after,
        rich = before ++ v :: after /\
        WorkspaceBuildParameter_Name v = name /\
        forall u, In u before -> WorkspaceBuildParameter_Name u <> name
  | None => forall u, In u rich -> WorkspaceBuildParameter_Name u <> name
  end.
Proof.
  induction rich as [|v rich IH]; simpl.
  - intros u [].
  - destruct (String.eqb (WorkspaceBuildParameter_Name v) name) eqn:E.
    + apply String.eqb_eq in E. exists [], rich. simpl.
      split; [reflexivity |]. split; [exact E |]. intros u [].
    + apply String.eqb_neq in E.
      destruct (findNewBuildParameterValue rich name) as [w|].
      * destruct IH as (before & after & -> & N & F).
        exists (v :: before), after. simpl.
        split; [reflexivity |]. split; [exact N |].
        intros u [<- | I]; [exact E | apply F, I].
      * intros u [<- | I]; [exact E | apply IH, I].
Qed.

Lemma find_filter (keep : WorkspaceBuildParameter -> bool) rich name :
  (forall v, WorkspaceBuildParameter_Name v = name -> keep v = true) ->
  findNewBuildParameterValue (filter keep rich) name
  = findNewBuildParameterValue rich name.
Proof.
  intros K. induction rich as [|v rich IH]; simpl; [reflexivity |].
  destruct (String.eqb (WorkspaceBuildParameter_Name v) name) eqn:E.
  - rewrite (K v) by (apply String.eqb_eq, E). simpl. rewrite E. reflexivity.
  - destruct (keep v); simpl; [rewrite E |]; exact IH.
Qed.

Lemma resolveParameters_ext resolver rich rich' tvps :
  (forall tvp, In tvp tvps ->
     findNewBuildParameterValue rich' (TemplateVersionParameter_Name tvp)
     = findNewBuildParameterValue rich (TemplateVersionParameter_Name tvp)) ->
  forall names values,
    resolveParameters resolver rich' tvps names values
    = resolveParameters resolver rich tvps names values.
Proof.
  induction tvps as [|tvp tvps IH]; intros F names values; simpl; [reflexivity |].
  rewrite (F tvp) by (left; reflexivity).
  destruct (conversion_TemplateVersionParameter tvp); [| reflexivity].
  destruct (ValidateResolve _ _ _); [| reflexivity].
  apply IH. intros tvp' I. apply F. right. exact I.
Qed.

(** Requested values whose name the template version does not declare are
    ignored: the loop of [getParameters] returns the same with and without
    them. *)
Theorem undeclared_values_are_ignored (resolver : ParameterResolver)
    (rich : list WorkspaceBuildParameter) (tvps : list TemplateVersionParameter)
    (names values : list string) :
  resolveParameters resolver (filter (declared tvps) rich) tvps names values
  = resolveParameters resolver rich tvps names values.
Proof.
  apply resolveParameters_ext. intros tvp I. apply find_filter.
  intros v N. unfold declared. apply existsb_exists.
  exists (TemplateVersionParameter_Name tvp). split.
  - apply in_map, I.
  - apply String.eqb_eq, N.
Qed.

(** The first declared parameter that does not validate ends the loop of
    [getParameters] with a bad request (400) whose message is that of the
    validator's error, which it wraps. *)
Theorem invalid_parameter_is_bad_request (resolver : ParameterResolver)
    (rich : list WorkspaceBuildParameter)
    (before after : list TemplateVersionParameter) (tvp : TemplateVersionParameter)
    (sdk : SDKTemplateVersionParameter) (vs : list string) (err : error)
    (names values : list string) :
  resolved resolver rich before vs ->
  conversion_TemplateVersionParameter tvp = Ok sdk ->
  ValidateResolve resolver sdk
    (findNewBuildParameterValue rich (TemplateVersionParameter_Name tvp)) = Err err ->
  resolveParameters resolver rich (before ++ tvp :: after) names values
  = Err (BuildError StatusBadRequest (errorString err) err).
Proof.
  intros R C V. revert names values.
  induction R as [|tvp0 v0 before vs (sdk0 & C0 & V0) R IH]; intros names values; simpl.
  - rewrite C, V. reflexivity.
  - rewrite C0, V0. apply IH.
Qed.

End RichParameters.

Section LateRejection.
Context {S : Type} `{Store S} `{Collaborators}.

Lemma bind_Err {A B} (m : M S A) (f : A -> M S B) st e st' :
  bind m f st = (Err e, st') ->
  m st = (Err e, st') \/ exists a st1, m st = (Ok a, st1) /\ f a st1 = (Err e, st').
Proof.
  unfold bind. destruct (m st) as [[a|e0] st1]; [eauto |].
  intros E; injection E as <- <-. left; reflexivity.
Qed.

Lemma wrapErr_Err {A} w (m : M S A) st e st' :
  wrapErr w m st = (Err e, st') -> exists e0, e = w e0.
Proof.
  unfold wrapErr. destruct (m st) as [[a|e0] st1]; [discriminate |].
  intros E; injection E as <- _. eauto.
Qed.

Lemma writeStore_Err {A} w (f : S -> A * S) (st : St S) e st' :
  writeStore w f st = (Err e, st') -> False.
Proof. unfold writeStore. destruct (f (tx st)). discriminate. Qed.

(** The legacy parameter update fails with status 500 only. *)
Lemma deleteExisting_Err name lps :
  forall (st : St S) e st',
    deleteExisting name lps st = (Err e, st') ->
    exists m w, e = BuildError StatusInternalServerError m w.
Proof.
  induction lps as [|p lps IH]; intros st e st' E; simpl in E; [discriminate E |].
  apply bind_Err in E as [E | (u & st1 & _ & E)]; [| apply (IH _ _ _ E)].
  destruct (String.eqb _ _); [| discriminate E].
  apply bind_Err in E as [E | (err & st1 & _ & E)];
    [destruct (writeStore_Err _ _ _ _ _ E) |].
  destruct err as [e0|]; [| discriminate E].
  destruct (isErrNoRows e0); [discriminate E |].
  injection E as <- _. eauto.
Qed.

Lemma writeLegacyParameters_Err now id ps lps :
  forall (st : St S) e st',
    writeLegacyParameters now id ps lps st = (Err e, st') ->
    exists m w, e = BuildError StatusInternalServerError m w.
Proof.
  induction ps as [|p ps IH]; intros st e st' E; simpl in E; [discriminate E |].
  apply bind_Err in E as [E | (u & st1 & _ & E)];
    [apply (deleteExisting_Err _ _ _ _ _ E) |].
  apply bind_Err in E as [E | (i & st2 & _ & E)]; [discriminate E |].
  apply bind_Err in E as [E | (u3 & st3 & _ & E)]; [| apply (IH _ _ _ E)].
  apply bind_Err in E as [E | (r & st4 & _ & E)];
    [destruct (writeStore_Err _ _ _ _ _ E) |].
  apply wrapErr_Err in E as (e0 & ->). eauto.
Qed.

(** One step of a run that ends in a bad request: the step itself cannot
    have made that error. *)
Ltac not_here E :=
  solve
    [ discriminate E
    | destruct (writeStore_Err _ _ _ _ _ E)
    | let e0 := fresh "e" in let Q := fresh "Q" in
      apply wrapErr_Err in E as (e0 & Q); discriminate Q
    | let m := fresh "m" in let w := fresh "w" in let Q := fresh "Q" in
      apply writeLegacyParameters_Err in E as (m & w & Q); discriminate Q ].

Ltac step E a stn En :=
  apply bind_Err in E as [E | (a & stn & En & E)]; [not_here E |].

Lemma computeAndInsert_bad_request (st : St S) m w st' :
  computeAndInsert st = (Err (BuildError StatusBadRequest m w), st') ->
  m = errorString w /\
  exists legacy jp p,
    writes st' = writes st ++ legacy
                 ++ [WInsertProvisionerJob jp; WInsertWorkspaceBuild p] /\
    forallb isParameterWrite legacy = true.
Proof.
  intros E. unfold computeAndInsert in E.
  step E t st1 E1. apply wrapErr_Ok in E1.
  apply (Quiet_at _ _ _ _ (Quiet_Reads _ _ Reads_getTemplate)) in E1 as (_ & W1).
  step E tvj st2 E2. apply wrapErr_Ok in E2.
  apply (Quiet_at _ _ _ _ (Quiet_Reads _ _ Reads_getTemplateVersionJob)) in E2 as (_ & W2).
  step E lps st3 E3. apply wrapErr_Ok in E3.
  apply (Quiet_at _ _ _ _ (Quiet_Reads _ _ Reads_getLastParameterValues)) in E3
    as (_ & W3).
  step E u4 st4 E4. apply (Quiet_at _ _ _ _ (Quiet_modB _)) in E4 as (_ & W4).
  step E u5 st5 E5. apply (Quiet_at _ _ _ _ (Quiet_modB _)) in E5 as (_ & W5).
  step E now st6 E6. apply (Quiet_at _ _ _ _ (Quiet_draw _)) in E6 as (_ & W6).
  step E b st7 E7. unfold getB in E7. injection E7 as <- <-.
  step E u8 st8 E8.
  apply writeLegacyParameters_effect in E8 as (_ & legacy & W8 & F8).
  step E workspaceBuildID st9 E9.
  apply (Quiet_at _ _ _ _ (Quiet_draw _)) in E9 as (_ & W9).
  apply bind_Err in E as [E | (input & st10 & E10 & E)].
  { apply wrapErr_Err in E as (e0 & Q). discriminate Q. }
  apply wrapErr_Ok in E10. apply liftResult_at in E10 as (_ & ->).
  step E traceMetadataRaw st11 E11.
  apply wrapErr_Ok in E11. apply liftResult_at in E11 as (_ & ->).
  step E jobID st12 E12. apply (Quiet_at _ _ _ _ (Quiet_draw _)) in E12 as (_ & W12).
  step E jobCreatedAt st13 E13.
  apply (Quiet_at _ _ _ _ (Quiet_draw _)) in E13 as (_ & W13).
  step E jobUpdatedAt st14 E14.
  apply (Quiet_at _ _ _ _ (Quiet_draw _)) in E14 as (_ & W14).
  apply bind_Err in E as [E | (provisionerJob & stJ & EJ & E)].
  { apply bind_Err in E as [E | (rJ & stJ' & _ & E)]; not_here E. }
  apply bind_Ok in EJ as (rJ & stJ' & EJ' & EJ). apply wrapErr_Ok in EJ.
  apply liftResult_at in EJ as (_ & ->).
  match type of EJ' with
  | writeStore (WInsertProvisionerJob ?q) _ _ = _ => set (jp := q) in *
  end.
  apply writeStore_at in EJ' as (_ & WJ & _ & _).
  step E templateVersionID stA EA. apply wrapErr_Ok in EA.
  apply (Quiet_at _ _ _ _ (Quiet_Reads _ _ Reads_getTemplateVersionID)) in EA
    as (_ & WA).
  step E buildNum stB EB. apply wrapErr_Ok in EB.
  apply (Quiet_at _ _ _ _ (Quiet_Reads _ _ Reads_getBuildNumber)) in EB as (_ & WB).
  step E stateB stC EC. apply wrapErr_Ok in EC.
  apply (Quiet_at _ _ _ _ (Quiet_Reads _ _ Reads_getState)) in EC as (_ & WC).
  step E buildCreatedAt st15 E15.
  apply (Quiet_at _ _ _ _ (Quiet_draw _)) in E15 as (_ & W15).
  step E buildUpdatedAt st16 E16.
  apply (Quiet_at _ _ _ _ (Quiet_draw _)) in E16 as (_ & W16).
  apply bind_Err in E as [E | (workspaceBuild & stD & ED & E)].
  { apply bind_Err in E as [E | (rD & stD' & _ & E)]; not_here E. }
  apply bind_Ok in ED as (rD & stD' & ED' & ED). apply wrapErr_Ok in ED.
  apply liftResult_at in ED as (_ & ->).
  match type of ED' with
  | writeStore (WInsertWorkspaceBuild ?q) _ _ = _ => set (p := q) in *
  end.
  apply writeStore_at in ED' as (_ & WD & _ & _).
  assert (W : writes stD' = writes st ++ legacy
                            ++ [WInsertProvisionerJob jp; WInsertWorkspaceBuild p]).
  { rewrite WD, W16, W15, WC, WB, WA, WJ, W14, W13, W12, W9, W8, W6, W5, W4, W3, W2, W1.
    rewrite <- !app_assoc. reflexivity. }
  (* the rich parameters *)
  apply bind_Err in E as [E | (nv & stE & EE & E)].
  - pose proof (Quiet_at _ _ _ _ Quiet_getParameters E) as (_ & WE).
    split; [| exists legacy, jp, p; rewrite WE; auto].
    unfold getParameters in E.
    step E tvps s1 G1. step E lbp s2 G2. step E lpv s3 G3.
    step E b' s4 G4. apply liftResult_at in E as (E & _). symmetry in E.
    clear - E. revert E. generalize (@nil string) at 1 2. intros names.
    generalize names at 1. revert names.
    induction tvps as [|tvp tvps IH]; intros names values E; simpl in E;
      [discriminate E |].
    destruct (conversion_TemplateVersionParameter tvp) as [sdk|e0];
      [| discriminate E].
    destruct (ValidateResolve _ sdk _) as [value|e0].
    + apply (IH _ _ E).
    + injection E as <- <-. reflexivity.
  - exfalso.
    apply bind_Err in E as [E | (u & stF & _ & E)]; [| discriminate E].
    apply bind_Err in E as [E | (err & stF' & _ & E)];
      [destruct (writeStore_Err _ _ _ _ _ E) |].
    destruct err; discriminate E.
Qed.

(** Rich parameters are validated last: when [buildTx] has passed its
    pre-checks and then rejects a parameter (status 400, with the message of
    the validator's error), the job and the build have been inserted on the
    transaction's handle already, after the legacy parameter writes.  Only
    the rollback of the transaction undoes them. *)
Theorem parameters_are_validated_after_the_inserts (authFunc : AuthFunc)
    (st : St S) (m : string) (w : error) (st' : St S) :
  preChecksV authFunc (bld st) (tx st) = Ok tt ->
  buildTx authFunc st = (Err (BuildError StatusBadRequest m w), st') ->
  m = errorString w /\
  exists legacy jp p,
    writes st' = writes st ++ legacy
                 ++ [WInsertProvisionerJob jp; WInsertWorkspaceBuild p] /\
    forallb isParameterWrite legacy = true.
Proof.
  intros P E.
  destruct (buildTx_preChecks authFunc st) as (st1 & X & E1).
  rewrite P, E in E1. symmetry in E1.
  destruct (computeAndInsert_bad_request _ _ _ _ E1) as (M & legacy & jp & p & W & F).
  split; [exact M |]. exists legacy, jp, p.
  rewrite W, (ext_writes _ _ X). auto.
Qed.

(** The accessors are reads through the cache.  Each returns the value in
    its slot or, the slot being empty, the row the store has under the key
    the builder resolves (the workspace's template; the latest build of the
    workspace; the version chosen by the version selector; the import job of
    that version; the job of the last build; the workspace-scoped parameter
    values), and in doing so fills slots only: no write, no draw, and the
    settings and the other accessors' values stay as they are.  The build
    number and the state are computed from such reads. *)
Theorem accessors_read_through_the_cache :
  Reads getTemplate viewTemplate /\
  Reads getLastBuild viewLastBuild /\
  Reads getTemplateVersion viewTemplateVersion /\
  Reads getTemplateVersionJob viewTemplateVersionJob /\
  Reads getLastBuildJob viewLastBuildJob /\
  Reads getLastParameterValues viewLastParameterValues /\
  Reads getBuildNumber viewBuildNumber /\
  Reads getState viewState.
Proof.
  repeat split;
    [ apply Reads_getTemplate | apply Reads_getLastBuild
    | apply Reads_getTemplateVersion | apply Reads_getTemplateVersionJob
    | apply Reads_getLastBuildJob | apply Reads_getLastParameterValues
    | apply Reads_getBuildNumber | apply Reads_getState ].
Qed.

End LateRejection.

Section Selectors.
Context {S : Type} `{Store S} `{Collaborators}.

(** Of the two version selectors and of the two state selectors the last
    one called wins: a successful [Build] after [VersionID] then
    [ActiveVersion] commits the template's active version, after
    [ActiveVersion] then [VersionID] the version given; after [State] then
    [Orphan] an empty state, after [Orphan] then [State] the state given. *)
Theorem last_selector_wins (authFunc : AuthFunc) (b : Builder) (store : S)
    (tk : nat) (v : UUID) (blob : bytes) :
  let committed b' p :=
    exists legacy jp pp,
      o_committed (Build authFunc b' store tk) =
        legacy ++ [WInsertProvisionerJob jp; WInsertWorkspaceBuild p;
                   WInsertWorkspaceBuildParameters pp] in
  (o_err (Build authFunc (ActiveVersion (VersionID v b)) store tk) = None ->
   exists k t p,
     (k < 5)%nat /\
     viewTemplate (startBuilder authFunc k (ActiveVersion (VersionID v b), store, tk))
       (txBegin (startStore authFunc k (ActiveVersion (VersionID v b), store, tk)))
       = Ok t /\
     committed (ActiveVersion (VersionID v b)) p /\
     IWB_TemplateVersionID p = Template_ActiveVersionID t)
  /\
  (o_err (Build authFunc (VersionID v (ActiveVersion b)) store tk) = None ->
   exists p, committed (VersionID v (ActiveVersion b)) p /\
             IWB_TemplateVersionID p = v)
  /\
  (o_err (Build authFunc (Orphan (State blob b)) store tk) = None ->
   exists p, committed (Orphan (State blob b)) p /\ IWB_ProvisionerState p = [])
  /\
  (o_err (Build authFunc (State blob (Orphan b)) store tk) = None ->
   exists p, committed (State blob (Orphan b)) p /\ IWB_ProvisionerState p = blob).
Proof.
  intros committed. unfold committed. clear committed.
  split; [| split; [| split]]; intros E;
    destruct (Build_rows authFunc _ store tk E)
      as (k & wb & pj & t & tvj & lps & bl & tvps & lbp & Hk & R & W1 & W2 & V1 & V2
          & V3 & L & TV & LBP & I & Rs & K & RO);
    destruct RO as (input & raw & values & M & Tr & Rv & Ws & SJ & SD).
  - exists k, t. eexists. split; [exact Hk |]. split; [exact V1 |].
    split; [eexists _, _, _; exact Ws | reflexivity].
  - eexists. split; [eexists _, _, _; exact Ws | reflexivity].
  - eexists. split; [eexists _, _, _; exact Ws | reflexivity].
  - eexists. split; [eexists _, _, _; exact Ws | reflexivity].
Qed.

End Selectors.

Section FailedReads.
Context {S : Type} `{Store S} `{Collaborators}.

(** A read that fails in a pre-check is reported as an internal error (500)
    that names what could not be fetched and wraps the store's error, be it
    [sql.ErrNoRows]: a missing row is not reported as not found.  In the
    order of the checks: the template; the template version; its import job;
    the job of the last build. *)
Theorem failed_reads_are_internal_errors (authFunc : AuthFunc) (b : Builder)
    (store : S) (tk : nat) (e : error) :
  let out := Build authFunc b store tk in
  let allowed :=
    match authFunc with
    | Some f =>
        exists action, actionOf (trans b) = Some action /\
                       f action (ObjWorkspace (workspace b)) = true
    | None => True
    end in
  isSerializationFailure (Some e) = false ->
  (allowed -> viewTemplate b (txBegin store) = Err e ->
   rejectedWith
     (BuildError StatusInternalServerError "failed to fetch template" e)
     store tk out)
  /\
  (forall t,
     authorizeOptV authFunc b (txBegin store) = Ok tt ->
     viewTemplate b (txBegin store) = Ok t ->
     viewTemplateVersion b (txBegin store) = Err e ->
     rejectedWith
       (BuildError StatusInternalServerError "failed to fetch template version" e)
       store tk out)
  /\
  (authorizeOptV authFunc b (txBegin store) = Ok tt ->
   checkTemplateVersionMatchesTemplateV b (txBegin store) = Ok tt ->
   viewTemplateVersionJob b (txBegin store) = Err e ->
   rejectedWith
     (BuildError StatusInternalServerError "failed to fetch template version job" e)
     store tk out)
  /\
  (authorizeOptV authFunc b (txBegin store) = Ok tt ->
   checkTemplateVersionMatchesTemplateV b (txBegin store) = Ok tt ->
   checkTemplateJobStatusV b (txBegin store) = Ok tt ->
   viewLastBuildJob b (txBegin store) = Err e ->
   rejectedWith
     (BuildError StatusInternalServerError "failed to fetch prior build" e)
     store tk out).
Proof.
  intros out allowed Ser. subst out allowed.
  assert (Ser' : forall m, isSerializationFailure
                             (Some (BuildError StatusInternalServerError m e)) = false)
    by (intros m; exact Ser).
  split; [| split; [| split]].
  - intros Al T. apply Build_rejectedWith; [| apply Ser'].
    unfold preChecksV. destruct authFunc as [f|]; simpl.
    + destruct Al as (action & A & W).
      unfold authorizeV. rewrite A, W, T. reflexivity.
    + unfold checkTemplateVersionMatchesTemplateV. rewrite T. reflexivity.
  - intros t Au T V. apply Build_rejectedWith; [| apply Ser'].
    unfold preChecksV. rewrite Au. simpl.
    unfold checkTemplateVersionMatchesTemplateV. rewrite T, V. reflexivity.
  - intros Au M J. apply Build_rejectedWith; [| apply Ser'].
    unfold preChecksV. rewrite Au, M. simpl.
    unfold checkTemplateJobStatusV. rewrite J.
    (* the version was read by the check before *)
    unfold checkTemplateVersionMatchesTemplateV in M.
    destruct (viewTemplate b (txBegin store)); [| discriminate M]. simpl in M.
    destruct (viewTemplateVersion b (txBegin store)); [| discriminate M].
    reflexivity.
  - intros Au M I L. apply Build_rejectedWith; [| apply Ser'].
    unfold preChecksV. rewrite Au, M, I. simpl.
    unfold checkRunningBuildV. rewrite L. reflexivity.
Qed.


End FailedReads.

(** * More of the builder on the sample deployment *)

Section MoreSamples.

#[local] Existing Instance FakeStore_Store.
#[local] Existing Instance testCollaborators.


(** A caller who may do nothing. *)
Lemma denied_caller_gets_not_found_witness :
  actionOf (trans start1) = Some ActionUpdate /\
  denyAll ActionUpdate (ObjWorkspace (workspace start1)) = false /\
  rejectedWith (BuildError StatusNotFound ResourceNotFoundMessage emptyErr)
    sampleStore 0 (runBuild (Some denyAll) start1 sampleStore) /\
  o_b (runBuild (Some denyAll) start1 sampleStore) = start1.
Proof.
  split; [vm_compute; reflexivity |]. split; [vm_compute; reflexivity |].
  apply (denied_caller_gets_not_found denyAll start1 sampleStore 0 ActionUpdate);
    vm_compute; reflexivity.
Defined.

(** A transition the builder does not know. *)
Lemma unsupported_transition_is_rejected_witness :
  actionOf (trans (New workspace1 "restart")) = None /\
  rejectedWith
    (BuildError StatusBadRequest
       ("Transition " ++ fmt_q (trans (New workspace1 "restart"))
        ++ " not supported.")%string emptyErr)
    sampleStore 0 (runBuild (Some allowAll) (New workspace1 "restart") sampleStore).
Proof.
  split; [vm_compute; reflexivity |].
  apply (unsupported_transition_is_rejected allowAll (New workspace1 "restart")
           sampleStore 0).
  vm_compute; reflexivity.
Defined.

(** The owner of workspace 1 asks for an orphaned build. *)
Lemma custom_state_needs_template_update_witness :
  customState (state (Orphan start1)) = true /\
  ownerOnly ActionUpdate (ObjTemplateRBACObject sampleTemplate) = false /\
  rejectedWith
    (BuildError StatusForbidden "Only template managers may provide custom state"
       emptyErr)
    sampleStore 0 (runBuild (Some ownerOnly) (Orphan start1) sampleStore).
Proof.
  split; [vm_compute; reflexivity |]. split; [vm_compute; reflexivity |].
  apply (custom_state_needs_template_update ownerOnly (Orphan start1) sampleStore 0
           ActionUpdate sampleTemplate); vm_compute; reflexivity.
Defined.

Lemma allow_all_is_no_authFunc_witness :
  actionOf (trans start1) <> None /\
  runBuild (Some (fun _ _ => true)) start1 sampleStore
  = runBuild None start1 sampleStore.
Proof.
  assert (A : actionOf (trans start1) <> None) by (vm_compute; discriminate).
  split; [exact A |].
  apply (allow_all_is_no_authFunc start1 sampleStore 0 A).
Defined.

(** Workspace 1 belongs to user 7; no initiator and no reason are given. *)
Lemma initiator_and_reason_default_witness :
  o_err (runBuild None start1 sampleStore) = None /\
  initiator start1 = uuid_Nil /\ reason start1 = "" /\
  exists p,
    In (WInsertWorkspaceBuild p) (o_committed (runBuild None start1 sampleStore)) /\
    IWB_InitiatorID p = 7%N /\ IWB_Reason p = BuildReasonInitiator.
Proof.
  assert (E : o_err (runBuild None start1 sampleStore) = None)
    by (vm_compute; reflexivity).
  split; [exact E |]. split; [reflexivity |]. split; [reflexivity |].
  destruct (initiator_and_reason_default None start1 sampleStore 0 E)
    as (legacy & jp & p & pp & C & I1 & I2 & I3 & _).
  exists p. split.
  - rewrite C. apply in_or_app. right. right. left. reflexivity.
  - split; [exact I2 | exact I3].
Defined.


Lemma new_rows_are_linked_witness :
  o_err (runBuild None start1 sampleStore) = None /\
  exists pj p,
    o_provisionerJob (runBuild None start1 sampleStore) = Some pj /\
    In (WInsertWorkspaceBuild p) (o_committed (runBuild None start1 sampleStore)) /\
    IWB_JobID p = ProvisionerJob_ID pj.
Proof.
  assert (E : o_err (runBuild None start1 sampleStore) = None)
    by (vm_compute; reflexivity).
  split; [exact E |].
  destruct (new_rows_are_linked None start1 sampleStore 0 E)
    as (wb & pj & legacy & jp & p & pp & W1 & W2 & C & _ & _ & L & _).
  exists pj, p. split; [exact W2 |]. split; [| exact L].
  rewrite C. apply in_or_app. right. right. left. reflexivity.
Defined.


(** Workspace 1 has the legacy value 70 for [size]; a new one is requested. *)
Lemma legacy_parameters_are_replaced_witness :
  o_err (runBuild None (LegacyParameterValues [sizeRequest] start1) parameterStore)
    = None /\
  In (WDeleteParameterValueByID 70%N)
     (o_committed
        (runBuild None (LegacyParameterValues [sizeRequest] start1) parameterStore)).
Proof.
  assert (E : o_err (runBuild None (LegacyParameterValues [sizeRequest] start1)
                       parameterStore) = None)
    by (vm_compute; reflexivity).
  split; [exact E |].
  destruct (legacy_parameters_are_replaced None
              (LegacyParameterValues [sizeRequest] start1) parameterStore 0 E)
    as (k & lps & jp & p & pp & Hk & V & C & _).
  rewrite C. apply in_or_app. left.
  destruct k as [|[|[|[|[|k]]]]]; try lia;
    vm_compute in V; injection V as <-; left; reflexivity.
Defined.


(** The caller hands in a build numbered 10; the store's latest is 3. *)
Lemma handed_in_last_build_is_used_witness :
  o_err (runBuild None
           (SetLastWorkspaceBuildInTx
              (Some (sampleBuild 60%N 1%N 21%N 10 [] 40%N)) start1) sampleStore)
    = None /\
  exists p,
    In (WInsertWorkspaceBuild p)
       (o_committed
          (runBuild None
             (SetLastWorkspaceBuildInTx
                (Some (sampleBuild 60%N 1%N 21%N 10 [] 40%N)) start1) sampleStore)) /\
    IWB_BuildNumber p = 11.
Proof.
  assert (E : o_err (runBuild None
                       (SetLastWorkspaceBuildInTx
                          (Some (sampleBuild 60%N 1%N 21%N 10 [] 40%N)) start1)
                       sampleStore) = None)
    by (vm_compute; reflexivity).
  split; [exact E |].
  destruct (handed_in_last_build_is_used None start1 sampleStore 0 _ E)
    as (legacy & jp & p & pp & C & N & _).
  exists p. split; [| exact N].
  rewrite C. apply in_or_app. right. right. left. reflexivity.
Defined.

(** The last build has the largest int32 as its number. *)
Lemma build_number_wraps_around_witness :
  o_err (runBuild None (SetLastWorkspaceBuildInTx (Some lastOfAll) start1) sampleStore)
    = None /\
  WorkspaceBuild_BuildNumber lastOfAll = 2 ^ 31 - 1 /\
  exists p,
    In (WInsertWorkspaceBuild p)
       (o_committed
          (runBuild None (SetLastWorkspaceBuildInTx (Some lastOfAll) start1)
             sampleStore)) /\
    IWB_BuildNumber p = - 2 ^ 31.
Proof.
  assert (E : o_err (runBuild None (SetLastWorkspaceBuildInTx (Some lastOfAll) start1)
                       sampleStore) = None)
    by (vm_compute; reflexivity).
  split; [exact E |]. split; [reflexivity |].
  apply (build_number_wraps_around None
           (SetLastWorkspaceBuildInTx (Some lastOfAll) start1) sampleStore 0 lastOfAll E);
    [vm_compute; reflexivity | reflexivity].
Defined.

(** [region] is declared, and no value is known for it. *)
Lemma invalid_parameter_is_bad_request_witness :
  resolveParameters {| Rich := []; Legacy := [] |} [] [regionParameter] [] []
  = Err (BuildError StatusBadRequest
           (errorString (ErrNew "parameter value is required"))
           (ErrNew "parameter value is required")).
Proof.
  apply (invalid_parameter_is_bad_request {| Rich := []; Legacy := [] |} [] [] []
           regionParameter
           {| SDKTemplateVersionParameter_Name := "region";
              SDKTemplateVersionParameter_Schema := "" |}
           [] (ErrNew "parameter value is required") [] []).
  - constructor.
  - reflexivity.
  - reflexivity.
Defined.

(** On the store where the last build has no value for [region], the
    rejection comes with the job and the build written. *)
Lemma parameters_are_validated_after_the_inserts_witness :
  let st := {| bld := start1; tx := incompleteStore; writes := []; tick := 0%nat |} in
  preChecksV None (bld st) (tx st) = Ok tt /\
  fst (buildTx None st)
    = Err (BuildError StatusBadRequest "error" (ErrNew "parameter value is required")) /\
  exists jp p,
    writes (snd (buildTx None st))
    = [WInsertProvisionerJob jp; WInsertWorkspaceBuild p].
Proof.
  intros st.
  assert (P : preChecksV None (bld st) (tx st) = Ok tt) by (vm_compute; reflexivity).
  assert (F : fst (buildTx None st)
              = Err (BuildError StatusBadRequest "error"
                       (ErrNew "parameter value is required")))
    by (vm_compute; reflexivity).
  split; [exact P |]. split; [exact F |].
  destruct (buildTx None st) as [r st'] eqn:E. cbn [fst snd] in *. subst r.
  destruct (parameters_are_validated_after_the_inserts None st _ _ st' P E)
    as (_ & legacy & jp & p & W & L).
  exists jp, p. rewrite W. cbn [writes st app].
  assert (legacy = []) as ->; [| reflexivity].
  assert (N : List.length (writes st') = 2%nat).
  { replace st' with (snd (buildTx None st)) by (rewrite E; reflexivity).
    vm_compute. reflexivity. }
  rewrite W in N. cbn [writes st app] in N. rewrite length_app in N. simpl in N.
  destruct legacy; [reflexivity | simpl in N; lia].
Defined.

(** Version 21 is asked for, then the active version: it is version 20. *)
Lemma last_selector_wins_witness :
  o_err (runBuild None (ActiveVersion (VersionID 21%N start1)) sampleStore) = None /\
  exists p,
    In (WInsertWorkspaceBuild p)
       (o_committed (runBuild None (ActiveVersion (VersionID 21%N start1)) sampleStore))
    /\ IWB_TemplateVersionID p = 20%N.
Proof.
  assert (E : o_err (runBuild None (ActiveVersion (VersionID 21%N start1)) sampleStore)
              = None)
    by (vm_compute; reflexivity).
  split; [exact E |].
  destruct (last_selector_wins None start1 sampleStore 0 21%N []) as (P & _).
  destruct (P E) as (k & t & p & Hk & T & (legacy & jp & pp & C) & V).
  exists p. split.
  - rewrite C. apply in_or_app. right. right. left. reflexivity.
  - rewrite V.
    destruct k as [|[|[|[|[|k]]]]]; try lia;
      vm_compute in T; injection T as <-; reflexivity.
Defined.

(** No template version has the id 99. *)
Lemma failed_reads_are_internal_errors_witness :
  viewTemplateVersion (VersionID 99%N start1) (txBegin sampleStore) = Err ErrNoRows /\
  rejectedWith
    (BuildError StatusInternalServerError "failed to fetch template version" ErrNoRows)
    sampleStore 0 (runBuild None (VersionID 99%N start1) sampleStore).
Proof.
  split; [vm_compute; reflexivity |].
  destruct (failed_reads_are_internal_errors None (VersionID 99%N start1) sampleStore 0
              ErrNoRows eq_refl) as (_ & P & _).
  apply (P sampleTemplate); vm_compute; reflexivity.
Defined.


End MoreSamples.
